(** * POAP provisioning script for NX-OS (hack/dnsmasq/nxos.py)

    A shallow embedding of the provisioning script: the path translator
    [to_posix_path], the type 8 password hash [generate_type8_password],
    the image janitor [clean_old_images], the fetch-and-verify engine
    [download_image], [configure] and the orchestrator [main], followed by
    the properties of the specification that concern them. *)

From Stdlib Require Import Strings.String Strings.Ascii Strings.Byte List ZArith Zbitwise Lia Bool.
From stdpp Require Import gmap strings.
Import ListNotations.
Open Scope string_scope.
Open Scope list_scope.

(** ** Python exceptions and results *)

(** The exception classes the script raises or catches.  [SystemExit] is what
    [exit(code)] raises; it is not an [Exception] subclass. *)
Inductive exn : Type :=
| ChecksumError (msg : string)
| RequestException
| cmd_exec_error (msg : string)
| ValueError (msg : string)
| OSError
| ZeroDivisionError
| SystemExit (code : Z).

Inductive result (A : Type) : Type :=
| Ok (a : A)
| Raise (e : exn).
Arguments Ok {A} a.
Arguments Raise {A} e.

(** [isinstance(e, Exception)]: everything but [SystemExit]. *)
Definition is_Exception (e : exn) : bool :=
  match e with
  | SystemExit _ => false
  | _ => true
  end.

(** ** Strings as Python uses them *)

(** [s.split(sep)] for a one-character separator: never empty, [""] splits
    into [[""]]. *)
Fixpoint split (sep : ascii) (s : string) : list string :=
  match s with
  | EmptyString => [EmptyString]
  | String c s' =>
      if Ascii.eqb c sep then EmptyString :: split sep s'
      else match split sep s' with
           | t :: ts => String c t :: ts
           | [] => [String c EmptyString]
           end
  end.

(** [s.replace(c, "")] for a one-character [c]. *)
Fixpoint remove_char (c : ascii) (s : string) : string :=
  match s with
  | EmptyString => EmptyString
  | String a s' =>
      if Ascii.eqb a c then remove_char c s' else String a (remove_char c s')
  end.

(** [sep.join(l)]. *)
Definition join (sep : string) (l : list string) : string := String.concat sep l.

(** Truthiness of a string: [if token:]. *)
Definition truthy (s : string) : bool :=
  match s with
  | EmptyString => false
  | String _ _ => true
  end.

(** [x in l] for a list of strings. *)
Definition str_in (x : string) (l : list string) : bool :=
  existsb (String.eqb x) l.

(** [needle in s]: substring test. *)
Fixpoint contains (needle s : string) : bool :=
  if String.prefix needle s then true
  else match s with
       | EmptyString => false
       | String _ s' => contains needle s'
       end.

(** ** Path translator *)

Definition volume_labels : list string :=
  ["bootflash:"; "flash:"; "nvram:"; "usb2:"; "usb1:"].

(** [to_posix_path], lines 73-84. *)
Definition to_posix_path (path : string) : result string :=
  let tokens := split "/" path in
  let t0 := hd EmptyString tokens in
  if str_in t0 volume_labels then
    let ppath := ("/" +:+ remove_char ":" t0) :: List.filter truthy (tl tokens) in
    Ok (join "/" ppath)
  else
    Raise (ValueError ("Unknown path type: " +:+ path)).

(** ** Password hash utility *)

(** *** Bytes and 32-bit words *)

Local Open Scope Z_scope.

Definition bytes : Type := list byte.

Definition byte_to_Z (b : byte) : Z := Z.of_N (Byte.to_N b).

Definition Z_to_byte (z : Z) : byte :=
  match Byte.of_N (Z.to_N (z mod 256)) with
  | Some b => b
  | None => Byte.x00
  end.

(** [s.encode()]: a Python [str] is modelled by the bytes of its UTF-8
    encoding, which is what a Rocq [string] holds. *)
Definition encode (s : string) : bytes := list_byte_of_string s.

Definition xor_bytes (a b : bytes) : bytes :=
  List.map (fun p => Z_to_byte (Z.lxor (byte_to_Z (fst p)) (byte_to_Z (snd p))))
           (combine a b).

Definition w32 (x : Z) : Z := Z.land x 0xffffffff.
Definition add32 (x y : Z) : Z := w32 (x + y).
Definition rotr (n x : Z) : Z := Z.lor (Z.shiftr x n) (w32 (Z.shiftl x (32 - n))).
Definition not32 (x : Z) : Z := Z.lxor x 0xffffffff.

(** Big-endian serialisation of a word into [n] bytes. *)
Fixpoint be_bytes (n : nat) (x : Z) : bytes :=
  match n with
  | O => []
  | S n' => Z_to_byte (Z.shiftr x (8 * Z.of_nat n')) :: be_bytes n' x
  end.

Definition be_word (bs : bytes) : Z :=
  fold_left (fun acc b => acc * 256 + byte_to_Z b) bs 0.

(** *** SHA-256 (FIPS 180-4), as [hashlib] computes it *)

(** The round constants are the first 32 bits of the fractional parts of the
    cube roots of the first 64 primes, the initial hash value those of the
    square roots of the first 8 primes. *)
Definition is_prime (n : Z) : bool :=
  (1 <? n) && forallb (fun d => negb (n mod d =? 0))
                      (List.map Z.of_nat (seq 2 (Z.to_nat n - 2))).

Definition primes_below (n : nat) : list Z :=
  List.filter is_prime (List.map Z.of_nat (seq 2 (n - 2))).

(** Integer cube root, one bit at a time from bit [bits - 1] down. *)
Fixpoint icbrt (bits : nat) (n r : Z) : Z :=
  match bits with
  | O => r
  | S b =>
      let c := r + 2 ^ Z.of_nat b in
      icbrt b n (if c * c * c <=? n then c else r)
  end.

Definition frac32_cbrt (p : Z) : Z := w32 (icbrt 40 (p * 2 ^ 96) 0).
Definition frac32_sqrt (p : Z) : Z := w32 (Z.sqrt (p * 2 ^ 64)).

Definition sha256_K : list Z :=
  Eval vm_compute in List.map frac32_cbrt (firstn 64 (primes_below 312)).

Definition sha256_H0 : list Z :=
  Eval vm_compute in List.map frac32_sqrt (firstn 8 (primes_below 20)).

Definition Ch (x y z : Z) : Z := Z.lxor (Z.land x y) (Z.land (not32 x) z).
Definition Maj (x y z : Z) : Z :=
  Z.lxor (Z.lxor (Z.land x y) (Z.land x z)) (Z.land y z).
Definition Sigma0 (x : Z) : Z := Z.lxor (Z.lxor (rotr 2 x) (rotr 13 x)) (rotr 22 x).
Definition Sigma1 (x : Z) : Z := Z.lxor (Z.lxor (rotr 6 x) (rotr 11 x)) (rotr 25 x).
Definition sigma0 (x : Z) : Z := Z.lxor (Z.lxor (rotr 7 x) (rotr 18 x)) (Z.shiftr x 3).
Definition sigma1 (x : Z) : Z := Z.lxor (Z.lxor (rotr 17 x) (rotr 19 x)) (Z.shiftr x 10).

(** Padding: the byte [0x80], zeros up to 56 modulo 64, the bit length on
    eight bytes. *)
Definition sha256_pad (msg : bytes) : bytes :=
  let len := Z.of_nat (length msg) in
  let zeros := Z.to_nat ((55 - len) mod 64) in
  msg ++ [Byte.x80] ++ repeat Byte.x00 zeros ++ be_bytes 8%nat (8 * len).

(** The sixteen words of a 64-byte block. *)
Fixpoint block_words (n : nat) (blk : bytes) : list Z :=
  match n with
  | O => []
  | S n' => be_word (firstn 4%nat blk) :: block_words n' (skipn 4%nat blk)
  end.

(** Message schedule; [rw] holds the words computed so far, newest first. *)
Fixpoint schedule (n : nat) (rw : list Z) : list Z :=
  match n with
  | O => rev rw
  | S n' =>
      let w := add32 (add32 (sigma1 (nth 1%nat rw 0)) (nth 6%nat rw 0))
                     (add32 (sigma0 (nth 14%nat rw 0)) (nth 15%nat rw 0)) in
      schedule n' (w :: rw)
  end.

Record sha_state : Type := ShaState {
  sa : Z; sb : Z; sc : Z; sd : Z; se : Z; sf : Z; sg : Z; sh : Z
}.

Definition state_of_list (l : list Z) : sha_state :=
  ShaState (nth 0%nat l 0) (nth 1%nat l 0) (nth 2%nat l 0) (nth 3%nat l 0)
           (nth 4%nat l 0) (nth 5%nat l 0) (nth 6%nat l 0) (nth 7%nat l 0).

Definition sha_round (s : sha_state) (kw : Z * Z) : sha_state :=
  let t1 := add32 (add32 (add32 (sh s) (Sigma1 (se s)))
                         (add32 (Ch (se s) (sf s) (sg s)) (fst kw))) (snd kw) in
  let t2 := add32 (Sigma0 (sa s)) (Maj (sa s) (sb s) (sc s)) in
  ShaState (add32 t1 t2) (sa s) (sb s) (sc s) (add32 (sd s) t1) (se s) (sf s) (sg s).

Definition sha_compress (h : sha_state) (blk : bytes) : sha_state :=
  let w := schedule 48%nat (rev (block_words 16%nat blk)) in
  let s := fold_left sha_round (combine sha256_K w) h in
  ShaState (add32 (sa h) (sa s)) (add32 (sb h) (sb s)) (add32 (sc h) (sc s))
           (add32 (sd h) (sd s)) (add32 (se h) (se s)) (add32 (sf h) (sf s))
           (add32 (sg h) (sg s)) (add32 (sh h) (sh s)).

(** The blocks of a padded message; [n] bounds their number. *)
Fixpoint sha_blocks (n : nat) (h : sha_state) (msg : bytes) : sha_state :=
  match n, msg with
  | S n', _ :: _ => sha_blocks n' (sha_compress h (firstn 64%nat msg)) (skipn 64%nat msg)
  | _, _ => h
  end.

Definition sha_digest (h : sha_state) : bytes :=
  be_bytes 4%nat (sa h) ++ be_bytes 4%nat (sb h) ++ be_bytes 4%nat (sc h) ++ be_bytes 4%nat (sd h) ++
  be_bytes 4%nat (se h) ++ be_bytes 4%nat (sf h) ++ be_bytes 4%nat (sg h) ++ be_bytes 4%nat (sh h).

Definition sha256 (msg : bytes) : bytes :=
  let m := sha256_pad msg in
  sha_digest (sha_blocks (length m) (state_of_list sha256_H0) m).

(** *** HMAC (RFC 2104) and PBKDF2 (RFC 8018) over SHA-256 *)

Definition hmac_sha256 (key msg : bytes) : bytes :=
  let k := if (64 <? length key)%nat then sha256 key else key in
  let k := k ++ repeat Byte.x00 (64 - length k)%nat in
  let ipad := xor_bytes k (repeat Byte.x36 64%nat) in
  let opad := xor_bytes k (repeat Byte.x5c 64%nat) in
  sha256 (opad ++ sha256 (ipad ++ msg)).

(** [hashlib.pbkdf2_hmac('sha256', password, salt, iterations)]: with no
    [dklen] the key has the digest's length, so it is the first block
    [T_1 = U_1 xor ... xor U_c]. *)
Definition pbkdf2_hmac_sha256 (password salt : bytes) (iterations : N) : bytes :=
  let u1 := hmac_sha256 password (salt ++ be_bytes 4%nat 1) in
  let step (ut : bytes * bytes) :=
    let u := hmac_sha256 password (fst ut) in (u, xor_bytes (snd ut) u) in
  snd (N.iter (iterations - 1) step (u1, u1)).

(** *** Base64 and the vendor alphabet *)

Definition std_b64chars : string :=
  "ABCDEFGHIJKLMNOPQRSTUVWXYZabcdefghijklmnopqrstuvwxyz0123456789+/".
Definition cisco_b64chars : string :=
  "./0123456789ABCDEFGHIJKLMNOPQRSTUVWXYZabcdefghijklmnopqrstuvwxyz".

(** The character of the standard alphabet for a 6-bit value. *)
Definition b64char (i : Z) : ascii :=
  match String.get (Z.to_nat (Z.land i 63)) std_b64chars with
  | Some c => c
  | None => "="%char
  end.

(** [base64.b64encode], three bytes at a time, padded with [=]. *)
Fixpoint b64encode (data : bytes) : string :=
  match data with
  | [] => EmptyString
  | [a] =>
      let n := Z.shiftl (byte_to_Z a) 16 in
      String (b64char (Z.shiftr n 18)) (String (b64char (Z.shiftr n 12)) "==")
  | [a; b] =>
      let n := Z.lor (Z.shiftl (byte_to_Z a) 16) (Z.shiftl (byte_to_Z b) 8) in
      String (b64char (Z.shiftr n 18)) (String (b64char (Z.shiftr n 12))
        (String (b64char (Z.shiftr n 6)) "="))
  | a :: b :: c :: rest =>
      let n := Z.lor (Z.lor (Z.shiftl (byte_to_Z a) 16) (Z.shiftl (byte_to_Z b) 8))
                     (byte_to_Z c) in
      String (b64char (Z.shiftr n 18)) (String (b64char (Z.shiftr n 12))
        (String (b64char (Z.shiftr n 6)) (String (b64char n) (b64encode rest))))
  end.

(** [str.maketrans(x, y)]: the dict sending [x[i]] to [y[i]]. *)
Definition maketrans (x y : string) : gmap ascii ascii :=
  fold_left (fun m kv => <[fst kv := snd kv]> m)
            (combine (list_ascii_of_string x) (list_ascii_of_string y)) ∅.

(** [s.translate(table)]: characters without an entry are kept. *)
Fixpoint translate (table : gmap ascii ascii) (s : string) : string :=
  match s with
  | EmptyString => EmptyString
  | String c s' => String (default c (table !! c)) (translate table s')
  end.

(** [s.rstrip(c)] for a one-character [c]. *)
Fixpoint rstrip (c : ascii) (s : string) : string :=
  match s with
  | EmptyString => EmptyString
  | String a s' =>
      match rstrip c s' with
      | EmptyString => if Ascii.eqb a c then EmptyString else String a EmptyString
      | r => String a r
      end
  end.

Definition b64table : gmap ascii ascii := maketrans std_b64chars cisco_b64chars.

(** [to_cisco_base64], lines 40-43. *)
Definition to_cisco_base64 (data : bytes) : string :=
  let b64 := b64encode data in
  rstrip "=" (translate b64table b64).

(** [not salt_bytes]: [None] and the empty byte string are falsy. *)
Definition falsy (salt_bytes : option bytes) : bool :=
  match salt_bytes with
  | None => true
  | Some [] => true
  | Some (_ :: _) => false
  end.

(** The entropy source behind [os.urandom]: an infinite byte stream and the
    position reached in it. *)
Record Rng : Type := MkRng { rng_stream : nat -> byte; rng_pos : nat }.

(** [os.urandom(n)]: the next [n] bytes of the stream. *)
Definition urandom (n : nat) (g : Rng) : bytes * Rng :=
  (List.map (rng_stream g) (seq (rng_pos g) n), MkRng (rng_stream g) (rng_pos g + n)).

(** [generate_type8_password], lines 20-48.  The only effect of the function
    is the draw from [os.urandom], so the entropy source is threaded
    through. *)
Definition generate_type8_password
    (password : string) (salt_bytes : option bytes) (g : Rng) : string * Rng :=
  let '(salt_bytes, g) :=
    if falsy salt_bytes then urandom 10 g else (default [] salt_bytes, g) in
  let dk := pbkdf2_hmac_sha256 (encode password) salt_bytes 20000 in
  ("$nx-pbkdf2$" +:+ to_cisco_base64 salt_bytes +:+ "$" +:+ to_cisco_base64 dk, g).

Local Close Scope Z_scope.

(** ** Data model of the orchestrator *)

(** [bootstrap["image"]]. *)
Record ImageSpec : Type := MkImageSpec {
  version : string;
  url : string;
  md5sum : string
}.

(** The bootstrap descriptor; [config_lines] is [bootstrap["config"]["lines"]]. *)
Record BootstrapDescriptor : Type := MkBootstrap {
  image : ImageSpec;
  config_lines : list string
}.

(** The dict [get_booted_image] returns. *)
Record RunningImage : Type := MkRunning {
  running_version : string;
  running_path : string
}.

(** The fields of [show version] the script reads. *)
Record ShowVersion : Type := MkShowVersion {
  nxos_ver_str : string;
  nxos_file_name : string;
  proc_board_id : string
}.

(** ** Observable events *)

Inductive level : Type := INFO | WARNING | ERROR.

(** One constructor per [LOG] call of the modelled functions. *)
Inductive message : Type :=
| MsgFoundBinFiles (files : list string)
| MsgSkipTarget (file : string)
| MsgSkipRunning (file : string)
| MsgRemoving (file : string)
| MsgRemoveFailed (file : string)
| MsgDownloading (from to : string)
| MsgDownloaded (written : nat)
| MsgAlreadyExists (target : string)
| MsgMd5Matches (target : string)
| MsgBootstrap (b : BootstrapDescriptor)
| MsgBootstrapFailed
| MsgBooted (r : RunningImage)
| MsgException (e : exn)
| MsgDeletingTarget (target : string)
| MsgDownloadFailed
| MsgSettingBoot (target : string)
| MsgCopying
| MsgStartupImage (img : string)
| MsgBootAlreadySet
| MsgConfiguring
| MsgCopied
| MsgCopyFailed (msg : string)
| MsgStartupConfig (cfg : string)
| MsgNoStartupConfig
| MsgShowStartupFailed (msg : string)
| MsgCompleted
| MsgUncaught (e : exn).

Inductive event : Type :=
| Log (lvl : level) (m : message)
| HttpGet (from : string)
| FileOpen (path : string)
| FileWrite (path : string) (chunk : bytes)
| FileRemove (path : string)
| Command (cmd : string).

Definition is_command (ev : event) : bool :=
  match ev with Command _ => true | _ => false end.

Definition is_download (ev : event) : bool :=
  match ev with HttpGet _ => true | _ => false end.

(** The two log lines of the branches at lines 198-208. *)
Definition is_decision (ev : event) : bool :=
  match ev with
  | Log INFO (MsgSettingBoot _) | Log INFO MsgBootAlreadySet => true
  | _ => false
  end.

(** The first log line of every [download_image] call. *)
Definition is_attempt (ev : event) : bool :=
  match ev with
  | Log INFO (MsgDownloading _ _) | Log INFO (MsgAlreadyExists _) => true
  | _ => false
  end.

Definition count (p : event -> bool) (t : list event) : nat :=
  length (List.filter p t).

(** No [p] event occurs after a [q] event. *)
Fixpoint none_after (p q : event -> bool) (t : list event) : bool :=
  match t with
  | [] => true
  | ev :: t' => if q ev then forallb (fun x => negb (p x)) t' else none_after p q t'
  end.

(** ** The collaborators: device, network, clock, file system *)

(** What the command facility answers: output, or [cmd_exec_error]. *)
Inductive reply (A : Type) : Type :=
| Done (out : A)
| Failed (msg : string).
Arguments Done {A} out.
Arguments Failed {A} msg.

(** What an image download yields: a failure before any byte, or the chunks
    [iter_content] delivers and whether the stream ends cleanly. *)
Inductive http_reply : Type :=
| HttpError
| HttpStream (chunks : list bytes) (complete : bool).

(** The environment of a run.  The device and the servers are oracles: the
    answer to a command may depend on how many commands were issued before
    it, and likewise for downloads.  The digest the device reports for a
    file is a function of the file's content.

    [clock n] is what [time.time()] reads once [n] events have been
    recorded, in ticks of the clock: two readings differ by [0.0] exactly
    when they are the same tick.  [fs_fault n] tells whether the file-system
    call made once [n] events have been recorded fails with [OSError] for a
    reason the file tree does not show (permissions, a read-only or full
    volume, an I/O error). *)
Record Env : Type := MkEnv {
  dev_show_version : nat -> reply ShowVersion;
  dev_show_boot : nat -> reply string;
  dev_cli : nat -> string -> reply string;
  dev_md5sum : bytes -> string;
  http_bootstrap : string -> option BootstrapDescriptor;
  http_image : nat -> string -> http_reply;
  clock : nat -> Z;
  fs_fault : nat -> bool
}.

(** *** The file tree *)

(** A node of the file tree: a regular file with its content, or a
    directory.  The script creates and removes regular files only. *)
Inductive node : Type :=
| File (content : bytes)
| Dir.

(** The file tree: the nodes by their place, the list of names that leads to
    them from the root.  The root is a directory.  There are no links,
    symbolic or hard, so a node has one place. *)
Record Volume : Type := MkVolume {
  nodes : gmap (list string) node
}.

Definition node_at (v : Volume) (k : list string) : option node :=
  match k with
  | [] => Some Dir
  | _ :: _ => nodes v !! k
  end.

Definition is_dir_key (v : Volume) (k : list string) : bool :=
  match node_at v k with
  | Some Dir => true
  | _ => false
  end.

(** Path resolution as the kernel does it, one component at a time from the
    place reached so far, which has to be a directory: an empty component
    and [.] stay, [..] goes to the parent, a name goes down.  The last name
    need not exist. *)
Fixpoint walk (v : Volume) (cur comps : list string) : option (list string) :=
  match comps with
  | [] => Some cur
  | c :: rest =>
      if is_dir_key v cur then
        if String.eqb c "" || String.eqb c "." then walk v cur rest
        else if String.eqb c ".." then walk v (removelast cur) rest
        else walk v (cur ++ [c]) rest
      else None
  end.

(** The place an absolute path leads to, if its directories exist.  The
    script uses absolute paths only; a relative path leads nowhere here. *)
Definition resolve (v : Volume) (p : string) : option (list string) :=
  match split "/" p with
  | EmptyString :: c :: rest => walk v [] (c :: rest)
  | _ => None
  end.

(** The canonical spelling of a place. *)
Definition path_of (k : list string) : string := "/" +:+ join "/" k.

(** Whether a path leads to a node, as [os.path.exists] tells. *)
Definition exists_at (v : Volume) (p : string) : bool :=
  match resolve v p with
  | Some k => bool_decide (is_Some (node_at v k))
  | None => false
  end.

(** The content of the regular file a path leads to. *)
Definition file_at (v : Volume) (p : string) : option bytes :=
  match resolve v p with
  | Some k => match node_at v k with
              | Some (File content) => Some content
              | _ => None
              end
  | None => None
  end.

(** Whether a path can be opened for writing: its directories exist and it
    does not lead to a directory. *)
Definition writable (v : Volume) (p : string) : bool :=
  match resolve v p with
  | Some k => negb (is_dir_key v k)
  | None => false
  end.

(** The tree with the given content in the regular file at a path. *)
Definition put_file (p : string) (content : bytes) (v : Volume) : Volume :=
  match resolve v p with
  | Some k => if is_dir_key v k then v else MkVolume (<[k := File content]> (nodes v))
  | None => v
  end.

(** The tree without the regular file at a path. *)
Definition remove_file (p : string) (v : Volume) : Volume :=
  match resolve v p with
  | Some k => match node_at v k with
              | Some (File _) => MkVolume (delete k (nodes v))
              | _ => v
              end
  | None => v
  end.

(** [v !! p] is the content of the regular file at path [p], [<[p := c]> v]
    and [delete p v] write and remove it. *)
#[global] Instance volume_lookup : Lookup string bytes Volume :=
  fun p v => file_at v p.
#[global] Instance volume_insert : Insert string bytes Volume := put_file.
#[global] Instance volume_delete : Delete string Volume := remove_file.

(** The state a run changes: the file tree, and the events so far, oldest
    first. *)
Record World : Type := MkWorld {
  fs : Volume;
  trace : list event
}.

(** ** A state and exception monad for the script *)

Definition M (A : Type) : Type := Env -> World -> result A * World.

Definition ret {A} (a : A) : M A := fun _ w => (Ok a, w).

Definition bind {A B} (m : M A) (k : A -> M B) : M B :=
  fun env w =>
    match m env w with
    | (Ok a, w') => k a env w'
    | (Raise e, w') => (Raise e, w')
    end.

Definition raise {A} (e : exn) : M A := fun _ w => (Raise e, w).

(** [try: m except ...]: [handler e] is the body of the clause that matches
    [e], if any.  What a clause raises is not caught by its siblings. *)
Definition catch {A} (m : M A) (handler : exn -> option (M A)) : M A :=
  fun env w =>
    match m env w with
    | (Ok a, w') => (Ok a, w')
    | (Raise e, w') =>
        match handler e with
        | Some h => h env w'
        | None => (Raise e, w')
        end
    end.

Declare Scope script_scope.
Delimit Scope script_scope with script.
Bind Scope script_scope with M.
Notation "x <- m ;; k" := (bind m (fun x => k))
  (at level 100, m at next level, k at level 200, right associativity) : script_scope.
Notation "m ;; k" := (bind m (fun _ => k))
  (at level 100, k at level 200, right associativity) : script_scope.
Open Scope script_scope.

Definition lift {A} (r : result A) : M A := fun _ w => (r, w).

Definition emit (ev : event) : M unit :=
  fun _ w => (Ok tt, MkWorld (fs w) (trace w ++ [ev])).

Definition log (lvl : level) (m : message) : M unit := emit (Log lvl m).

(** [exit(code)]. *)
Definition exit {A} (code : Z) : M A := raise (SystemExit code).

(** *** Clock and boot volume *)

(** [time.time()]. *)
Definition time_time : M Z :=
  fun env w => (Ok (clock env (length (trace w))), w).

(** [os.path.exists]. *)
Definition os_path_exists (p : string) : M bool :=
  fun _ w => (Ok (exists_at (fs w) p), w).

(** [os.remove]: [OSError] when the path leads to no regular file, or when
    the removal fails. *)
Definition os_remove (p : string) : M unit :=
  fun env w =>
    match fs w !! p with
    | Some _ =>
        if fs_fault env (length (trace w)) then (Raise OSError, w)
        else (Ok tt, MkWorld (delete p (fs w)) (trace w ++ [FileRemove p]))
    | None => (Raise OSError, w)
    end.

(** [open(p, "wb")]: the file is created, or truncated; [OSError] when the
    path cannot be opened for writing, or when the call fails. *)
Definition open_wb (p : string) : M unit :=
  fun env w =>
    if writable (fs w) p && negb (fs_fault env (length (trace w))) then
      (Ok tt, MkWorld (<[p := []]> (fs w)) (trace w ++ [FileOpen p]))
    else (Raise OSError, w).

(** [f.write(data)] on the file opened at [p]; [OSError] when the write
    fails. *)
Definition file_write (p : string) (data : bytes) : M unit :=
  fun env w =>
    if fs_fault env (length (trace w)) then (Raise OSError, w)
    else (Ok tt, MkWorld (<[p := default [] (fs w !! p) ++ data]> (fs w))
                         (trace w ++ [FileWrite p data])).

(** Suffix test. *)
Definition ends_with (suffix s : string) : bool :=
  String.prefix (String.rev suffix) (String.rev s).

(** Whether a name matches the pattern [*.bin]: not hidden, with the
    extension. *)
Definition glob_pattern (name : string) : bool :=
  ends_with ".bin" name && negb (String.prefix "." name).

(** Whether a place is an entry of [/bootflash] that the pattern
    [/bootflash/*.bin] matches: a node, file or directory, that its
    canonical path leads to. *)
Definition bin_entry (v : Volume) (k : list string) : bool :=
  match k with
  | [dir; name] =>
      String.eqb dir "bootflash" && glob_pattern name
      && bool_decide (resolve v (path_of k) = Some k)
  | _ => false
  end.

(** What [glob.glob("/bootflash/*.bin", recursive=False)] returns: the
    matching entries, each as [/bootflash/] followed by its name. *)
Definition glob_names (v : Volume) : list string :=
  List.map path_of (List.filter (bin_entry v) (List.map fst (map_to_list (nodes v)))).

Definition glob_bin : M (list string) :=
  fun _ w => (Ok (glob_names (fs w)), w).

(** *** Device commands *)

Definition of_reply {A} (r : reply A) : result A :=
  match r with
  | Done out => Ok out
  | Failed msg => Raise (cmd_exec_error msg)
  end.

(** [cli(command)], also [clid] under [cli_json]. *)
Definition cli (command : string) : M string :=
  fun env w =>
    (of_reply (dev_cli env (count is_command (trace w)) command),
     MkWorld (fs w) (trace w ++ [Command command])).

(** [cli_json('show version')]. *)
Definition cli_json_show_version : M ShowVersion :=
  fun env w =>
    (of_reply (dev_show_version env (count is_command (trace w))),
     MkWorld (fs w) (trace w ++ [Command "show version"])).

(** [cli_json('show boot')['TABLE_Startup_Bootvar']['start_image']]. *)
Definition cli_json_show_boot : M string :=
  fun env w =>
    (of_reply (dev_show_boot env (count is_command (trace w))),
     MkWorld (fs w) (trace w ++ [Command "show boot"])).

(** [cli_json(f"show file {path} md5sum")['file_content_md5sum']]: the
    device resolves the volume path as the translator does and digests the
    regular file found there. *)
Definition cli_json_md5sum (path : string) : M string :=
  fun env w =>
    (match to_posix_path path with
     | Ok p =>
         match fs w !! p with
         | Some content => Ok (dev_md5sum env content)
         | None => Raise (cmd_exec_error "No such file or directory")
         end
     | Raise _ => Raise (cmd_exec_error "Invalid path")
     end,
     MkWorld (fs w) (trace w ++ [Command ("show file " +:+ path +:+ " md5sum")])).

(** *** Network *)

(** [requests.get(url, timeout=60, stream=True)] with [raise_for_status]. *)
Definition requests_get (from : string) : M (list bytes * bool) :=
  fun env w =>
    (match http_image env (count is_download (trace w)) from with
     | HttpError => Raise RequestException
     | HttpStream chunks complete => Ok (chunks, complete)
     end,
     MkWorld (fs w) (trace w ++ [HttpGet from])).

(** [get_bootstrap_data], lines 99-102. *)
Definition get_bootstrap_data (serial : string) : M BootstrapDescriptor :=
  fun env w =>
    (match http_bootstrap env serial with
     | Some b => Ok b
     | None => Raise RequestException
     end, w).

(** ** The functions of the script *)

(** [get_booted_image], lines 105-113. *)
Definition get_booted_image : M RunningImage :=
  show_version <- cli_json_show_version ;;
  ret (MkRunning (nxos_ver_str show_version) (nxos_file_name show_version)).

(** The loop body of [clean_old_images], lines 119-130. *)
Definition clean_one (running_image_path target_image_path bin_file : string) : M unit :=
  if String.eqb bin_file target_image_path then
    log INFO (MsgSkipTarget bin_file)
  else if String.eqb bin_file running_image_path then
    log INFO (MsgSkipRunning bin_file)
  else
    catch (log INFO (MsgRemoving bin_file) ;; os_remove bin_file)
          (fun e => match e with
                    | OSError => Some (log ERROR (MsgRemoveFailed bin_file))
                    | _ => None
                    end).

Fixpoint for_each {A} (l : list A) (body : A -> M unit) : M unit :=
  match l with
  | [] => ret tt
  | x :: l' => body x ;; for_each l' body
  end.

(** [clean_old_images], lines 116-130. *)
Definition clean_old_images (running_image_path target_image_path : string) : M unit :=
  bin_files <- glob_bin ;;
  log INFO (MsgFoundBinFiles bin_files) ;;
  for_each bin_files (clean_one running_image_path target_image_path).

(** The streaming loop of [download_image], lines 141-148.  The rate is
    [len(data) / elapsed / (1024 * 1024)]: the division of a number by the
    float [elapsed] raises [ZeroDivisionError] when [elapsed] is [0.0].  The
    progress line is identified by the number of bytes written. *)
Fixpoint write_chunks
    (p : string) (chunks : list bytes) (written : nat) (last_written : Z) : M unit :=
  match chunks with
  | [] => ret tt
  | data :: rest =>
      file_write p data ;;
      now <- time_time ;;
      let elapsed := (now - last_written)%Z in
      (if Z.eqb elapsed 0 then raise ZeroDivisionError else ret tt) ;;
      let written := written + length data in
      log INFO (MsgDownloaded written) ;;
      last_written <- time_time ;;
      write_chunks p rest written last_written
  end.

Definition checksum_message (target expected got : string) : string :=
  "MD5 checksum mismatch for " +:+ target +:+ ". Expected " +:+ expected
  +:+ ", got " +:+ got.

(** The transfer of [download_image], lines 135-148.  Leaving the [with]
    block closes the file, also when the loop raises: what was written
    stays. *)
Definition download_stream (image_conf : ImageSpec) (target_image_path : string) : M unit :=
  log INFO (MsgDownloading (url image_conf) target_image_path) ;;
  response <- requests_get (url image_conf) ;;
  last_written <- time_time ;;
  p <- lift (to_posix_path target_image_path) ;;
  open_wb p ;;
  write_chunks p (fst response) 0 last_written ;;
  if snd response then ret tt else raise RequestException.

(** The verification of [download_image], lines 151-155. *)
Definition verify_md5sum (image_conf : ImageSpec) (target_image_path : string) : M unit :=
  md5 <- cli_json_md5sum target_image_path ;;
  if negb (String.eqb md5 (md5sum image_conf)) then
    raise (ChecksumError (checksum_message target_image_path (md5sum image_conf) md5))
  else
    log INFO (MsgMd5Matches target_image_path).

(** [download_image], lines 133-155. *)
Definition download_image (image_conf : ImageSpec) (target_image_path : string) : M unit :=
  p <- lift (to_posix_path target_image_path) ;;
  present <- os_path_exists p ;;
  (if negb present then
     download_stream image_conf target_image_path
   else
     log INFO (MsgAlreadyExists target_image_path)) ;;
  verify_md5sum image_conf target_image_path.

Definition conf_string (config_lines : list string) : string :=
  "configure terminal ; " +:+ join " ; " config_lines +:+ " ; end".

(** [configure], lines 158-161. *)
Definition configure (config_lines : list string) : M unit :=
  cli (conf_string config_lines) ;; ret tt.

Definition LOCAL_IMAGE_DIR : string := "bootflash:///".

(** [os.path.basename]: what follows the last slash. *)
Definition basename (p : string) : string := List.last (split "/" p) EmptyString.

(** The condition of lines 198-199, the specification's
    [needs_new_boot_config]. *)
Definition needs_new_boot_config
    (running_image : RunningImage) (target_image_path target_version : string) : bool :=
  negb (String.eqb (running_path running_image) target_image_path)
  || negb (String.eqb (running_version running_image) target_version).

(** [main], lines 172-184: serial, descriptor, running image, target path and
    the janitor.  Logging setup, the signal handler and the free-space line
    of lines 165-170 are left out. *)
Definition main_prepare : M (BootstrapDescriptor * RunningImage * string) :=
  show_version <- cli_json_show_version ;;
  let serial := proc_board_id show_version in
  bootstrap <-
    catch (bootstrap <- get_bootstrap_data serial ;;
           log INFO (MsgBootstrap bootstrap) ;;
           ret bootstrap)
          (fun e => match e with
                    | RequestException => Some (log ERROR MsgBootstrapFailed ;; exit 1)
                    | _ => None
                    end) ;;
  running_image <- get_booted_image ;;
  log INFO (MsgBooted running_image) ;;
  let target_image_path := LOCAL_IMAGE_DIR +:+ basename (url (image bootstrap)) in
  running_posix <- lift (to_posix_path (running_path running_image)) ;;
  target_posix <- lift (to_posix_path target_image_path) ;;
  clean_old_images running_posix target_posix ;;
  ret (bootstrap, running_image, target_image_path).

(** [main], lines 186-196: fetch, verify, and the retry. *)
Definition main_download
    (bootstrap : BootstrapDescriptor) (running_image : RunningImage)
    (target_image_path : string) : M unit :=
  catch (download_image (image bootstrap) target_image_path)
        (fun e =>
           match e with
           | ChecksumError _ =>
               Some (log ERROR (MsgException e) ;;
                     if negb (String.eqb target_image_path (running_path running_image)) then
                       log WARNING (MsgDeletingTarget target_image_path) ;;
                       p <- lift (to_posix_path target_image_path) ;;
                       os_remove p ;;
                       download_image (image bootstrap) target_image_path
                     else ret tt)
           | RequestException => Some (log ERROR MsgDownloadFailed ;; exit 1)
           | _ => None
           end).

(** [main], lines 198-208: the boot variable. *)
Definition main_boot_config
    (bootstrap : BootstrapDescriptor) (running_image : RunningImage)
    (target_image_path : string) : M unit :=
  if needs_new_boot_config running_image target_image_path (version (image bootstrap)) then
    log INFO (MsgSettingBoot target_image_path) ;;
    configure ["boot nxos " +:+ target_image_path] ;;
    log INFO MsgCopying ;;
    cli "copy running-config startup-config" ;;
    startup_image <- cli_json_show_boot ;;
    log INFO (MsgStartupImage startup_image)
  else
    log INFO MsgBootAlreadySet.

(** [main], lines 210-229: configuration, persistence, reload. *)
Definition main_persist (bootstrap : BootstrapDescriptor) : M unit :=
  log INFO MsgConfiguring ;;
  configure (config_lines bootstrap) ;;
  catch (cli "copy running-config startup-config" ;;
         log INFO MsgCopied)
        (fun e => match e with
                  | cmd_exec_error msg =>
                      Some (log ERROR (MsgCopyFailed msg) ;; exit 1)
                  | _ => None
                  end) ;;
  catch (startup_config <- cli "show startup-config" ;;
         log INFO (MsgStartupConfig startup_config))
        (fun e => match e with
                  | cmd_exec_error msg =>
                      Some (if contains "No startup configuration found" msg then
                              log WARNING MsgNoStartupConfig
                            else
                              log ERROR (MsgShowStartupFailed msg))
                  | _ => None
                  end) ;;
  log INFO MsgCompleted ;;
  cli "terminal dont-ask ; reload" ;;
  ret tt.

(** [main], lines 164-229. *)
Definition main : M unit :=
  prepared <- main_prepare ;;
  let bootstrap := fst (fst prepared) in
  let running_image := snd (fst prepared) in
  let target_image_path := snd prepared in
  main_download bootstrap running_image target_image_path ;;
  main_boot_config bootstrap running_image target_image_path ;;
  main_persist bootstrap.

(** The [__main__] block, lines 232-237: the exit status of the process. *)
Definition script (env : Env) (w : World) : Z * World :=
  match main env w with
  | (Ok _, w') => (0%Z, w')
  | (Raise (SystemExit code), w') => (code, w')
  | (Raise e, w') => (1%Z, MkWorld (fs w') (trace w' ++ [Log ERROR (MsgUncaught e)]))
  end.

(** ** Notions used to state the properties *)

(** Whether a character occurs in a string. *)
Fixpoint has_char (c : ascii) (s : string) : bool :=
  match s with
  | EmptyString => false
  | String a s' => Ascii.eqb a c || has_char c s'
  end.

(** The volume names, without the colon. *)
Definition volume_names : list string :=
  ["bootflash"; "flash"; "nvram"; "usb2"; "usb1"].

(** Whether every character of a string satisfies a test. *)
Fixpoint all_chars (p : ascii -> bool) (s : string) : bool :=
  match s with
  | EmptyString => true
  | String a s' => p a && all_chars p s'
  end.

Fixpoint string_map (f : ascii -> ascii) (s : string) : string :=
  match s with
  | EmptyString => EmptyString
  | String a s' => String (f a) (string_map f s')
  end.

(** [n] padding characters. *)
Fixpoint padding (n : nat) : string :=
  match n with
  | O => EmptyString
  | S n' => String "=" (padding n')
  end.

(** The position of the first occurrence of a character. *)
Fixpoint index_of (c : ascii) (s : string) : option nat :=
  match s with
  | EmptyString => None
  | String a s' => if Ascii.eqb a c then Some O else option_map S (index_of c s')
  end.

(** The specification's remapping: the character at the same position of
    the vendor alphabet; a character outside the standard alphabet stays. *)
Definition remap_by_position (c : ascii) : ascii :=
  match index_of c std_b64chars with
  | Some i => default c (String.get i cisco_b64chars)
  | None => c
  end.

(** The specification's encoding of [data] is [e]: the remapped standard
    base64 of [data] is [e] followed by padding only, and [e] is made of
    vendor-alphabet characters. *)
Definition vendor_encoded (data : bytes) (e : string) : Prop :=
  exists n, string_map remap_by_position (b64encode data) = e +:+ padding n
            /\ all_chars (fun c => has_char c cisco_b64chars) e = true.

(** A successful verification: the last log line of [download_image]. *)
Definition is_verified (ev : event) : bool :=
  match ev with
  | Log INFO (MsgMd5Matches _) => true
  | _ => false
  end.

(** What the verification of a file with the given digest yields. *)
Definition verdict (image_conf : ImageSpec) (target digest : string) : result unit :=
  if String.eqb digest (md5sum image_conf) then Ok tt
  else Raise (ChecksumError (checksum_message target (md5sum image_conf) digest)).

(** The events of a verification. *)
Definition verify_events (image_conf : ImageSpec) (target digest : string) : list event :=
  Command ("show file " +:+ target +:+ " md5sum")
  :: (if String.eqb digest (md5sum image_conf) then [Log INFO (MsgMd5Matches target)] else []).

(** Whether a command was sent to the device. *)
Definition issued (command : string) (t : list event) : bool :=
  existsb (fun ev => match ev with
                     | Command c => String.eqb c command
                     | _ => false
                     end) t.

(** Whether a file was removed. *)
Definition removed (p : string) (t : list event) : bool :=
  existsb (fun ev => match ev with
                     | FileRemove q => String.eqb q p
                     | _ => false
                     end) t.

(** The exit status and the events of a run. *)
Definition exit_status (env : Env) (w : World) : Z := fst (script env w).
Definition events (env : Env) (w : World) : list event := trace (snd (script env w)).

(** A computation only records events that pass the test [p]. *)
Definition emits {A} (p : event -> bool) (m : M A) : Prop :=
  forall env w, exists t, trace (snd (m env w)) = trace w ++ t /\ forallb p t = true.

(** Neither a boot decision nor a download. *)
Definition quiet (ev : event) : bool := negb (is_decision ev) && negb (is_download ev).

(** Neither the start of a [download_image] call nor a download. *)
Definition no_transfer (ev : event) : bool := negb (is_attempt ev) && negb (is_download ev).

(** The exceptions a transfer ends with: the transport error, the division
    by a zero elapsed time, a failed file operation. *)
Definition transfer_error (e : exn) : bool :=
  match e with
  | RequestException | ZeroDivisionError | OSError => true
  | _ => false
  end.

(** The log line of the branch the boot decision takes. *)
Definition decision_event (needed : bool) (target_image_path : string) : event :=
  if needed then Log INFO (MsgSettingBoot target_image_path)
  else Log INFO MsgBootAlreadySet.

(** ** Concrete runs *)

Definition salt0 : bytes := encode "0123456789".

(** A device digest for the examples: files starting with [g] are good. *)
Definition digest0 (content : bytes) : string :=
  match content with
  | "g"%byte :: _ => "good"
  | _ => "bad"
  end.

Definition env0 (running : ShowVersion) (b : BootstrapDescriptor)
    (answers : nat -> string -> reply string) : Env :=
  {| dev_show_version := fun _ => Done running;
     dev_show_boot := fun _ => Done (LOCAL_IMAGE_DIR +:+ basename (url (image b)));
     dev_cli := answers;
     dev_md5sum := digest0;
     http_bootstrap := fun _ => Some b;
     http_image := fun _ _ => HttpStream [["g"%byte; "a"%byte]; ["b"%byte]] true;
     clock := Z.of_nat;
     fs_fault := fun _ => false |}.

(** A file tree with the directory [/bootflash] and the given files in it. *)
Definition bootflash_with (files : list (string * bytes)) : Volume :=
  MkVolume (list_to_map ((["bootflash"], Dir)
                         :: List.map (fun f => (["bootflash"; fst f], File (snd f))) files)).

Definition descriptor0 : BootstrapDescriptor :=
  MkBootstrap (MkImageSpec "10.4(4)" "https://example.com/images/nxos.bin" "good")
              ["hostname sw1"].

(** The running image is the file the descriptor names, reported with one
    slash; its content does not match the expected digest. *)
Definition env_same_file : Env :=
  env0 (MkShowVersion "10.4(3)" "bootflash:/nxos.bin" "SN1") descriptor0
       (fun _ _ => Done "ok").

(** The same, with the running image reported under the target path. *)
Definition env_same_path : Env :=
  env0 (MkShowVersion "10.4(4)" "bootflash:///nxos.bin" "SN1") descriptor0
       (fun _ _ => Done "ok").

Definition world_stale : World :=
  MkWorld (bootflash_with [("nxos.bin", ["r"%byte])]) [].

(** The device runs an older image; the target is not on the boot volume. *)
Definition env_upgrade : Env :=
  env0 (MkShowVersion "10.4(3)" "bootflash:///nxos.10.4.3.bin" "SN1") descriptor0
       (fun _ _ => Done "ok").

Definition world_old : World :=
  MkWorld (bootflash_with [("nxos.10.4.3.bin", ["r"%byte])]) [].

(** That device with a corrupt copy of the target on the boot volume. *)
Definition world_corrupt : World :=
  MkWorld (bootflash_with [("nxos.10.4.3.bin", ["r"%byte]); ("nxos.bin", ["r"%byte])]) [].

Definition running_old : RunningImage :=
  MkRunning "10.4(3)" "bootflash:///nxos.10.4.3.bin".

Definition target0 : string := "bootflash:///nxos.bin".

Definition mismatch0 : string :=
  "MD5 checksum mismatch for bootflash:///nxos.bin. Expected good, got bad".

(** The state of that run after the janitor, and after the first attempt. *)
Definition world_prepared : World := snd (main_prepare env_upgrade world_corrupt).
Definition world_attempted : World :=
  snd (download_image (image descriptor0) target0 env_upgrade world_prepared).

(** The device already runs the target image; saving the configuration is
    rejected. *)
Definition env_save_rejected : Env :=
  env0 (MkShowVersion "10.4(4)" "bootflash:///nxos.bin" "SN1") descriptor0
       (fun _ command =>
          if String.eqb command "copy running-config startup-config"
          then Failed "Permission denied" else Done "ok").

(** The same device, where only the status check is rejected. *)
Definition env_show_rejected : Env :=
  env0 (MkShowVersion "10.4(4)" "bootflash:///nxos.bin" "SN1") descriptor0
       (fun _ command =>
          if String.eqb command "show startup-config"
          then Failed "No startup configuration found" else Done "ok").

Definition world_current : World :=
  MkWorld (bootflash_with [("nxos.bin", ["g"%byte])]) [].

(** ** Further notions for the properties of the remaining code *)

(** Whether the janitor removes a listed file. *)
Definition stale (running_image_path target_image_path bin_file : string) : bool :=
  negb (String.eqb bin_file target_image_path)
  && negb (String.eqb bin_file running_image_path).

(** The target path of a run. *)
Definition target_of (b : BootstrapDescriptor) : string :=
  LOCAL_IMAGE_DIR +:+ basename (url (image b)).

(** A world with more events. *)
Definition record (w : World) (t : list event) : World := MkWorld (fs w) (trace w ++ t).

(** The exceptions a computation may raise all pass the test [q]. *)
Definition raises {A} (q : exn -> bool) (m : M A) : Prop :=
  forall env w e, fst (m env w) = Raise e -> q e = true.

(** Every exception but an exit with a status other than 1. *)
Definition exit_ok (e : exn) : bool :=
  match e with
  | SystemExit code => Z.eqb code 1
  | _ => true
  end.

(** The reload command. *)
Definition is_reload (ev : event) : bool :=
  match ev with
  | Command c => String.eqb c "terminal dont-ask ; reload"
  | _ => false
  end.

(** The log line after a successful save. *)
Definition is_copied (ev : event) : bool :=
  match ev with
  | Log INFO MsgCopied => true
  | _ => false
  end.

Definition reload_command : string := "terminal dont-ask ; reload".

(** Two paths lead to the same place. *)
Definition same_place (v : Volume) (q p : string) : Prop :=
  exists k, resolve v q = Some k /\ resolve v p = Some k.

(** The file tree [v'] differs from [v] at most in the regular file that
    path [p] leads to: every other node and every directory is as it was. *)
Definition changes_at (p : string) (v v' : Volume) : Prop :=
  (forall k, resolve v p <> Some k -> nodes v' !! k = nodes v !! k)
  /\ (forall k, is_dir_key v' k = is_dir_key v k).

(** A computation changes the file tree at most in the file at [p]. *)
Definition touches {A} (p : string) (m : M A) : Prop :=
  forall env w, changes_at p (fs w) (fs (snd (m env w))).

(** A computation leaves the boot volume as it is. *)
Definition keeps {A} (m : M A) : Prop := forall env w, fs (snd (m env w)) = fs w.

(** The vendor character back to the standard alphabet, by position. *)
Definition remap_back (c : ascii) : ascii :=
  match index_of c cisco_b64chars with
  | Some i => default c (String.get i std_b64chars)
  | None => c
  end.

(** ** More concrete runs *)

(** An environment with another image server, and one whose descriptor
    server fails. *)
Definition with_image (env : Env) (answer : nat -> string -> http_reply) : Env :=
  MkEnv (dev_show_version env) (dev_show_boot env) (dev_cli env) (dev_md5sum env)
        (http_bootstrap env) answer (clock env) (fs_fault env).

Definition without_descriptor (env : Env) : Env :=
  MkEnv (dev_show_version env) (dev_show_boot env) (dev_cli env) (dev_md5sum env)
        (fun _ => None) (http_image env) (clock env) (fs_fault env).

(** The image server refuses the request, or breaks off after one chunk. *)
Definition env_refused : Env := with_image env_upgrade (fun _ _ => HttpError).
Definition env_truncated : Env :=
  with_image env_upgrade (fun _ _ => HttpStream [["g"%byte; "a"%byte]] false).

Definition env_no_descriptor : Env := without_descriptor env_upgrade.

(** A clock that stands still, and a volume on which every file operation
    fails. *)
Definition env_stalled : Env :=
  MkEnv (dev_show_version env_upgrade) (dev_show_boot env_upgrade) (dev_cli env_upgrade)
        (dev_md5sum env_upgrade) (http_bootstrap env_upgrade) (http_image env_upgrade)
        (fun _ => 0%Z) (fs_fault env_upgrade).
Definition env_readonly : Env :=
  MkEnv (dev_show_version env_upgrade) (dev_show_boot env_upgrade) (dev_cli env_upgrade)
        (dev_md5sum env_upgrade) (http_bootstrap env_upgrade) (http_image env_upgrade)
        (clock env_upgrade) (fun _ => true).

(** The boot volume of that device with an image no one needs. *)
Definition world_cluttered : World :=
  MkWorld (bootflash_with [("nxos.10.4.3.bin", ["r"%byte]); ("old.bin", ["o"%byte])]) [].

(** The device reports a running image on a volume the translator does not
    know. *)
Definition version_unknown_volume : ShowVersion :=
  MkShowVersion "10.4(3)" "disk0:/nxos.bin" "SN1".
Definition env_unknown_volume : Env :=
  env0 version_unknown_volume descriptor0 (fun _ _ => Done "ok").

(** The device reports its running image with a [.] segment. *)
Definition env_dotted : Env :=
  env0 (MkShowVersion "10.4(3)" "bootflash:/./nxos.10.4.3.bin" "SN1") descriptor0
       (fun _ _ => Done "ok").

Definition version_old : ShowVersion :=
  MkShowVersion "10.4(3)" "bootflash:///nxos.10.4.3.bin" "SN1".

Definition running_same : RunningImage := MkRunning "10.4(4)" "bootflash:///nxos.bin".

(** States reached in those runs. *)
Definition world_no_descriptor : World := snd (main_prepare env_no_descriptor world_old).
Definition world_refused_prepared : World := snd (main_prepare env_refused world_old).
Definition world_refused : World :=
  snd (download_image (image descriptor0) target0 env_refused world_refused_prepared).
Definition world_truncated : World :=
  snd (download_image (image descriptor0) target0 env_truncated world_old).
Definition world_same_prepared : World := snd (main_prepare env_same_path world_stale).
Definition world_same_attempted : World :=
  snd (download_image (image descriptor0) target0 env_same_path world_same_prepared).
Definition world_fetched : World :=
  snd (download_image (image descriptor0) target0 env_upgrade world_old).

(* ================================================================== *)
(** * Properties *)

(** ** Path translator *)

Section Split.
Variable sep : ascii.

Lemma split_nonempty (s : string) : split sep s <> [].
Proof.
  induction s as [|c s IH]; simpl; [discriminate|].
  destruct (Ascii.eqb c sep); [discriminate|].
  destruct (split sep s); discriminate.
Qed.

Lemma split_app_sep (a s : string) :
  split sep (a +:+ String sep s) = split sep a ++ split sep s.
Proof.
  induction a as [|c a IH]; simpl.
  - now rewrite Ascii.eqb_refl.
  - rewrite IH. destruct (Ascii.eqb c sep); [reflexivity|].
    pose proof (split_nonempty a) as Hne.
    destruct (split sep a) as [|t ts]; [contradiction|reflexivity].
Qed.

Lemma split_no_sep (s : string) :
  Forall (fun t => has_char sep t = false) (split sep s).
Proof.
  induction s as [|c s IH]; simpl.
  - constructor; [reflexivity|constructor].
  - destruct (Ascii.eqb c sep) eqn:E.
    + constructor; [reflexivity|assumption].
    + destruct (split sep s) as [|t ts].
      * constructor; [simpl; now rewrite E|constructor].
      * inversion IH; subst. constructor; [simpl; now rewrite E|assumption].
Qed.

Lemma split_single (t : string) :
  has_char sep t = false -> split sep t = [t].
Proof.
  induction t as [|c t IH]; simpl; [reflexivity|].
  intros H. apply orb_false_elim in H as [Hc Ht].
  rewrite Hc, (IH Ht). reflexivity.
Qed.

Lemma split_join (toks : list string) :
  toks <> [] ->
  Forall (fun t => has_char sep t = false) toks ->
  split sep (join (String sep EmptyString) toks) = toks.
Proof.
  induction toks as [|x toks IH]; [congruence|].
  intros _ Hall. inversion Hall as [|? ? Hx Hrest]; subst.
  destruct toks as [|y rest].
  - simpl. now apply split_single.
  - change (join (String sep EmptyString) (x :: y :: rest))
      with (x +:+ String sep (join (String sep EmptyString) (y :: rest))).
    rewrite split_app_sep, (split_single _ Hx), IH; [reflexivity|discriminate|assumption].
Qed.
End Split.

Lemma join_root (l : string) (segs : list string) :
  join "/" (("/" +:+ l) :: segs) = String "/" (join "/" (l :: segs)).
Proof. destruct segs; reflexivity. Qed.

Lemma split_root (x : string) :
  split "/" (String "/" x) = EmptyString :: split "/" x.
Proof. reflexivity. Qed.

Lemma filter_truthy_no_sep (sep : ascii) (toks : list string) :
  Forall (fun t => has_char sep t = false) toks ->
  Forall (fun t => has_char sep t = false) (List.filter truthy toks).
Proof.
  intros H. apply List.Forall_forall. intros t Ht.
  apply filter_In in Ht as [Ht _].
  rewrite List.Forall_forall in H. now apply H.
Qed.

Lemma filter_truthy_nonempty (toks : list string) :
  Forall (fun t => t <> EmptyString) (List.filter truthy toks).
Proof.
  apply List.Forall_forall. intros t Ht.
  apply filter_In in Ht as [_ Ht]. now destruct t.
Qed.

(** The segments of a translated path: the root, the volume name, then the
    non-empty segments of the input. *)
Lemma to_posix_path_segments (path l : string) :
  In l volume_names ->
  hd EmptyString (split "/" path) = l +:+ ":" ->
  to_posix_path path =
    Ok (String "/" (join "/" (l :: List.filter truthy (tl (split "/" path)))))
  /\ split "/" (String "/" (join "/" (l :: List.filter truthy (tl (split "/" path)))))
     = EmptyString :: l :: List.filter truthy (tl (split "/" path)).
Proof.
  intros Hl Hhd.
  assert (Hin : str_in (l +:+ ":") volume_labels = true
                /\ remove_char ":" (l +:+ ":") = l
                /\ has_char "/" l = false).
  { simpl in Hl.
    destruct Hl as [<-|[<-|[<-|[<-|[<-|[]]]]]]; repeat split; reflexivity. }
  destruct Hin as (Hin & Hrm & Hl').
  split.
  - unfold to_posix_path. rewrite Hhd, Hin, Hrm. now rewrite join_root.
  - rewrite split_root. f_equal. apply split_join; [discriminate|].
    constructor; [assumption|].
    apply filter_truthy_no_sep.
    pose proof (split_no_sep "/" path) as Hall.
    destruct (split "/" path); [constructor|now inversion Hall].
Qed.

Lemma str_in_labels (t0 : string) :
  str_in t0 volume_labels = true ->
  exists l, In l volume_names /\ t0 = l +:+ ":".
Proof.
  unfold str_in, volume_labels. intros H.
  apply existsb_exists in H as (x & Hx & Heq).
  apply String.eqb_eq in Heq. subst x.
  simpl in Hx.
  destruct Hx as [<-|[<-|[<-|[<-|[<-|[]]]]]];
    [exists "bootflash"|exists "flash"|exists "nvram"|exists "usb2"|exists "usb1"];
    (split; [simpl; tauto|reflexivity]).
Qed.

Lemma str_in_In (x : string) (l : list string) :
  str_in x l = true <-> In x l.
Proof.
  unfold str_in. rewrite existsb_exists. split.
  - intros (y & Hy & E). apply String.eqb_eq in E. now subst.
  - intros H. exists x. split; [assumption|apply String.eqb_refl].
Qed.

(** C7: an input whose first segment is a recognised volume label is
    translated to the POSIX path rooted at the volume name, made of the
    non-empty segments of the input in order; any other input raises the
    path error (a [ValueError]); the specification's example evaluates as
    stated.  The function is a plain function of its argument. *)
Theorem to_posix_path_spec (path : string) :
  to_posix_path "bootflash:/dir/file.bin" = Ok "/bootflash/dir/file.bin"
  /\ to_posix_path "foo:/bar" = Raise (ValueError "Unknown path type: foo:/bar")
  /\ (forall l, In l volume_names ->
        hd EmptyString (split "/" path) = l +:+ ":" ->
        exists r, to_posix_path path = Ok r
                  /\ String.prefix ("/" +:+ l) r = true
                  /\ split "/" r
                     = EmptyString :: l :: List.filter truthy (tl (split "/" path)))
  /\ (~ In (hd EmptyString (split "/" path)) volume_labels ->
        to_posix_path path = Raise (ValueError ("Unknown path type: " +:+ path))).
Proof.
  split; [reflexivity|]. split; [reflexivity|]. split.
  - intros l Hl Hhd.
    destruct (to_posix_path_segments path l Hl Hhd) as [Heq Hsplit].
    eexists. split; [exact Heq|]. split; [|exact Hsplit].
    simpl in Hl.
    destruct Hl as [<-|[<-|[<-|[<-|[<-|[]]]]]];
      destruct (List.filter truthy (tl (split "/" path))); reflexivity.
  - intros Hnot. unfold to_posix_path.
    destruct (str_in _ volume_labels) eqn:E; [|reflexivity].
    apply str_in_In in E. contradiction.
Qed.

Lemma to_posix_path_ok_tokens (p q r : string) :
  hd EmptyString (split "/" p) = hd EmptyString (split "/" q) ->
  List.filter truthy (tl (split "/" p)) = List.filter truthy (tl (split "/" q)) ->
  to_posix_path p = Ok r -> to_posix_path q = Ok r.
Proof.
  unfold to_posix_path. intros -> ->.
  destruct (str_in _ volume_labels); [trivial|discriminate].
Qed.

Lemma hd_split_app (a : string) (rest : list string) :
  hd EmptyString (split "/" a ++ rest) = hd EmptyString (split "/" a).
Proof.
  pose proof (split_nonempty "/" a).
  destruct (split "/" a); [contradiction|reflexivity].
Qed.

Lemma tl_split_app (a : string) (rest : list string) :
  tl (split "/" a ++ rest) = tl (split "/" a) ++ rest.
Proof.
  pose proof (split_nonempty "/" a).
  destruct (split "/" a); [contradiction|reflexivity].
Qed.

(** C10: the path returned for an accepted input has no empty segment below
    the root; doubling a slash or appending one to the input does not change
    the result, and [bootflash:///file.bin] and [bootflash:/file.bin] both
    translate to [/bootflash/file.bin]. *)
Theorem to_posix_path_no_empty_segment (path r : string) :
  to_posix_path path = Ok r ->
  (exists segs, split "/" r = EmptyString :: segs
                /\ Forall (fun s => s <> EmptyString) segs)
  /\ (forall a b, path = a +:+ "//" +:+ b -> to_posix_path (a +:+ "/" +:+ b) = Ok r)
  /\ (forall a, path = a +:+ "/" -> to_posix_path a = Ok r)
  /\ to_posix_path "bootflash:///file.bin" = Ok "/bootflash/file.bin"
  /\ to_posix_path "bootflash:/file.bin" = Ok "/bootflash/file.bin".
Proof.
  intros Hok. split; [|split; [|split; [|split; reflexivity]]].
  - assert (Hin : str_in (hd EmptyString (split "/" path)) volume_labels = true).
    { unfold to_posix_path in Hok.
      destruct (str_in _ volume_labels); [reflexivity|discriminate]. }
    destruct (str_in_labels _ Hin) as (l & Hl & Hhd).
    destruct (to_posix_path_segments path l Hl Hhd) as [Heq Hsplit].
    rewrite Heq in Hok. injection Hok as <-.
    eexists. split; [exact Hsplit|].
    constructor; [|apply filter_truthy_nonempty].
    simpl in Hl. destruct Hl as [<-|[<-|[<-|[<-|[<-|[]]]]]]; discriminate.
  - intros a b ->. revert Hok. apply to_posix_path_ok_tokens.
    + change (a +:+ "//" +:+ b) with (a +:+ String "/" (String "/" b)).
      change (a +:+ "/" +:+ b) with (a +:+ String "/" b).
      rewrite !split_app_sep. now rewrite !hd_split_app.
    + change (a +:+ "//" +:+ b) with (a +:+ String "/" (String "/" b)).
      change (a +:+ "/" +:+ b) with (a +:+ String "/" b).
      rewrite !split_app_sep, split_root, !tl_split_app, !List.filter_app. reflexivity.
  - intros a ->. revert Hok. apply to_posix_path_ok_tokens.
    + change (a +:+ "/") with (a +:+ String "/" EmptyString).
      rewrite split_app_sep. now rewrite hd_split_app.
    + change (a +:+ "/") with (a +:+ String "/" EmptyString).
      rewrite split_app_sep, tl_split_app, List.filter_app. simpl. apply app_nil_r.
Qed.

Lemma to_posix_path_no_empty_segment_witness :
  to_posix_path "bootflash:///file.bin" = Ok "/bootflash/file.bin"
  /\ (exists segs, split "/" "/bootflash/file.bin" = EmptyString :: segs
                   /\ Forall (fun s => s <> EmptyString) segs).
Proof.
  split; [reflexivity|].
  apply (to_posix_path_no_empty_segment "bootflash:///file.bin" "/bootflash/file.bin").
  reflexivity.
Defined.

(** ** Password hash utility *)

(** The model of [hashlib] agrees with the published vectors. *)
Example sha256_abc :
  sha256 (encode "abc")
  = List.map Z_to_byte
      [0xba; 0x78; 0x16; 0xbf; 0x8f; 0x01; 0xcf; 0xea; 0x41; 0x41; 0x40; 0xde;
       0x5d; 0xae; 0x22; 0x23; 0xb0; 0x03; 0x61; 0xa3; 0x96; 0x17; 0x7a; 0x9c;
       0xb4; 0x10; 0xff; 0x61; 0xf2; 0x00; 0x15; 0xad]%Z.
Proof. vm_compute. reflexivity. Qed.

Example pbkdf2_password_salt_2 :
  pbkdf2_hmac_sha256 (encode "password") (encode "salt") 2
  = List.map Z_to_byte
      [0xae; 0x4d; 0x0c; 0x95; 0xaf; 0x6b; 0x46; 0xd3; 0x2d; 0x0a; 0xdf; 0xf9;
       0x28; 0xf0; 0x6d; 0xd0; 0x2a; 0x30; 0x3f; 0x8e; 0xf3; 0xc2; 0x51; 0xdf;
       0xd6; 0xe2; 0xd8; 0x5a; 0x95; 0x47; 0x4c; 0x43]%Z.
Proof. vm_compute. reflexivity. Qed.

Example sha256_constants :
  length sha256_K = 64 /\ nth 0 sha256_K 0%Z = 0x428a2f98%Z
  /\ nth 63 sha256_K 0%Z = 0xc67178f2%Z
  /\ length sha256_H0 = 8 /\ nth 0 sha256_H0 0%Z = 0x6a09e667%Z.
Proof. repeat split. Qed.

Example to_cisco_base64_digits :
  to_cisco_base64 (encode "0123456789") = "A12mAnEpBXQsCE".
Proof. vm_compute. reflexivity. Qed.

Lemma be_bytes_length (n : nat) (x : Z) : length (be_bytes n x) = n.
Proof. induction n; simpl; congruence. Qed.

Lemma sha256_length (msg : bytes) : length (sha256 msg) = 32.
Proof.
  unfold sha256, sha_digest. rewrite !length_app, !be_bytes_length. reflexivity.
Qed.

Lemma hmac_sha256_length (key msg : bytes) : length (hmac_sha256 key msg) = 32.
Proof. apply sha256_length. Qed.

Lemma xor_bytes_length (a b : bytes) :
  length (xor_bytes a b) = Nat.min (length a) (length b).
Proof. unfold xor_bytes. now rewrite length_map, length_combine. Qed.

Lemma pbkdf2_length (password salt : bytes) (iterations : N) :
  length (pbkdf2_hmac_sha256 password salt iterations) = 32.
Proof.
  unfold pbkdf2_hmac_sha256.
  set (u1 := hmac_sha256 password _).
  set (step := fun ut : bytes * bytes => _).
  cut (length (fst (N.iter (iterations - 1) step (u1, u1))) = 32
       /\ length (snd (N.iter (iterations - 1) step (u1, u1))) = 32); [tauto|].
  apply (N.iter_invariant (iterations - 1) _ step
           (fun ut => length (fst ut) = 32 /\ length (snd ut) = 32)).
  - intros [u t] [Hu Ht]. subst step. cbn [fst snd] in *. split.
    + apply hmac_sha256_length.
    + rewrite xor_bytes_length, Ht, hmac_sha256_length. reflexivity.
  - subst u1. cbn [fst snd]. split; apply hmac_sha256_length.
Qed.

#[global] Opaque pbkdf2_hmac_sha256.

Lemma list_ind3 {A} (P : list A -> Prop) :
  P [] -> (forall a, P [a]) -> (forall a b, P [a; b]) ->
  (forall a b c l, P l -> P (a :: b :: c :: l)) ->
  forall l, P l.
Proof.
  intros H0 H1 H2 H3. fix IH 1.
  intros [|a [|b [|c l]]]; [exact H0|apply H1|apply H2|apply H3, IH].
Qed.

Lemma b64char_std (i : Z) : has_char (b64char i) std_b64chars = true.
Proof.
  unfold b64char.
  assert (Hk : (0 <= Z.land i 63 < 64)%Z).
  { change 63%Z with (Z.ones 6). rewrite Z.land_ones by lia.
    apply Z.mod_pos_bound. lia. }
  assert (Hn : (Z.to_nat (Z.land i 63) < 64)%nat) by lia.
  revert Hn. generalize (Z.to_nat (Z.land i 63)). intros n Hn.
  do 64 (destruct n as [|n]; [reflexivity|]). lia.
Qed.

Lemma b64encode_shape (data : bytes) :
  exists body n,
    b64encode data = body +:+ padding n
    /\ all_chars (fun c => has_char c std_b64chars) body = true.
Proof.
  induction data as [|a|a b|a b c rest (body & n & Heq & Hall)] using list_ind3.
  - exists EmptyString, 0%nat. split; reflexivity.
  - eexists (String _ (String _ EmptyString)), 2%nat. split; [reflexivity|].
    cbn [all_chars]. now rewrite !b64char_std.
  - eexists (String _ (String _ (String _ EmptyString))), 1%nat. split; [reflexivity|].
    cbn [all_chars]. now rewrite !b64char_std.
  - eexists (String _ (String _ (String _ (String _ body)))), n.
    split.
    + cbn [b64encode]. rewrite Heq. reflexivity.
    + cbn [all_chars]. now rewrite !b64char_std, Hall.
Qed.

(** The translation table is the remapping by position. *)
Lemma table_remap (c : ascii) : default c (b64table !! c) = remap_by_position c.
Proof. destruct c as [[] [] [] [] [] [] [] []]; vm_compute; reflexivity. Qed.

Lemma remap_std_cisco (c : ascii) :
  has_char c std_b64chars = true -> has_char (remap_by_position c) cisco_b64chars = true.
Proof.
  destruct c as [[] [] [] [] [] [] [] []]; vm_compute; intros H;
    solve [reflexivity | discriminate H].
Qed.

Lemma cisco_not_padding (c : ascii) :
  has_char c cisco_b64chars = true -> Ascii.eqb c "=" = false.
Proof.
  destruct (Ascii.eqb_spec c "=") as [->|]; [|reflexivity].
  vm_compute. intros H. discriminate H.
Qed.

Lemma translate_remap (s : string) :
  translate b64table s = string_map remap_by_position s.
Proof.
  induction s as [|c s IH]; cbn [translate string_map]; [reflexivity|].
  now rewrite table_remap, IH.
Qed.

Lemma string_map_app (f : ascii -> ascii) (s t : string) :
  string_map f (s +:+ t) = string_map f s +:+ string_map f t.
Proof. induction s as [|c s IH]; simpl; [reflexivity|]. now rewrite IH. Qed.

Lemma remap_padding (n : nat) : string_map remap_by_position (padding n) = padding n.
Proof.
  induction n as [|n IH]; cbn [padding string_map]; [reflexivity|].
  rewrite IH. f_equal.
Qed.

Lemma all_chars_remap (s : string) :
  all_chars (fun c => has_char c std_b64chars) s = true ->
  all_chars (fun c => has_char c cisco_b64chars) (string_map remap_by_position s) = true.
Proof.
  induction s as [|c s IH]; cbn [all_chars string_map]; [reflexivity|].
  intros H. apply andb_true_iff in H as [Hc Hs].
  now rewrite (remap_std_cisco c Hc), (IH Hs).
Qed.

Lemma rstrip_padding (n : nat) : rstrip "=" (padding n) = EmptyString.
Proof. induction n as [|n IH]; simpl; [reflexivity|]. now rewrite IH. Qed.

Lemma rstrip_vendor (e : string) (n : nat) :
  all_chars (fun c => has_char c cisco_b64chars) e = true ->
  rstrip "=" (e +:+ padding n) = e.
Proof.
  induction e as [|c e IH]; cbn [all_chars].
  - intros _. apply rstrip_padding.
  - intros H. apply andb_true_iff in H as [Hc He].
    change (String c e +:+ padding n) with (String c (e +:+ padding n)).
    cbn [rstrip]. rewrite (IH He), (cisco_not_padding c Hc).
    now destruct e.
Qed.

Lemma all_chars_no_padding (e : string) :
  all_chars (fun c => has_char c cisco_b64chars) e = true -> has_char "=" e = false.
Proof.
  induction e as [|c e IH]; cbn [all_chars has_char]; [reflexivity|].
  intros H. apply andb_true_iff in H as [Hc He].
  now rewrite (cisco_not_padding c Hc), (IH He).
Qed.

(** What [to_cisco_base64] returns is the specification's encoding. *)
Lemma to_cisco_base64_encoded (data : bytes) :
  vendor_encoded data (to_cisco_base64 data).
Proof.
  destruct (b64encode_shape data) as (body & n & Heq & Hall).
  pose proof (all_chars_remap body Hall) as He.
  assert (Hout : to_cisco_base64 data = string_map remap_by_position body).
  { unfold to_cisco_base64. rewrite translate_remap, Heq, string_map_app, remap_padding.
    now apply rstrip_vendor. }
  exists n. rewrite Hout. split; [|assumption].
  now rewrite Heq, string_map_app, remap_padding.
Qed.

(** The specification's encoding determines the encoded string. *)
Lemma vendor_encoded_unique (data : bytes) (e e' : string) :
  vendor_encoded data e -> vendor_encoded data e' -> e = e'.
Proof.
  intros (n & Hn & He) (n' & Hn' & He').
  rewrite <- (rstrip_vendor e n He), <- (rstrip_vendor e' n' He').
  now rewrite <- Hn, <- Hn'.
Qed.

Lemma has_char_app (c : ascii) (s t : string) :
  has_char c (s +:+ t) = has_char c s || has_char c t.
Proof.
  induction s as [|a s IH]; simpl; [reflexivity|].
  now rewrite IH, orb_assoc.
Qed.

Lemma vendor_alphabet_only (data : bytes) :
  all_chars (fun c => has_char c cisco_b64chars) (to_cisco_base64 data) = true
  /\ has_char "=" (to_cisco_base64 data) = false.
Proof.
  destruct (to_cisco_base64_encoded data) as (n & _ & He).
  split; [assumption|now apply all_chars_no_padding].
Qed.

Lemma generate_with_salt (password : string) (salt : bytes) (g : Rng) :
  salt <> [] ->
  generate_type8_password password (Some salt) g
  = ("$nx-pbkdf2$" +:+ to_cisco_base64 salt +:+ "$"
       +:+ to_cisco_base64 (pbkdf2_hmac_sha256 (encode password) salt 20000), g).
Proof. intros H. destruct salt; [contradiction|reflexivity]. Qed.

Lemma generate_without_salt (password : string) (salt : option bytes) (g : Rng) :
  falsy salt = true ->
  generate_type8_password password salt g
  = ("$nx-pbkdf2$" +:+ to_cisco_base64 (fst (urandom 10 g)) +:+ "$"
       +:+ to_cisco_base64
             (pbkdf2_hmac_sha256 (encode password) (fst (urandom 10 g)) 20000),
     snd (urandom 10 g)).
Proof. intros H. unfold generate_type8_password. rewrite H. reflexivity. Qed.

(** C8: for a password and a 10-byte salt the hash does not depend on the
    entropy source and draws nothing from it; the derived key is the 32-byte
    PBKDF2-HMAC-SHA256 key of 20000 iterations; the result is
    [$nx-pbkdf2$<salt-enc>$<key-enc>] where each part is the specification's
    encoding (standard base64, remapped by position to the vendor alphabet,
    padding stripped), holds vendor-alphabet characters only and no [=]. *)
Theorem type8_hash_spec (password : string) (salt : bytes) (g : Rng) :
  length salt = 10 ->
  let dk := pbkdf2_hmac_sha256 (encode password) salt 20000 in
  length dk = 32
  /\ snd (generate_type8_password password (Some salt) g) = g
  /\ (forall g', fst (generate_type8_password password (Some salt) g')
                 = fst (generate_type8_password password (Some salt) g))
  /\ (forall es ek, vendor_encoded salt es -> vendor_encoded dk ek ->
        fst (generate_type8_password password (Some salt) g)
        = "$nx-pbkdf2$" +:+ es +:+ "$" +:+ ek)
  /\ (exists es ek,
        fst (generate_type8_password password (Some salt) g)
        = "$nx-pbkdf2$" +:+ es +:+ "$" +:+ ek
        /\ vendor_encoded salt es /\ vendor_encoded dk ek
        /\ all_chars (fun c => has_char c cisco_b64chars) es = true
        /\ all_chars (fun c => has_char c cisco_b64chars) ek = true
        /\ has_char "=" es = false /\ has_char "=" ek = false)
  /\ has_char "=" (fst (generate_type8_password password (Some salt) g)) = false.
Proof.
  intros Hlen dk.
  assert (Hne : salt <> []) by (intros ->; discriminate Hlen).
  assert (Hgen : forall g0, generate_type8_password password (Some salt) g0
                 = ("$nx-pbkdf2$" +:+ to_cisco_base64 salt +:+ "$" +:+ to_cisco_base64 dk, g0))
    by (intros g0; now apply generate_with_salt).
  destruct (vendor_alphabet_only salt) as [Hs Hs'].
  destruct (vendor_alphabet_only dk) as [Hk Hk'].
  split; [apply pbkdf2_length|].
  split; [now rewrite Hgen|].
  split; [intros g'; now rewrite !Hgen|].
  split.
  { intros es ek Hes Hek. rewrite Hgen. cbn [fst].
    now rewrite (vendor_encoded_unique _ _ _ Hes (to_cisco_base64_encoded salt)),
                (vendor_encoded_unique _ _ _ Hek (to_cisco_base64_encoded dk)). }
  split.
  { exists (to_cisco_base64 salt), (to_cisco_base64 dk). rewrite Hgen.
    cbn [fst].
    split; [reflexivity|].
    split; [apply to_cisco_base64_encoded|].
    split; [apply to_cisco_base64_encoded|].
    split; [exact Hs|]. split; [exact Hk|]. split; [exact Hs'|exact Hk']. }
  rewrite Hgen. cbn [fst].
  rewrite !has_char_app, Hs', Hk'. reflexivity.
Qed.

Lemma type8_hash_spec_witness :
  length salt0 = 10
  /\ has_char "="
       (fst (generate_type8_password "password" (Some salt0) (MkRng (fun _ => Byte.x00) 0)))
     = false.
Proof.
  split; [reflexivity|].
  apply (type8_hash_spec "password" salt0 (MkRng (fun _ => Byte.x00) 0)).
  reflexivity.
Defined.

Lemma falsy_iff (salt : option bytes) :
  falsy salt = true <-> salt = None \/ salt = Some [].
Proof.
  destruct salt as [[|b s]|]; simpl; split; intros H;
    try tauto; try discriminate; destruct H; discriminate.
Qed.

Lemma urandom_length (n : nat) (g : Rng) : length (fst (urandom n g)) = n.
Proof. unfold urandom. cbn [fst]. now rewrite length_map, length_seq. Qed.

Lemma generate_empty_salt_form (password : string) (g : Rng) :
  exists k, fst (generate_type8_password password (Some []) g)
            = "$nx-pbkdf2$" +:+ to_cisco_base64 (fst (urandom 10 g)) +:+ "$" +:+ k.
Proof.
  exists (to_cisco_base64
            (pbkdf2_hmac_sha256 (encode password) (fst (urandom 10 g)) 20000)).
  now rewrite generate_without_salt.
Qed.

Lemma encoded_zeros :
  to_cisco_base64 (fst (urandom 10 (MkRng (fun _ => Byte.x00) 0))) = "..............".
Proof. vm_compute. reflexivity. Qed.

Lemma encoded_ones :
  to_cisco_base64 (fst (urandom 10 (MkRng (fun _ => Byte.xff) 0))) = "zzzzzzzzzzzzzk".
Proof. vm_compute. reflexivity. Qed.

(** C9: a salt is drawn from the entropy source exactly when [salt_bytes] is
    [None] or the empty byte string; then ten bytes are drawn and used, so
    two calls with [b""] and different entropy give different hashes; a
    non-empty salt is used as supplied and nothing is drawn. *)
Theorem salt_truthiness (password : string) (salt : option bytes) (g : Rng) :
  (falsy salt = true <-> salt = None \/ salt = Some [])
  /\ (rng_pos (snd (generate_type8_password password salt g)) <> rng_pos g
      <-> salt = None \/ salt = Some [])
  /\ (salt = None \/ salt = Some [] ->
      length (fst (urandom 10 g)) = 10
      /\ generate_type8_password password salt g
         = ("$nx-pbkdf2$" +:+ to_cisco_base64 (fst (urandom 10 g)) +:+ "$"
              +:+ to_cisco_base64
                    (pbkdf2_hmac_sha256 (encode password) (fst (urandom 10 g)) 20000),
            MkRng (rng_stream g) (rng_pos g + 10)))
  /\ (forall s, salt = Some s -> s <> [] ->
      generate_type8_password password salt g
      = ("$nx-pbkdf2$" +:+ to_cisco_base64 s +:+ "$"
           +:+ to_cisco_base64 (pbkdf2_hmac_sha256 (encode password) s 20000), g))
  /\ fst (generate_type8_password password (Some []) (MkRng (fun _ => Byte.x00) 0))
     <> fst (generate_type8_password password (Some []) (MkRng (fun _ => Byte.xff) 0)).
Proof.
  split; [apply falsy_iff|]. split; [|split; [|split]].
  - rewrite <- falsy_iff. destruct (falsy salt) eqn:E.
    + rewrite (generate_without_salt _ _ _ E). cbn [snd urandom rng_pos].
      split; [reflexivity|lia].
    + destruct salt as [[|b s]|]; try discriminate E.
      rewrite generate_with_salt by discriminate. cbn [snd]. split; [congruence|discriminate].
  - intros H. apply falsy_iff in H. split; [apply urandom_length|].
    now rewrite (generate_without_salt _ _ _ H).
  - intros s -> Hs. now apply generate_with_salt.
  - destruct (generate_empty_salt_form password (MkRng (fun _ => Byte.x00) 0)) as [k1 H1].
    destruct (generate_empty_salt_form password (MkRng (fun _ => Byte.xff) 0)) as [k2 H2].
    rewrite H1, H2, encoded_zeros, encoded_ones.
    intros H. discriminate H.
Qed.

(** ** What the translator accepts *)

Lemma to_posix_path_ok_label (path r : string) :
  to_posix_path path = Ok r ->
  exists l, In l volume_names
            /\ hd EmptyString (split "/" path) = l +:+ ":"
            /\ r = String "/" (join "/" (l :: List.filter truthy (tl (split "/" path))))
            /\ split "/" r = EmptyString :: l :: List.filter truthy (tl (split "/" path)).
Proof.
  intros Hok.
  assert (Hin : str_in (hd EmptyString (split "/" path)) volume_labels = true).
  { unfold to_posix_path in Hok.
    destruct (str_in _ volume_labels); [reflexivity|discriminate]. }
  destruct (str_in_labels _ Hin) as (l & Hl & Hhd).
  destruct (to_posix_path_segments path l Hl Hhd) as [Heq Hsplit].
  rewrite Heq in Hok. injection Hok as <-.
  exists l. now repeat split.
Qed.

(** X7: the translator does not accept its own output: a translated path has
    no volume label in front. *)
Theorem to_posix_path_not_idempotent (path r : string) :
  to_posix_path path = Ok r ->
  to_posix_path r = Raise (ValueError ("Unknown path type: " +:+ r)).
Proof.
  intros Hok. destruct (to_posix_path_ok_label path r Hok) as (l & _ & _ & _ & Hsplit).
  unfold to_posix_path. now rewrite Hsplit.
Qed.

(** X8: two accepted paths translate to the same POSIX path exactly when they
    have the same volume label and the same non-empty segments. *)
Theorem to_posix_path_same_file (p q r : string) :
  to_posix_path p = Ok r ->
  (to_posix_path q = Ok r
   <-> hd EmptyString (split "/" q) = hd EmptyString (split "/" p)
       /\ List.filter truthy (tl (split "/" q)) = List.filter truthy (tl (split "/" p))).
Proof.
  intros Hp. split.
  - intros Hq.
    destruct (to_posix_path_ok_label p r Hp) as (lp & _ & Hhp & _ & Sp).
    destruct (to_posix_path_ok_label q r Hq) as (lq & _ & Hhq & _ & Sq).
    rewrite Sp in Sq. injection Sq as -> Hsegs.
    split; [now rewrite Hhp, Hhq|now symmetry].
  - intros [Hh Hs]. now apply (to_posix_path_ok_tokens p q r).
Qed.

(** ** Length and injectivity of the vendor encoding *)

Lemma string_length_app (s t : string) :
  String.length (s +:+ t) = String.length s + String.length t.
Proof. induction s as [|c s IH]; simpl; [reflexivity|]. now rewrite IH. Qed.

Lemma string_map_length (f : ascii -> ascii) (s : string) :
  String.length (string_map f s) = String.length s.
Proof. induction s as [|c s IH]; simpl; [reflexivity|]. now rewrite IH. Qed.

Lemma padding_length (n : nat) : String.length (padding n) = n.
Proof. induction n as [|n IH]; simpl; [reflexivity|]. now rewrite IH. Qed.

(** The base64 text of [data]: its body, of standard characters, and its
    padding, both determined in length by the number of bytes. *)
Lemma b64encode_body (data : bytes) :
  exists body,
    b64encode data = body +:+ padding ((4 - String.length body mod 4) mod 4)
    /\ all_chars (fun c => has_char c std_b64chars) body = true
    /\ String.length body = (4 * length data + 2) / 3.
Proof.
  induction data as [|a|a b|a b c rest (body & Heq & Hall & Hlen)] using list_ind3.
  - exists EmptyString. repeat split.
  - eexists (String _ (String _ EmptyString)). split; [reflexivity|]. split; [|reflexivity].
    cbn [all_chars]. now rewrite !b64char_std.
  - eexists (String _ (String _ (String _ EmptyString))).
    split; [reflexivity|]. split; [|reflexivity].
    cbn [all_chars]. now rewrite !b64char_std.
  - eexists (String _ (String _ (String _ (String _ body)))). split; [|split].
    + cbn [b64encode]. rewrite Heq. cbn [String.append String.length].
      do 5 f_equal.
      replace (S (S (S (S (String.length body))))) with (String.length body + 1 * 4) by lia.
      now rewrite Nat.Div0.mod_add.
    + cbn [all_chars]. now rewrite !b64char_std, Hall.
    + cbn [String.length length]. rewrite Hlen.
      replace (4 * S (S (S (length rest))) + 2) with (4 * length rest + 2 + 4 * 3) by lia.
      rewrite Nat.div_add by lia. lia.
Qed.

Lemma to_cisco_base64_body (data : bytes) (body : string) (n : nat) :
  b64encode data = body +:+ padding n ->
  all_chars (fun c => has_char c std_b64chars) body = true ->
  to_cisco_base64 data = string_map remap_by_position body.
Proof.
  intros Heq Hall. unfold to_cisco_base64.
  rewrite translate_remap, Heq, string_map_app, remap_padding.
  apply rstrip_vendor. now apply all_chars_remap.
Qed.

Lemma to_cisco_base64_length (data : bytes) :
  String.length (to_cisco_base64 data) = (4 * length data + 2) / 3.
Proof.
  destruct (b64encode_body data) as (body & Heq & Hall & Hlen).
  rewrite (to_cisco_base64_body data body _ Heq Hall).
  now rewrite string_map_length.
Qed.

(** X17: the hash is 55 characters plus the encoded salt: 69 characters for a
    drawn salt and for any salt of ten bytes. *)
Theorem type8_hash_length (password : string) (salt : option bytes) (g : Rng) :
  (forall data, String.length (to_cisco_base64 data) = (4 * length data + 2) / 3)
  /\ String.length (fst (generate_type8_password password salt g))
     = 55 + (4 * (if falsy salt then 10 else length (default [] salt)) + 2) / 3
  /\ (falsy salt = true -> String.length (fst (generate_type8_password password salt g)) = 69)
  /\ (forall s, salt = Some s -> length s = 10 ->
      String.length (fst (generate_type8_password password salt g)) = 69).
Proof.
  split; [apply to_cisco_base64_length|].
  assert (Hgen : String.length (fst (generate_type8_password password salt g))
                 = 55 + (4 * (if falsy salt then 10 else length (default [] salt)) + 2) / 3).
  { destruct (falsy salt) eqn:E.
    - rewrite (generate_without_salt _ _ _ E). cbn [fst].
      rewrite !string_length_app, !to_cisco_base64_length, pbkdf2_length, urandom_length.
      reflexivity.
    - destruct salt as [[|b s]|]; try discriminate E.
      rewrite generate_with_salt by discriminate. cbn [fst].
      change (default [] (Some (b :: s))) with (b :: s).
      rewrite !string_length_app, !to_cisco_base64_length, pbkdf2_length.
      generalize ((4 * length (b :: s) + 2) / 3). intros k. simpl. lia. }
  split; [exact Hgen|]. split.
  - intros E. rewrite Hgen, E. reflexivity.
  - intros s -> Hs. rewrite Hgen.
    assert (Hf : falsy (Some s) = false) by (destruct s; [discriminate Hs|reflexivity]).
    rewrite Hf. change (default [] (Some s)) with s. rewrite Hs. reflexivity.
Qed.

Lemma remap_back_remap (c : ascii) :
  has_char c std_b64chars = true -> remap_back (remap_by_position c) = c.
Proof.
  destruct c as [[] [] [] [] [] [] [] []]; vm_compute; intros H;
    solve [reflexivity | discriminate H].
Qed.

Lemma string_map_remap_inj (s t : string) :
  all_chars (fun c => has_char c std_b64chars) s = true ->
  all_chars (fun c => has_char c std_b64chars) t = true ->
  string_map remap_by_position s = string_map remap_by_position t -> s = t.
Proof.
  revert t. induction s as [|c s IH]; intros [|d t]; cbn [all_chars string_map];
    intros Hs Ht H; try discriminate H; [reflexivity|].
  apply andb_true_iff in Hs as [Hc Hs]. apply andb_true_iff in Ht as [Hd Ht].
  injection H as Hcd Hst.
  f_equal; [|now apply IH].
  now rewrite <- (remap_back_remap c Hc), <- (remap_back_remap d Hd), Hcd.
Qed.

(** The vendor encoding loses nothing of the base64 text. *)
Lemma vendor_encoding_lossless (a b : bytes) :
  to_cisco_base64 a = to_cisco_base64 b -> b64encode a = b64encode b.
Proof.
  intros H.
  destruct (b64encode_body a) as (ba & Ea & Ha & _).
  destruct (b64encode_body b) as (bb & Eb & Hb & _).
  rewrite (to_cisco_base64_body a ba _ Ea Ha), (to_cisco_base64_body b bb _ Eb Hb) in H.
  apply string_map_remap_inj in H; [|assumption..]. subst bb.
  now rewrite Ea, Eb.
Qed.

Local Open Scope Z_scope.

Lemma byte_to_Z_range (b : byte) : 0 <= byte_to_Z b < 256.
Proof. unfold byte_to_Z. pose proof (Byte.to_N_bounded b). lia. Qed.

Lemma byte_to_Z_inj (a b : byte) : byte_to_Z a = byte_to_Z b -> a = b.
Proof.
  unfold byte_to_Z. intros H. apply N2Z.inj in H.
  pose proof (Byte.of_to_N a) as Ha. rewrite H, Byte.of_to_N in Ha. congruence.
Qed.

Lemma b64char_index (n : nat) :
  (n < 64)%nat ->
  match String.get n std_b64chars with
  | Some c => index_of c std_b64chars = Some n
  | None => False
  end.
Proof. intros H. do 64 (destruct n as [|n]; [reflexivity|]). lia. Qed.

Lemma b64char_eq (x y : Z) : b64char x = b64char y -> x mod 64 = y mod 64.
Proof.
  unfold b64char. change 63 with (Z.ones 6). rewrite !Z.land_ones by lia.
  change (2 ^ 6) with 64.
  pose proof (Z.mod_pos_bound x 64 eq_refl) as Hx.
  pose proof (Z.mod_pos_bound y 64 eq_refl) as Hy.
  pose proof (b64char_index (Z.to_nat (x mod 64)) ltac:(lia)) as Ix.
  pose proof (b64char_index (Z.to_nat (y mod 64)) ltac:(lia)) as Iy.
  destruct (String.get (Z.to_nat (x mod 64)) std_b64chars) as [c|]; [|contradiction].
  destruct (String.get (Z.to_nat (y mod 64)) std_b64chars) as [d|]; [|contradiction].
  intros ->. rewrite Ix in Iy. injection Iy as Iy. lia.
Qed.

Lemma b64char_not_padding (x : Z) : b64char x <> "="%char.
Proof.
  intros H. pose proof (b64char_std x) as Hs. rewrite H in Hs. discriminate Hs.
Qed.

Lemma land_shiftl_small (x y k : Z) :
  0 <= k -> 0 <= y < 2 ^ k -> Z.land (Z.shiftl x k) y = 0.
Proof.
  intros Hk Hy. apply Z.bits_inj'. intros i Hi.
  rewrite Z.land_spec, Z.bits_0.
  destruct (Z.lt_ge_cases i k) as [Hlt|Hge].
  - now rewrite Z.shiftl_spec_low.
  - destruct (Z.eq_dec y 0) as [->|Hne]; [now rewrite Z.bits_0, andb_false_r|].
    rewrite (Z.bits_above_log2 y i), andb_false_r; [reflexivity|lia|].
    apply Z.lt_le_trans with k; [|exact Hge]. apply Z.log2_lt_pow2; lia.
Qed.

Lemma lor_shiftl_small (x y k : Z) :
  0 <= k -> 0 <= y < 2 ^ k -> Z.lor (Z.shiftl x k) y = x * 2 ^ k + y.
Proof.
  intros Hk Hy. pose proof (Z.add_lor_land (Z.shiftl x k) y) as H.
  rewrite land_shiftl_small in H by assumption.
  rewrite Z.shiftl_mul_pow2 in * by assumption. lia.
Qed.

(** The 24-bit group of three bytes. *)
Lemma group_value (a b c : byte) :
  Z.lor (Z.lor (Z.shiftl (byte_to_Z a) 16) (Z.shiftl (byte_to_Z b) 8)) (byte_to_Z c)
  = byte_to_Z a * 65536 + byte_to_Z b * 256 + byte_to_Z c.
Proof.
  pose proof (byte_to_Z_range a). pose proof (byte_to_Z_range b).
  pose proof (byte_to_Z_range c).
  replace (Z.shiftl (byte_to_Z a) 16) with (Z.shiftl (byte_to_Z a * 256) 8)
    by (rewrite !Z.shiftl_mul_pow2 by lia; lia).
  rewrite <- Z.shiftl_lor.
  assert (E : Z.lor (byte_to_Z a * 256) (byte_to_Z b) = byte_to_Z a * 256 + byte_to_Z b).
  { pose proof (lor_shiftl_small (byte_to_Z a) (byte_to_Z b) 8 ltac:(lia) ltac:(lia)) as L.
    rewrite Z.shiftl_mul_pow2 in L by lia. exact L. }
  rewrite E, lor_shiftl_small by lia. lia.
Qed.

Lemma pair_value (a b : byte) :
  Z.lor (Z.shiftl (byte_to_Z a) 16) (Z.shiftl (byte_to_Z b) 8)
  = byte_to_Z a * 65536 + byte_to_Z b * 256.
Proof.
  pose proof (group_value a b Byte.x00) as H.
  change (byte_to_Z Byte.x00) with 0 in H. rewrite Z.lor_0_r in H. lia.
Qed.

Lemma b64encode_inj (a b : bytes) : b64encode a = b64encode b -> a = b.
Proof.
  revert b.
  induction a as [|a1|a1 a2|a1 a2 a3 a IH] using list_ind3;
    intros [|b1 [|b2 [|b3 b]]] H; cbn [b64encode] in H; cbv zeta in H;
    try discriminate H; try reflexivity;
    try (injection H as _ _ H3; first [ now apply b64char_not_padding in H3
                                     | symmetry in H3; now apply b64char_not_padding in H3 ]);
    try (injection H as _ _ _ H4; first [ now apply b64char_not_padding in H4
                                       | symmetry in H4; now apply b64char_not_padding in H4 ]).
  - injection H as H1 H2. apply b64char_eq in H1, H2.
    rewrite !Z.shiftr_div_pow2, !Z.shiftl_mul_pow2 in * by lia.
    pose proof (byte_to_Z_range a1). pose proof (byte_to_Z_range b1).
    f_equal. apply byte_to_Z_inj.
    change (2 ^ 16) with 65536 in *. change (2 ^ 18) with 262144 in *.
    change (2 ^ 12) with 4096 in *.
    Z.div_mod_to_equations. lia.
  - injection H as H1 H2 H3. apply b64char_eq in H1, H2, H3.
    rewrite !pair_value in *.
    rewrite !Z.shiftr_div_pow2 in * by lia.
    pose proof (byte_to_Z_range a1). pose proof (byte_to_Z_range b1).
    pose proof (byte_to_Z_range a2). pose proof (byte_to_Z_range b2).
    change (2 ^ 18) with 262144 in *. change (2 ^ 12) with 4096 in *.
    change (2 ^ 6) with 64 in *.
    assert (byte_to_Z a1 = byte_to_Z b1 /\ byte_to_Z a2 = byte_to_Z b2) as [E1 E2]
      by (Z.div_mod_to_equations; lia).
    apply byte_to_Z_inj in E1, E2. now subst.
  - injection H as H1 H2 H3 H4 Hrest. apply b64char_eq in H1, H2, H3, H4.
    rewrite !group_value in *.
    rewrite !Z.shiftr_div_pow2 in * by lia.
    pose proof (byte_to_Z_range a1). pose proof (byte_to_Z_range b1).
    pose proof (byte_to_Z_range a2). pose proof (byte_to_Z_range b2).
    pose proof (byte_to_Z_range a3). pose proof (byte_to_Z_range b3).
    change (2 ^ 18) with 262144 in *. change (2 ^ 12) with 4096 in *.
    change (2 ^ 6) with 64 in *.
    assert (byte_to_Z a1 = byte_to_Z b1 /\ byte_to_Z a2 = byte_to_Z b2
            /\ byte_to_Z a3 = byte_to_Z b3) as (E1 & E2 & E3)
      by (Z.div_mod_to_equations; lia).
    apply byte_to_Z_inj in E1, E2, E3. subst. f_equal. f_equal. f_equal. now apply IH.
Qed.

Local Close Scope Z_scope.

(** ** The hash string determines the salt *)

Lemma cisco_not_dollar (c : ascii) :
  has_char c cisco_b64chars = true -> Ascii.eqb c "$" = false.
Proof.
  destruct (Ascii.eqb_spec c "$") as [->|]; [|reflexivity].
  vm_compute. intros H. discriminate H.
Qed.

Lemma vendor_no_dollar (data : bytes) : has_char "$" (to_cisco_base64 data) = false.
Proof.
  destruct (vendor_alphabet_only data) as [Hall _]. revert Hall.
  generalize (to_cisco_base64 data). intros e.
  induction e as [|c e IH]; cbn [all_chars has_char]; [reflexivity|].
  intros H. apply andb_true_iff in H as [Hc He].
  now rewrite (cisco_not_dollar c Hc), (IH He).
Qed.

Lemma dollar_split (e1 e2 k1 k2 : string) :
  has_char "$" e1 = false -> has_char "$" e2 = false ->
  e1 +:+ String "$" k1 = e2 +:+ String "$" k2 -> e1 = e2 /\ k1 = k2.
Proof.
  revert e2. induction e1 as [|c e1 IH]; intros [|d e2]; cbn [has_char];
    intros H1 H2 H; simpl in H.
  - injection H as ->. now split.
  - injection H as <- _. discriminate H2.
  - injection H as -> _. discriminate H1.
  - injection H as -> H.
    apply orb_false_elim in H1 as [_ H1]. apply orb_false_elim in H2 as [_ H2].
    destruct (IH e2 H1 H2 H) as [-> ->]. now split.
Qed.

Lemma string_app_inv_head (p x y : string) : p +:+ x = p +:+ y -> x = y.
Proof. induction p as [|c p IH]; simpl; [trivial|]. intros [= H]. now apply IH. Qed.

(** X18: the vendor encoding is one-to-one: different byte strings have
    different encodings. *)
Theorem to_cisco_base64_inj (a b : bytes) :
  to_cisco_base64 a = to_cisco_base64 b -> a = b.
Proof. intros H. now apply b64encode_inj, vendor_encoding_lossless. Qed.

Lemma to_cisco_base64_inj_witness :
  to_cisco_base64 salt0 = to_cisco_base64 salt0 /\ salt0 = salt0.
Proof.
  split; [reflexivity|]. apply (to_cisco_base64_inj salt0 salt0). reflexivity.
Defined.

(** X19: two hashes made with supplied salts are equal only if the salts
    are equal and the derived keys are equal: the salt and the key can be
    read back from the hash. *)
Theorem type8_hash_salt_recoverable
    (password1 password2 : string) (salt1 salt2 : bytes) (g1 g2 : Rng) :
  salt1 <> [] -> salt2 <> [] ->
  fst (generate_type8_password password1 (Some salt1) g1)
  = fst (generate_type8_password password2 (Some salt2) g2) ->
  salt1 = salt2
  /\ pbkdf2_hmac_sha256 (encode password1) salt1 20000
     = pbkdf2_hmac_sha256 (encode password2) salt2 20000.
Proof.
  intros H1 H2 H.
  rewrite !generate_with_salt in H by assumption. cbn [fst] in H.
  apply string_app_inv_head in H.
  apply dollar_split in H as [Hs Hk]; try apply vendor_no_dollar.
  split; now apply b64encode_inj, vendor_encoding_lossless.
Qed.

Lemma type8_hash_salt_recoverable_witness :
  salt0 <> []
  /\ fst (generate_type8_password "password" (Some salt0) (MkRng (fun _ => Byte.x00) 0))
     = fst (generate_type8_password "password" (Some salt0) (MkRng (fun _ => Byte.xff) 7))
  /\ salt0 = salt0.
Proof.
  assert (H0 : salt0 <> []) by discriminate.
  assert (H : fst (generate_type8_password "password" (Some salt0)
                     (MkRng (fun _ => Byte.x00) 0))
              = fst (generate_type8_password "password" (Some salt0)
                       (MkRng (fun _ => Byte.xff) 7)))
    by (now rewrite !generate_with_salt by exact H0).
  split; [exact H0|]. split; [exact H|].
  exact (proj1 (type8_hash_salt_recoverable "password" "password" salt0 salt0 _ _ H0 H0 H)).
Defined.

(** ** The file tree *)

Lemma is_dir_key_put (p : string) (c : bytes) (v : Volume) (k : list string) :
  is_dir_key (<[p := c]> v) k = is_dir_key v k.
Proof.
  unfold insert, volume_insert, put_file.
  destruct (resolve v p) as [k0|]; [|reflexivity].
  destruct (is_dir_key v k0) eqn:Hd; [reflexivity|].
  unfold is_dir_key, node_at in *. destruct k as [|x k]; [reflexivity|].
  cbn [nodes].
  destruct (decide (k0 = x :: k)) as [->|Hne].
  - rewrite lookup_insert_eq. now destruct (nodes v !! (x :: k)) as [[]|].
  - now rewrite lookup_insert_ne.
Qed.

Lemma is_dir_key_remove (p : string) (v : Volume) (k : list string) :
  is_dir_key (delete p v) k = is_dir_key v k.
Proof.
  unfold delete, volume_delete, remove_file.
  destruct (resolve v p) as [k0|]; [|reflexivity].
  destruct (node_at v k0) as [[c|]|] eqn:Hn; try reflexivity.
  unfold is_dir_key, node_at in *. destruct k as [|x k]; [reflexivity|].
  cbn [nodes].
  destruct (decide (k0 = x :: k)) as [->|Hne].
  - rewrite lookup_delete_eq. now rewrite Hn.
  - now rewrite lookup_delete_ne.
Qed.

Lemma walk_ext (v v' : Volume) (cur comps : list string) :
  (forall k, is_dir_key v' k = is_dir_key v k) -> walk v' cur comps = walk v cur comps.
Proof.
  intros H. revert cur. induction comps as [|c rest IH]; intros cur; cbn [walk].
  - reflexivity.
  - rewrite H. destruct (is_dir_key v cur); [|reflexivity].
    destruct (String.eqb c "" || String.eqb c "."); [apply IH|].
    destruct (String.eqb c ".."); apply IH.
Qed.

Lemma resolve_ext (v v' : Volume) (p : string) :
  (forall k, is_dir_key v' k = is_dir_key v k) -> resolve v' p = resolve v p.
Proof.
  intros H. unfold resolve. destruct (split "/" p) as [|[|] [|c rest]]; try reflexivity.
  now apply walk_ext.
Qed.

Lemma resolve_put (p q : string) (c : bytes) (v : Volume) :
  resolve (<[p := c]> v) q = resolve v q.
Proof. apply resolve_ext. intros k. apply is_dir_key_put. Qed.

Lemma resolve_remove (p q : string) (v : Volume) :
  resolve (delete p v) q = resolve v q.
Proof. apply resolve_ext. intros k. apply is_dir_key_remove. Qed.

(** A path that leads to a regular file exists and can be opened. *)
Lemma lookup_file (v : Volume) (p : string) (c : bytes) :
  v !! p = Some c ->
  exists k, resolve v p = Some k /\ node_at v k = Some (File c).
Proof.
  unfold lookup, volume_lookup, file_at.
  destruct (resolve v p) as [k|]; [|discriminate].
  destruct (node_at v k) as [[c'|]|] eqn:Hn; try discriminate.
  intros [= ->]. now exists k.
Qed.

Lemma exists_at_lookup (v : Volume) (p : string) (c : bytes) :
  v !! p = Some c -> exists_at v p = true.
Proof.
  intros H. destruct (lookup_file v p c H) as (k & Hk & Hn).
  unfold exists_at. rewrite Hk, Hn. apply bool_decide_eq_true_2. eauto.
Qed.

Lemma writable_lookup (v : Volume) (p : string) (c : bytes) :
  v !! p = Some c -> writable v p = true.
Proof.
  intros H. destruct (lookup_file v p c H) as (k & Hk & Hn).
  unfold writable, is_dir_key. now rewrite Hk, Hn.
Qed.

Lemma lookup_not_exists (v : Volume) (p : string) :
  exists_at v p = false -> v !! p = None.
Proof.
  intros H. destruct (v !! p) as [c|] eqn:E; [|reflexivity].
  apply exists_at_lookup in E. congruence.
Qed.

Lemma lookup_put_eq (v : Volume) (p : string) (c : bytes) :
  writable v p = true -> (<[p := c]> v) !! p = Some c.
Proof.
  intros Hw. unfold lookup, volume_lookup, file_at. rewrite resolve_put.
  unfold writable in Hw. unfold insert, volume_insert, put_file.
  destruct (resolve v p) as [k|]; [|discriminate Hw].
  apply negb_true_iff in Hw. rewrite Hw.
  unfold is_dir_key, node_at in *. destruct k as [|x k]; [discriminate Hw|].
  cbn [nodes]. now rewrite lookup_insert_eq.
Qed.

Lemma put_not_writable (v : Volume) (p : string) (c : bytes) :
  writable v p = false -> <[p := c]> v = v.
Proof.
  unfold writable, insert, volume_insert, put_file.
  destruct (resolve v p) as [k|]; [|reflexivity].
  intros H. apply negb_false_iff in H. now rewrite H.
Qed.

Lemma nodes_put_ne (v : Volume) (p : string) (c : bytes) (k : list string) :
  resolve v p <> Some k -> nodes (<[p := c]> v) !! k = nodes v !! k.
Proof.
  intros Hne. unfold insert, volume_insert, put_file.
  destruct (resolve v p) as [k0|]; [|reflexivity].
  destruct (is_dir_key v k0); [reflexivity|].
  cbn [nodes]. apply lookup_insert_ne. congruence.
Qed.

Lemma nodes_remove_ne (v : Volume) (p : string) (k : list string) :
  resolve v p <> Some k -> nodes (delete p v) !! k = nodes v !! k.
Proof.
  intros Hne. unfold delete, volume_delete, remove_file.
  destruct (resolve v p) as [k0|]; [|reflexivity].
  destruct (node_at v k0) as [[c|]|]; try reflexivity.
  cbn [nodes]. apply lookup_delete_ne. congruence.
Qed.

Lemma exists_at_remove (v : Volume) (p : string) (c : bytes) :
  v !! p = Some c -> exists_at (delete p v) p = false.
Proof.
  intros H. destruct (lookup_file v p c H) as (k & Hk & Hn).
  unfold exists_at. rewrite resolve_remove, Hk.
  unfold delete, volume_delete, remove_file. rewrite Hk, Hn.
  unfold node_at in *. destruct k as [|x k]; [discriminate Hn|].
  cbn [nodes]. rewrite lookup_delete_eq.
  apply bool_decide_eq_false_2. intros [? ?]; discriminate.
Qed.

Lemma changes_at_refl (p : string) (v : Volume) : changes_at p v v.
Proof. now split. Qed.

Lemma changes_at_resolve (p q : string) (v v' : Volume) :
  changes_at p v v' -> resolve v' q = resolve v q.
Proof. intros [_ H]. now apply resolve_ext. Qed.

Lemma changes_at_trans (p : string) (v1 v2 v3 : Volume) :
  changes_at p v1 v2 -> changes_at p v2 v3 -> changes_at p v1 v3.
Proof.
  intros H12 H23. pose proof (changes_at_resolve p p _ _ H12) as Hr.
  destruct H12 as [N12 D12], H23 as [N23 D23]. split.
  - intros k Hk. rewrite N23 by (now rewrite Hr). now apply N12.
  - intros k. now rewrite D23.
Qed.

Lemma changes_at_put (p : string) (c : bytes) (v : Volume) : changes_at p v (<[p := c]> v).
Proof.
  split; [intros k Hk; now apply nodes_put_ne|intros k; apply is_dir_key_put].
Qed.

Lemma changes_at_remove (p : string) (v : Volume) : changes_at p v (delete p v).
Proof.
  split; [intros k Hk; now apply nodes_remove_ne|intros k; apply is_dir_key_remove].
Qed.

(** What a change at [p] leaves as it is: the node at every other place, and
    so the file at every path that leads elsewhere. *)
Lemma changes_at_lookup (p q : string) (v v' : Volume) :
  changes_at p v v' -> resolve v q <> resolve v p -> v' !! q = v !! q.
Proof.
  intros H Hne. pose proof (changes_at_resolve p q _ _ H) as Hr.
  destruct H as [N D].
  unfold lookup, volume_lookup, file_at. rewrite Hr.
  destruct (resolve v q) as [k|] eqn:Hq; [|reflexivity].
  unfold node_at. destruct k as [|x k]; [reflexivity|].
  rewrite N; [reflexivity|]. congruence.
Qed.

Lemma changes_at_elsewhere (p q : string) (v v' : Volume) :
  changes_at p v v' -> ~ same_place v q p -> v' !! q = v !! q.
Proof.
  intros H Hne. pose proof (changes_at_resolve p q _ _ H) as Hr.
  destruct (resolve v q) as [k|] eqn:Hq.
  - apply (changes_at_lookup p); [exact H|]. rewrite Hq. intros Hp.
    apply Hne. exists k. now split.
  - unfold lookup, volume_lookup, file_at. now rewrite Hr, Hq.
Qed.

Lemma changes_at_exists (p q : string) (v v' : Volume) :
  changes_at p v v' -> resolve v q <> resolve v p -> exists_at v' q = exists_at v q.
Proof.
  intros H Hne. pose proof (changes_at_resolve p q _ _ H) as Hr.
  destruct H as [N D].
  unfold exists_at. rewrite Hr.
  destruct (resolve v q) as [k|] eqn:Hq; [|reflexivity].
  unfold node_at. destruct k as [|x k]; [reflexivity|].
  rewrite N; [reflexivity|]. congruence.
Qed.

(** ** Runs of the script on concrete devices *)

Ltac in_list := repeat first [left; reflexivity | right].

(** C1, at a device whose running image is the file the descriptor names and
    is reported as [bootflash:/nxos.bin]: the guard of the retry compares the
    untranslated strings, so after the checksum mismatch the retry removes
    [/bootflash/nxos.bin], the very file the device booted from. *)
Theorem retry_deletes_running_image :
  to_posix_path "bootflash:/nxos.bin" = Ok "/bootflash/nxos.bin"
  /\ to_posix_path target0 = Ok "/bootflash/nxos.bin"
  /\ target0 = LOCAL_IMAGE_DIR +:+ basename (url (image descriptor0))
  /\ String.eqb target0 "bootflash:/nxos.bin" = false
  /\ fs world_stale !! "/bootflash/nxos.bin" = Some ["r"%byte]
  /\ In (Log WARNING (MsgDeletingTarget target0)) (events env_same_file world_stale)
  /\ removed "/bootflash/nxos.bin" (events env_same_file world_stale) = true
  /\ count is_attempt (events env_same_file world_stale) = 2.
Proof.
  split; [reflexivity|]. split; [reflexivity|]. split; [reflexivity|].
  split; [reflexivity|]. split; [vm_compute; reflexivity|].
  split; [vm_compute; in_list|].
  split; vm_compute; reflexivity.
Qed.

(** C2 fails where the target path is the running image's path: the first
    attempt raises the checksum error, nothing is retried, and the run goes
    on to configure the device and ends with status 0 without any successful
    verification. *)
Lemma checksum_error_swallowed :
  In (Log ERROR (MsgException (ChecksumError mismatch0)))
     (events env_same_path world_stale)
  /\ count is_attempt (events env_same_path world_stale) = 1
  /\ count is_verified (events env_same_path world_stale) = 0
  /\ issued (conf_string (config_lines descriptor0)) (events env_same_path world_stale)
     = true
  /\ issued "terminal dont-ask ; reload" (events env_same_path world_stale) = true
  /\ exit_status env_same_path world_stale = 0%Z.
Proof.
  split; [vm_compute; in_list|].
  repeat split; vm_compute; reflexivity.
Qed.

(** C4 fails on the order: on a device that needs the new image the boot
    decision is taken after the download, not before. *)
Lemma decision_follows_download :
  count is_download (events env_upgrade world_old) = 1
  /\ count is_decision (events env_upgrade world_old) = 1
  /\ none_after is_decision is_download (events env_upgrade world_old) = false.
Proof. repeat split; vm_compute; reflexivity. Qed.

(** C5 fails for the save command itself: when the device rejects
    [copy running-config startup-config] the error is logged, the process
    exits with status 1 and the reload is never issued. *)
Lemma save_failure_is_fatal :
  In (Log ERROR (MsgCopyFailed "Permission denied"))
     (events env_save_rejected world_current)
  /\ issued "terminal dont-ask ; reload" (events env_save_rejected world_current) = false
  /\ exit_status env_save_rejected world_current = 1%Z.
Proof.
  split; [vm_compute; in_list|].
  split; vm_compute; reflexivity.
Qed.

(** ** Reasoning about the events of a computation *)

Section Emits.
Variable p : event -> bool.

Lemma emits_ret {A} (a : A) : emits p (ret a).
Proof. intros env w. exists []. now rewrite app_nil_r. Qed.

Lemma emits_raise {A} (e : exn) : emits p (@raise A e).
Proof. intros env w. exists []. now rewrite app_nil_r. Qed.

Lemma emits_lift {A} (r : result A) : emits p (lift r).
Proof. intros env w. exists []. now rewrite app_nil_r. Qed.

Lemma emits_emit (ev : event) : p ev = true -> emits p (emit ev).
Proof. intros H env w. exists [ev]. simpl. now rewrite H. Qed.

Lemma emits_bind {A B} (m : M A) (k : A -> M B) :
  emits p m -> (forall a, emits p (k a)) -> emits p (bind m k).
Proof.
  intros Hm Hk env w. unfold bind.
  destruct (Hm env w) as (t1 & E1 & P1).
  destruct (m env w) as [[a|e] w1]; simpl in E1.
  - destruct (Hk a env w1) as (t2 & E2 & P2).
    exists (t1 ++ t2). rewrite E2, E1, app_assoc, forallb_app, P1, P2. now split.
  - exists t1. now split.
Qed.

Lemma emits_catch {A} (m : M A) (handler : exn -> option (M A)) :
  emits p m -> (forall e h, handler e = Some h -> emits p h) ->
  emits p (catch m handler).
Proof.
  intros Hm Hh env w. unfold catch.
  destruct (Hm env w) as (t1 & E1 & P1).
  destruct (m env w) as [[a|e] w1]; simpl in E1.
  - exists t1. now split.
  - destruct (handler e) as [h|] eqn:Eh.
    + destruct (Hh e h Eh env w1) as (t2 & E2 & P2).
      exists (t1 ++ t2). rewrite E2, E1, app_assoc, forallb_app, P1, P2. now split.
    + exists t1. now split.
Qed.

Lemma emits_os_path_exists (f : string) : emits p (os_path_exists f).
Proof. intros env w. exists []. now rewrite app_nil_r. Qed.

Lemma emits_time_time : emits p time_time.
Proof. intros env w. exists []. now rewrite app_nil_r. Qed.

Lemma emits_glob_bin : emits p glob_bin.
Proof. intros env w. exists []. now rewrite app_nil_r. Qed.

Lemma emits_get_bootstrap_data (serial : string) : emits p (get_bootstrap_data serial).
Proof. intros env w. exists []. now rewrite app_nil_r. Qed.

Lemma emits_os_remove (f : string) : p (FileRemove f) = true -> emits p (os_remove f).
Proof.
  intros H env w. unfold os_remove.
  destruct (fs w !! f); [destruct (fs_fault env _)|].
  - exists []. now rewrite app_nil_r.
  - exists [FileRemove f]. simpl. now rewrite H.
  - exists []. now rewrite app_nil_r.
Qed.

Lemma emits_open_wb (f : string) : p (FileOpen f) = true -> emits p (open_wb f).
Proof.
  intros H env w. unfold open_wb. destruct (writable _ _ && _).
  - exists [FileOpen f]. simpl. now rewrite H.
  - exists []. now rewrite app_nil_r.
Qed.

Lemma emits_file_write (f : string) (data : bytes) :
  p (FileWrite f data) = true -> emits p (file_write f data).
Proof.
  intros H env w. unfold file_write. destruct (fs_fault env _).
  - exists []. now rewrite app_nil_r.
  - exists [FileWrite f data]. simpl. now rewrite H.
Qed.

Lemma emits_cli (command : string) : p (Command command) = true -> emits p (cli command).
Proof. intros H env w. exists [Command command]. simpl. now rewrite H. Qed.

Lemma emits_show_version :
  p (Command "show version") = true -> emits p cli_json_show_version.
Proof. intros H env w. exists [Command "show version"]. simpl. now rewrite H. Qed.

Lemma emits_show_boot : p (Command "show boot") = true -> emits p cli_json_show_boot.
Proof. intros H env w. exists [Command "show boot"]. simpl. now rewrite H. Qed.

Lemma emits_md5sum (f : string) :
  p (Command ("show file " +:+ f +:+ " md5sum")) = true -> emits p (cli_json_md5sum f).
Proof. intros H env w. eexists [_]. simpl. now rewrite H. Qed.

Lemma emits_requests_get (from : string) :
  p (HttpGet from) = true -> emits p (requests_get from).
Proof. intros H env w. exists [HttpGet from]. simpl. now rewrite H. Qed.

Lemma emits_for_each {A} (l : list A) (body : A -> M unit) :
  (forall x, emits p (body x)) -> emits p (for_each l body).
Proof.
  intros H. induction l as [|x l IH]; simpl.
  - apply emits_ret.
  - apply emits_bind; auto.
Qed.

Lemma emits_write_chunks
    (f : string) (chunks : list bytes) (written : nat) (last_written : Z) :
  (forall data, p (FileWrite f data) = true) ->
  (forall n, p (Log INFO (MsgDownloaded n)) = true) ->
  emits p (write_chunks f chunks written last_written).
Proof.
  intros Hw Hl. revert written last_written.
  induction chunks as [|data rest IH]; intros written last_written; cbn [write_chunks].
  - apply emits_ret.
  - apply emits_bind; [now apply emits_file_write|intros _].
    apply emits_bind; [apply emits_time_time|intros now].
    apply emits_bind; [destruct (Z.eqb _ 0); [apply emits_raise|apply emits_ret]|intros _].
    apply emits_bind; [now apply emits_emit|intros _].
    apply emits_bind; [apply emits_time_time|intros last]. apply IH.
Qed.

End Emits.

Ltac emits_handler :=
  let e := fresh "e" in
  let h := fresh "h" in
  let Hh := fresh "Hh" in
  intros e h Hh; destruct e; simpl in Hh; try discriminate Hh;
  injection Hh as <-.

Ltac emits_step :=
  lazymatch goal with
  | |- emits _ (bind _ _) => apply emits_bind; [|intros ?]
  | |- emits _ (catch _ _) => apply emits_catch; [|emits_handler]
  | |- emits _ (ret _) => apply emits_ret
  | |- emits _ (raise _) => apply emits_raise
  | |- emits _ (exit _) => apply emits_raise
  | |- emits _ (lift _) => apply emits_lift
  | |- emits _ (log _ _) => apply emits_emit; reflexivity
  | |- emits _ (emit _) => apply emits_emit; reflexivity
  | |- emits _ (os_path_exists _) => apply emits_os_path_exists
  | |- emits _ time_time => apply emits_time_time
  | |- emits _ glob_bin => apply emits_glob_bin
  | |- emits _ (get_bootstrap_data _) => apply emits_get_bootstrap_data
  | |- emits _ (os_remove _) => apply emits_os_remove; reflexivity
  | |- emits _ (open_wb _) => apply emits_open_wb; reflexivity
  | |- emits _ (cli _) => apply emits_cli; reflexivity
  | |- emits _ cli_json_show_version => apply emits_show_version; reflexivity
  | |- emits _ cli_json_show_boot => apply emits_show_boot; reflexivity
  | |- emits _ (cli_json_md5sum _) => apply emits_md5sum; reflexivity
  | |- emits _ (requests_get _) => apply emits_requests_get; reflexivity
  | |- emits _ (write_chunks _ _ _ _) => apply emits_write_chunks; reflexivity
  | |- emits _ (for_each _ _) => apply emits_for_each; intros ?
  | |- emits _ (configure _) => unfold configure
  | |- emits _ (download_stream _ _) => unfold download_stream
  | |- emits _ (verify_md5sum _ _) => unfold verify_md5sum
  | |- emits _ get_booted_image => unfold get_booted_image
  | |- emits _ (clean_one _ _ _) => unfold clean_one
  | |- emits _ (clean_old_images _ _) => unfold clean_old_images
  | |- emits _ (if ?b then _ else _) => destruct b
  end.

Ltac emits_auto := repeat emits_step.

(** *** Which events each phase records *)

Lemma prepare_no_decision : emits (fun ev => negb (is_decision ev)) main_prepare.
Proof. unfold main_prepare. emits_auto. Qed.

Lemma download_image_no_decision (image_conf : ImageSpec) (target : string) :
  emits (fun ev => negb (is_decision ev)) (download_image image_conf target).
Proof. unfold download_image. emits_auto. Qed.

Lemma main_download_no_decision
    (b : BootstrapDescriptor) (r : RunningImage) (target : string) :
  emits (fun ev => negb (is_decision ev)) (main_download b r target).
Proof.
  unfold main_download. emits_auto; apply download_image_no_decision.
Qed.

Lemma persist_quiet (b : BootstrapDescriptor) : emits quiet (main_persist b).
Proof. unfold main_persist. emits_auto. Qed.

Lemma emit_then {A} (p : event -> bool) (ev : event) (k : M A) :
  emits p k ->
  forall env w, exists t,
    trace (snd (bind (emit ev) (fun _ => k) env w)) = trace w ++ ev :: t
    /\ forallb p t = true.
Proof.
  intros Hk env w. unfold bind, emit.
  destruct (Hk env (MkWorld (fs w) (trace w ++ [ev]))) as (t & E & P).
  exists t. rewrite E. simpl. now rewrite <- app_assoc.
Qed.

Lemma boot_config_events
    (b : BootstrapDescriptor) (r : RunningImage) (target : string) (env : Env) (w : World) :
  exists t,
    trace (snd (main_boot_config b r target env w))
    = trace w ++ decision_event (needs_new_boot_config r target (version (image b))) target :: t
    /\ forallb quiet t = true.
Proof.
  unfold main_boot_config.
  destruct (needs_new_boot_config r target (version (image b))); cbn [decision_event].
  - apply emit_then. emits_auto.
  - exists []. split; reflexivity.
Qed.

(** *** Counting events *)

Lemma count_app (p : event -> bool) (a b : list event) :
  count p (a ++ b) = count p a + count p b.
Proof. unfold count. now rewrite List.filter_app, length_app. Qed.

Lemma count_none (p : event -> bool) (t : list event) :
  forallb (fun ev => negb (p ev)) t = true -> count p t = 0.
Proof.
  unfold count. induction t as [|ev t IH]; simpl; [reflexivity|].
  intros H. apply andb_true_iff in H as [Hev Ht].
  apply negb_true_iff in Hev. rewrite Hev. now apply IH.
Qed.

Lemma none_after_skip (p q : event -> bool) (t1 t2 : list event) :
  forallb (fun ev => negb (q ev)) t1 = true ->
  none_after p q (t1 ++ t2) = none_after p q t2.
Proof.
  induction t1 as [|ev t1 IH]; simpl; [reflexivity|].
  intros H. apply andb_true_iff in H as [Hev Ht].
  apply negb_true_iff in Hev. rewrite Hev. now apply IH.
Qed.

Lemma none_after_none (p q : event -> bool) (t : list event) :
  forallb (fun ev => negb (p ev)) t = true -> none_after p q t = true.
Proof.
  induction t as [|ev t IH]; simpl; [reflexivity|].
  intros H. apply andb_true_iff in H as [Hev Ht].
  destruct (q ev); [assumption|now apply IH].
Qed.

Lemma quiet_split (t : list event) :
  forallb quiet t = true ->
  forallb (fun ev => negb (is_decision ev)) t = true
  /\ forallb (fun ev => negb (is_download ev)) t = true.
Proof.
  induction t as [|ev t IH]; simpl; [now split|].
  intros H. apply andb_true_iff in H as [Hev Ht].
  apply andb_true_iff in Hev as [H1 H2].
  destruct (IH Ht) as [I1 I2]. now rewrite H1, H2, I1, I2.
Qed.

Lemma decision_event_is_decision (needed : bool) (target : string) :
  is_decision (decision_event needed target) = true
  /\ is_download (decision_event needed target) = false.
Proof. destruct needed; split; reflexivity. Qed.

(** The shape of the events of [main]: a prefix without boot decision, then,
    when the run gets that far, the decision followed by events that are
    neither decisions nor downloads. *)
Lemma main_events (env : Env) (w : World) :
  exists t1 t2,
    trace (snd (main env w)) = trace w ++ t1 ++ t2
    /\ forallb (fun ev => negb (is_decision ev)) t1 = true
    /\ ((t2 = [] /\ (exists e, fst (main env w) = Raise e)
         /\ forall b r target w1 w2,
              main_prepare env w = (Ok (b, r, target), w1) ->
              main_download b r target env w1 = (Ok tt, w2) -> False)
        \/ exists b r target w1 t3,
             main_prepare env w = (Ok (b, r, target), w1)
             /\ t2 = decision_event
                       (needs_new_boot_config r target (version (image b))) target :: t3
             /\ forallb quiet t3 = true).
Proof.
  unfold main, bind.
  destruct (prepare_no_decision env w) as (t1 & E1 & P1).
  destruct (main_prepare env w) as [[[[b r] target]|e] w1] eqn:Eprep; cbn [fst snd] in *.
  2:{ exists t1, []. rewrite app_nil_r. split; [assumption|]. split; [assumption|].
      left. split; [reflexivity|]. split; [now exists e|]. intros; discriminate. }
  destruct (main_download_no_decision b r target env w1) as (t2 & E2 & P2).
  destruct (main_download b r target env w1) as [[[]|e] w2] eqn:Edl; cbn [fst snd] in *.
  2:{ exists (t1 ++ t2), []. rewrite app_nil_r, E2, E1, app_assoc.
      split; [reflexivity|]. split; [now rewrite forallb_app, P1, P2|].
      left. split; [reflexivity|]. split; [now exists e|].
      intros b' r' target' w1' w2' [= <- <- <- <-] H. rewrite Edl in H. discriminate H. }
  destruct (boot_config_events b r target env w2) as (t3 & E3 & P3).
  destruct (main_boot_config b r target env w2) as [[[]|e] w3]; cbn [fst snd] in *.
  - destruct (persist_quiet b env w3) as (t4 & E4 & P4).
    exists (t1 ++ t2), (decision_event
      (needs_new_boot_config r target (version (image b))) target :: t3 ++ t4).
    split; [|split; [now rewrite forallb_app, P1, P2|]].
    + rewrite E4, E3, E2, E1, <- !app_assoc. reflexivity.
    + right. exists b, r, target, w1, (t3 ++ t4).
      split; [reflexivity|]. split; [reflexivity|]. now rewrite forallb_app, P3, P4.
  - exists (t1 ++ t2), (decision_event
      (needs_new_boot_config r target (version (image b))) target :: t3).
    split; [|split; [now rewrite forallb_app, P1, P2|]].
    + rewrite E3, E2, E1, <- !app_assoc. reflexivity.
    + right. exists b, r, target, w1, t3. now repeat split.
Qed.

(** The events of the whole script: those of [main], then at most the line
    of the top-level handler. *)
Lemma script_events (env : Env) (w : World) :
  exists tail,
    events env w = trace (snd (main env w)) ++ tail
    /\ forallb quiet tail = true
    /\ (forall u, fst (main env w) = Ok u -> tail = []).
Proof.
  unfold events, script.
  destruct (main env w) as [[u|e] w']; cbn [fst snd].
  - exists []. rewrite app_nil_r. now repeat split.
  - destruct e; cbn [snd trace];
      first [ exists []; rewrite app_nil_r; repeat split; first [reflexivity|discriminate]
            | eexists [_]; repeat split; first [reflexivity|discriminate] ].
Qed.

(** C4, as the script has it: the boot decision is taken at most once in a
    run, exactly once in a run that gets past the download (so in every run
    that completes), never before a download (no download follows it), and
    the branch taken is the value of [needs_new_boot_config] on the running
    image and the descriptor. *)
Theorem decision_after_download (env : Env) (w : World) :
  exists t,
    events env w = trace w ++ t
    /\ count is_decision t <= 1
    /\ none_after is_download is_decision t = true
    /\ (forall u, fst (main env w) = Ok u -> count is_decision t = 1)
    /\ (forall b r target w1 w2,
          main_prepare env w = (Ok (b, r, target), w1) ->
          main_download b r target env w1 = (Ok tt, w2) ->
          count is_decision t = 1)
    /\ (forall b r target w1,
          main_prepare env w = (Ok (b, r, target), w1) ->
          forall ev, In ev t -> is_decision ev = true ->
          ev = decision_event
                 (needs_new_boot_config r target (version (image b))) target).
Proof.
  destruct (script_events env w) as (tail & Ev & Ptail & Hok).
  destruct (main_events env w) as (t1 & t2 & Em & P1 & Hshape).
  destruct (quiet_split tail Ptail) as [Qd Qg].
  exists (t1 ++ t2 ++ tail).
  split; [rewrite Ev, Em, <- !app_assoc; reflexivity|].
  destruct Hshape as [(-> & (e & He) & Hnever)|(b & r & target & w1 & t3 & Eprep & -> & P3)].
  - cbn [app]. rewrite count_app, (count_none _ _ P1), (count_none _ _ Qd).
    split; [lia|]. split.
    { rewrite none_after_skip by assumption. now apply none_after_none. }
    split; [intros u Hu; rewrite He in Hu; discriminate Hu|].
    split; [intros b r target w1 w2 H1 H2; destruct (Hnever _ _ _ _ _ H1 H2)|].
    intros b r target w1 _ ev Hin Hev. exfalso.
    apply in_app_or in Hin as [Hin|Hin].
    + rewrite forallb_forall in P1. specialize (P1 _ Hin). now rewrite Hev in P1.
    + rewrite forallb_forall in Qd. specialize (Qd _ Hin). now rewrite Hev in Qd.
  - destruct (quiet_split t3 P3) as [Q3d Q3g].
    destruct (decision_event_is_decision
                (needs_new_boot_config r target (version (image b))) target) as [Hd Hg].
    assert (Hcount : count is_decision
              (t1 ++ (decision_event
                 (needs_new_boot_config r target (version (image b))) target :: t3) ++ tail)
              = 1).
    { rewrite !count_app, (count_none _ _ P1), (count_none _ _ Qd).
      unfold count at 1. cbn [List.filter]. rewrite Hd. cbn [length].
      fold (count is_decision t3). rewrite (count_none _ _ Q3d). reflexivity. }
    split; [lia|]. split.
    { rewrite none_after_skip by assumption. cbn [app none_after]. rewrite Hd.
      now rewrite forallb_app, Q3g, Qg. }
    split; [intros; exact Hcount|]. split; [intros; exact Hcount|].
    intros b' r' target' w1' Eprep' ev Hin Hev.
    rewrite Eprep in Eprep'. injection Eprep' as <- <- <- <-.
    apply in_app_or in Hin as [Hin|Hin].
    { rewrite forallb_forall in P1. specialize (P1 _ Hin). now rewrite Hev in P1. }
    cbn [app] in Hin. destruct Hin as [<-|Hin]; [reflexivity|]. exfalso.
    apply in_app_or in Hin as [Hin|Hin].
    + rewrite forallb_forall in Q3d. specialize (Q3d _ Hin). now rewrite Hev in Q3d.
    + rewrite forallb_forall in Qd. specialize (Qd _ Hin). now rewrite Hev in Qd.
Qed.

(** ** The boot decision *)

Lemma needs_new_boot_config_iff (r : RunningImage) (target target_version : string) :
  needs_new_boot_config r target target_version = true
  <-> running_path r <> target \/ running_version r <> target_version.
Proof.
  unfold needs_new_boot_config.
  rewrite orb_true_iff, !negb_true_iff, !String.eqb_neq. reflexivity.
Qed.

Lemma count_log (p : event -> bool) (t : list event) (ev : event) :
  p ev = false -> count p (t ++ [ev]) = count p t.
Proof.
  intros H. rewrite count_app. unfold count at 2. simpl. rewrite H. simpl. lia.
Qed.

Lemma count_hit (p : event -> bool) (t : list event) (ev : event) :
  p ev = true -> count p (t ++ [ev]) = S (count p t).
Proof.
  intros H. rewrite count_app. unfold count at 2. simpl. rewrite H. simpl. lia.
Qed.

Lemma issued_app (command : string) (a b : list event) :
  issued command (a ++ b) = issued command a || issued command b.
Proof. unfold issued. apply existsb_app. Qed.

(** C3: the decision is the disjunction of the two inequalities, in each of
    the four combinations; when it is false [main] only logs that the boot
    image is already set; when it is true [main] sends the [boot nxos]
    configuration and, once the device accepts it, saves the running
    configuration. *)
Theorem boot_config_decision
    (b : BootstrapDescriptor) (r : RunningImage) (target : string) (env : Env) (w : World) :
  let needed := needs_new_boot_config r target (version (image b)) in
  let boot_command := conf_string ["boot nxos " +:+ target] in
  (needed = true <-> running_path r <> target \/ running_version r <> version (image b))
  /\ (running_path r = target -> running_version r = version (image b) -> needed = false)
  /\ (running_path r = target -> running_version r <> version (image b) -> needed = true)
  /\ (running_path r <> target -> running_version r = version (image b) -> needed = true)
  /\ (running_path r <> target -> running_version r <> version (image b) -> needed = true)
  /\ (needed = false ->
      main_boot_config b r target env w
      = (Ok tt, MkWorld (fs w) (trace w ++ [Log INFO MsgBootAlreadySet])))
  /\ (needed = true ->
      exists t,
        trace (snd (main_boot_config b r target env w))
        = trace w ++ Log INFO (MsgSettingBoot target) :: Command boot_command :: t
        /\ forall out,
             dev_cli env (count is_command (trace w)) boot_command = Done out ->
             exists t', t = Log INFO MsgCopying
                            :: Command "copy running-config startup-config" :: t').
Proof.
  intros needed boot_command.
  pose proof (needs_new_boot_config_iff r target (version (image b))) as Hiff.
  fold needed in Hiff.
  split; [exact Hiff|].
  split; [intros H1 H2; destruct needed; [|reflexivity];
          destruct (proj1 Hiff eq_refl); contradiction|].
  split; [intros _ H; apply Hiff; now right|].
  split; [intros H _; apply Hiff; now left|].
  split; [intros H _; apply Hiff; now left|].
  split.
  - intros Hn. unfold main_boot_config. fold needed. rewrite Hn. reflexivity.
  - intros Hn. unfold main_boot_config. fold needed. rewrite Hn.
    unfold bind, log, emit, configure, bind, cli, ret. cbn [fst snd trace fs].
    rewrite (count_log is_command) by reflexivity.
    fold boot_command.
    destruct (dev_cli env (count is_command (trace w)) boot_command) as [out|msg] eqn:E;
      cbn [of_reply fst snd trace fs].
    + destruct (of_reply (dev_cli env _ "copy running-config startup-config"));
        cbn [fst snd trace fs].
      * destruct (cli_json_show_boot env _) as [[img|e] w'] eqn:Eb;
          unfold cli_json_show_boot in Eb; injection Eb as _ <-;
          cbn [fst snd trace fs]; rewrite <- !app_assoc; cbn [app];
          eexists; (split; [reflexivity|]); intros out' _; eexists; reflexivity.
      * rewrite <- !app_assoc; cbn [app].
        eexists; (split; [reflexivity|]); intros out' _; eexists; reflexivity.
    + rewrite <- !app_assoc; cbn [app].
      eexists; (split; [reflexivity|]); intros out' H; discriminate H.
Qed.

(** ** Reasoning about the exceptions of a computation *)

Section Raises.
Variable q : exn -> bool.

Lemma raises_ret {A} (a : A) : raises q (ret a).
Proof. intros env w e H. discriminate H. Qed.

Lemma raises_raise {A} (e : exn) : q e = true -> raises q (@raise A e).
Proof. intros Hq env w e' [= <-]. exact Hq. Qed.

Lemma raises_emit (ev : event) : raises q (emit ev).
Proof. intros env w e H. discriminate H. Qed.

Lemma raises_bind {A B} (m : M A) (k : A -> M B) :
  raises q m -> (forall a, raises q (k a)) -> raises q (bind m k).
Proof.
  intros Hm Hk env w e. unfold bind.
  specialize (Hm env w). destruct (m env w) as [[a|e'] w1]; cbn [fst] in *.
  - apply Hk.
  - intros [= <-]. now apply Hm.
Qed.

Lemma raises_catch {A} (m : M A) (handler : exn -> option (M A)) :
  raises q m -> (forall e h, handler e = Some h -> raises q h) ->
  raises q (catch m handler).
Proof.
  intros Hm Hh env w e. unfold catch.
  specialize (Hm env w). destruct (m env w) as [[a|e'] w1]; cbn [fst] in *.
  - discriminate.
  - destruct (handler e') as [h|] eqn:Eh.
    + now apply (Hh e' h Eh).
    + intros [= <-]. now apply Hm.
Qed.

Lemma raises_to_posix_path (path : string) :
  (forall msg, q (ValueError msg) = true) -> raises q (lift (to_posix_path path)).
Proof.
  intros Hq env w e. unfold lift, to_posix_path. cbn [fst].
  destruct (str_in _ _); [discriminate|]. intros [= <-]. apply Hq.
Qed.

Lemma raises_os_path_exists (f : string) : raises q (os_path_exists f).
Proof. intros env w e H. discriminate H. Qed.

Lemma raises_glob_bin : raises q glob_bin.
Proof. intros env w e H. discriminate H. Qed.

Lemma raises_time_time : raises q time_time.
Proof. intros env w e H. discriminate H. Qed.

Lemma raises_open_wb (f : string) : q OSError = true -> raises q (open_wb f).
Proof.
  intros Hq env w e. unfold open_wb. destruct (writable _ _ && _); [discriminate|].
  intros [= <-]. exact Hq.
Qed.

Lemma raises_file_write (f : string) (data : bytes) :
  q OSError = true -> raises q (file_write f data).
Proof.
  intros Hq env w e. unfold file_write. destruct (fs_fault env _); [|discriminate].
  intros [= <-]. exact Hq.
Qed.

Lemma raises_os_remove (f : string) : q OSError = true -> raises q (os_remove f).
Proof.
  intros Hq env w e. unfold os_remove.
  destruct (fs w !! f); [destruct (fs_fault env _); [|discriminate]|];
    intros [= <-]; exact Hq.
Qed.

Lemma raises_of_reply {A} (r : reply A) (e : exn) :
  (forall msg, q (cmd_exec_error msg) = true) -> of_reply r = Raise e -> q e = true.
Proof. intros Hq. destruct r; [discriminate|]. intros [= <-]. apply Hq. Qed.

Lemma raises_cli (command : string) :
  (forall msg, q (cmd_exec_error msg) = true) -> raises q (cli command).
Proof. intros Hq env w e. apply raises_of_reply, Hq. Qed.

Lemma raises_show_version :
  (forall msg, q (cmd_exec_error msg) = true) -> raises q cli_json_show_version.
Proof. intros Hq env w e. apply raises_of_reply, Hq. Qed.

Lemma raises_show_boot :
  (forall msg, q (cmd_exec_error msg) = true) -> raises q cli_json_show_boot.
Proof. intros Hq env w e. apply raises_of_reply, Hq. Qed.

Lemma raises_md5sum (f : string) :
  (forall msg, q (cmd_exec_error msg) = true) -> raises q (cli_json_md5sum f).
Proof.
  intros Hq env w e. unfold cli_json_md5sum. cbn [fst].
  destruct (to_posix_path f); [destruct (fs w !! _); [discriminate|]|];
    intros [= <-]; apply Hq.
Qed.

Lemma raises_requests_get (from : string) :
  q RequestException = true -> raises q (requests_get from).
Proof.
  intros Hq env w e. unfold requests_get. cbn [fst].
  destruct (http_image _ _ _); [|discriminate]. intros [= <-]. exact Hq.
Qed.

Lemma raises_get_bootstrap_data (serial : string) :
  q RequestException = true -> raises q (get_bootstrap_data serial).
Proof.
  intros Hq env w e. unfold get_bootstrap_data. cbn [fst].
  destruct (http_bootstrap _ _); [discriminate|]. intros [= <-]. exact Hq.
Qed.

Lemma raises_for_each {A} (l : list A) (body : A -> M unit) :
  (forall x, raises q (body x)) -> raises q (for_each l body).
Proof.
  intros H. induction l as [|x l IH]; cbn [for_each].
  - apply raises_ret.
  - apply raises_bind; auto.
Qed.

Lemma raises_write_chunks
    (f : string) (chunks : list bytes) (written : nat) (last_written : Z) :
  q OSError = true -> q ZeroDivisionError = true ->
  raises q (write_chunks f chunks written last_written).
Proof.
  intros Ho Hz. revert written last_written.
  induction chunks as [|data rest IH]; intros written last_written; cbn [write_chunks].
  - apply raises_ret.
  - apply raises_bind; [now apply raises_file_write|intros _].
    apply raises_bind; [apply raises_time_time|intros now].
    apply raises_bind;
      [destruct (Z.eqb _ 0); [now apply raises_raise|apply raises_ret]|intros _].
    apply raises_bind; [apply raises_emit|intros _].
    apply raises_bind; [apply raises_time_time|intros last]. apply IH.
Qed.

End Raises.

Ltac raises_handler :=
  let e := fresh "e" in
  let h := fresh "h" in
  let Hh := fresh "Hh" in
  intros e h Hh; destruct e; simpl in Hh; try discriminate Hh;
  injection Hh as <-.

Ltac raises_step :=
  lazymatch goal with
  | |- raises _ (bind _ _) => apply raises_bind; [|intros ?]
  | |- raises _ (catch _ _) => apply raises_catch; [|raises_handler]
  | |- raises _ (ret _) => apply raises_ret
  | |- raises _ (raise _) => apply raises_raise; reflexivity
  | |- raises _ (exit _) => apply raises_raise; reflexivity
  | |- raises _ (lift (to_posix_path _)) => apply raises_to_posix_path; reflexivity
  | |- raises _ (log _ _) => apply raises_emit
  | |- raises _ (emit _) => apply raises_emit
  | |- raises _ (os_path_exists _) => apply raises_os_path_exists
  | |- raises _ time_time => apply raises_time_time
  | |- raises _ glob_bin => apply raises_glob_bin
  | |- raises _ (get_bootstrap_data _) => apply raises_get_bootstrap_data; reflexivity
  | |- raises _ (os_remove _) => apply raises_os_remove; reflexivity
  | |- raises _ (open_wb _) => apply raises_open_wb; reflexivity
  | |- raises _ (cli _) => apply raises_cli; reflexivity
  | |- raises _ cli_json_show_version => apply raises_show_version; reflexivity
  | |- raises _ cli_json_show_boot => apply raises_show_boot; reflexivity
  | |- raises _ (cli_json_md5sum _) => apply raises_md5sum; reflexivity
  | |- raises _ (requests_get _) => apply raises_requests_get; reflexivity
  | |- raises _ (write_chunks _ _ _ _) => apply raises_write_chunks; reflexivity
  | |- raises _ (for_each _ _) => apply raises_for_each; intros ?
  | |- raises _ (configure _) => unfold configure
  | |- raises _ (download_stream _ _) => unfold download_stream
  | |- raises _ (verify_md5sum _ _) => unfold verify_md5sum
  | |- raises _ (download_image _ _) => unfold download_image
  | |- raises _ get_booted_image => unfold get_booted_image
  | |- raises _ (clean_one _ _ _) => unfold clean_one
  | |- raises _ (clean_old_images _ _) => unfold clean_old_images
  | |- raises _ (main_download _ _ _) => unfold main_download
  | |- raises _ (main_boot_config _ _ _) => unfold main_boot_config
  | |- raises _ (main_persist _) => unfold main_persist
  | |- raises _ main_prepare => unfold main_prepare
  | |- raises _ (if ?b then _ else _) => destruct b
  end.

Ltac raises_auto := repeat raises_step.

Lemma main_exit_ok : raises exit_ok main.
Proof. unfold main. raises_auto. Qed.

(** [download_image] never exits the process: what it raises is an
    exception the top-level handler catches. *)
Lemma download_image_raises (image_conf : ImageSpec) (target : string) :
  raises is_Exception (download_image image_conf target).
Proof. raises_auto. Qed.

Lemma exit_zero_main_ok (env : Env) (w : World) :
  exit_status env w = 0%Z -> exists w', main env w = (Ok tt, w').
Proof.
  unfold exit_status, script.
  pose proof (main_exit_ok env w) as Hq.
  destruct (main env w) as [[[]|e] w']; cbn [fst] in *; [eauto|].
  specialize (Hq e eq_refl).
  destruct e; cbn [fst]; try discriminate.
  cbn [exit_ok] in Hq. apply Z.eqb_eq in Hq as ->. discriminate.
Qed.

(** ** Fetch and verify *)

Lemma bind_assoc {A B C} (m : M A) (k1 : A -> M B) (k2 : B -> M C) (env : Env) (w : World) :
  bind (bind m k1) k2 env w = bind m (fun a => bind (k1 a) k2) env w.
Proof. unfold bind. destruct (m env w) as [[a|e] w1]; reflexivity. Qed.

Lemma bind_ok {A B} (m : M A) (k : A -> M B) (env : Env) (w w1 : World) (a : A) :
  m env w = (Ok a, w1) -> bind m k env w = k a env w1.
Proof. intros H. unfold bind. now rewrite H. Qed.

Lemma bind_raise {A B} (m : M A) (k : A -> M B) (env : Env) (w w1 : World) (e : exn) :
  m env w = (Raise e, w1) -> bind m k env w = (Raise e, w1).
Proof. intros H. unfold bind. now rewrite H. Qed.

Lemma verify_md5sum_present
    (image_conf : ImageSpec) (target p : string) (content : bytes) (env : Env) (w : World) :
  to_posix_path target = Ok p ->
  fs w !! p = Some content ->
  verify_md5sum image_conf target env w
  = (verdict image_conf target (dev_md5sum env content),
     MkWorld (fs w)
             (trace w ++ verify_events image_conf target (dev_md5sum env content))).
Proof.
  intros Hp Hfs.
  unfold verify_md5sum, bind, cli_json_md5sum, verdict, verify_events.
  rewrite Hp, Hfs.
  destruct (String.eqb (dev_md5sum env content) (md5sum image_conf));
    cbn [negb fst snd fs trace].
  - unfold log, emit. cbn [fs trace]. now rewrite <- app_assoc.
  - reflexivity.
Qed.

(** With the file in place [download_image] goes straight to the
    verification: no event but the log line and the digest query. *)
Lemma download_image_present
    (image_conf : ImageSpec) (target p : string) (content : bytes) (env : Env) (w : World) :
  to_posix_path target = Ok p ->
  fs w !! p = Some content ->
  download_image image_conf target env w
  = (verdict image_conf target (dev_md5sum env content),
     MkWorld (fs w)
             (trace w ++ Log INFO (MsgAlreadyExists target)
                :: verify_events image_conf target (dev_md5sum env content))).
Proof.
  intros Hp Hfs. unfold download_image.
  unfold bind at 1. unfold lift at 1. rewrite Hp.
  unfold bind at 1. unfold os_path_exists.
  rewrite (exists_at_lookup _ _ _ Hfs). cbn [negb].
  unfold bind at 1. unfold log, emit.
  rewrite (verify_md5sum_present image_conf target p content) by assumption.
  cbn [fs trace]. now rewrite <- app_assoc.
Qed.

(** With a directory at the target path [download_image] takes it for the
    image and asks the device for its digest. *)
Lemma download_image_blocked
    (image_conf : ImageSpec) (target p : string) (env : Env) (w : World) :
  to_posix_path target = Ok p ->
  exists_at (fs w) p = true ->
  fs w !! p = None ->
  download_image image_conf target env w
  = (Raise (cmd_exec_error "No such file or directory"),
     MkWorld (fs w)
             (trace w ++ [Log INFO (MsgAlreadyExists target);
                          Command ("show file " +:+ target +:+ " md5sum")])).
Proof.
  intros Hp He Hfs. unfold download_image.
  unfold bind at 1. unfold lift at 1. rewrite Hp.
  unfold bind at 1. unfold os_path_exists. rewrite He. cbn [negb].
  unfold bind at 1. unfold log, emit.
  unfold verify_md5sum, bind, cli_json_md5sum. cbn [fs trace].
  rewrite Hp, Hfs. now rewrite <- app_assoc.
Qed.

Lemma count_cons (p : event -> bool) (ev : event) (t : list event) :
  count p (ev :: t) = (if p ev then 1 else 0) + count p t.
Proof. unfold count. simpl. now destruct (p ev). Qed.

Lemma verify_events_no_download (image_conf : ImageSpec) (target digest : string) :
  count is_download (verify_events image_conf target digest) = 0
  /\ count is_attempt (verify_events image_conf target digest) = 0.
Proof.
  unfold verify_events. destruct (String.eqb digest (md5sum image_conf)); split; reflexivity.
Qed.

(** C6: with a file at the target path, [download_image] makes no network
    transfer and goes straight to the verification, whose outcome is decided
    by the digest of the file; it leaves the boot volume as it is, so a
    second call does the same and yields the same outcome. *)
Theorem download_image_idempotent
    (image_conf : ImageSpec) (target p : string) (content : bytes) (env : Env) (w : World) :
  to_posix_path target = Ok p ->
  fs w !! p = Some content ->
  let outcome := verdict image_conf target (dev_md5sum env content) in
  let steps := Log INFO (MsgAlreadyExists target)
               :: verify_events image_conf target (dev_md5sum env content) in
  exists w1 w2,
    download_image image_conf target env w = (outcome, w1)
    /\ download_image image_conf target env w1 = (outcome, w2)
    /\ fs w1 = fs w /\ fs w2 = fs w
    /\ trace w1 = trace w ++ steps /\ trace w2 = trace w1 ++ steps
    /\ count is_download steps = 0
    /\ count is_download (trace w2) = count is_download (trace w)
    /\ (outcome = Ok tt <-> dev_md5sum env content = md5sum image_conf).
Proof.
  intros Hp Hfs outcome steps.
  pose proof (download_image_present image_conf target p content env w Hp Hfs) as H1.
  set (w1 := MkWorld (fs w) (trace w ++ steps)).
  pose proof (download_image_present image_conf target p content env w1 Hp Hfs) as H2.
  destruct (verify_events_no_download image_conf target (dev_md5sum env content)) as [Hd _].
  assert (Hsteps : count is_download steps = 0).
  { unfold steps. rewrite count_cons, Hd. reflexivity. }
  exists w1, (MkWorld (fs w) (trace w1 ++ steps)).
  split; [exact H1|]. split; [exact H2|].
  split; [reflexivity|]. split; [reflexivity|]. split; [reflexivity|].
  split; [reflexivity|]. split; [exact Hsteps|].
  split.
  - cbn [trace]. subst w1. cbn [trace]. rewrite !count_app, Hsteps. lia.
  - unfold outcome, verdict.
    destruct (String.eqb_spec (dev_md5sum env content) (md5sum image_conf)); split;
      intros H; try reflexivity; try assumption; try contradiction; discriminate H.
Qed.

Lemma download_image_idempotent_witness :
  to_posix_path "bootflash:///nxos.bin" = Ok "/bootflash/nxos.bin"
  /\ fs world_current !! "/bootflash/nxos.bin" = Some ["g"%byte]
  /\ exists w1 w2,
       download_image (image descriptor0) "bootflash:///nxos.bin" env_upgrade world_current
       = (verdict (image descriptor0) "bootflash:///nxos.bin"
                  (dev_md5sum env_upgrade ["g"%byte]), w1)
       /\ download_image (image descriptor0) "bootflash:///nxos.bin" env_upgrade w1
          = (verdict (image descriptor0) "bootflash:///nxos.bin"
                     (dev_md5sum env_upgrade ["g"%byte]), w2)
       /\ fs w1 = fs world_current /\ fs w2 = fs world_current.
Proof.
  split; [reflexivity|]. split; [vm_compute; reflexivity|].
  destruct (download_image_idempotent (image descriptor0) "bootflash:///nxos.bin"
              "/bootflash/nxos.bin" ["g"%byte] env_upgrade world_current)
    as (w1 & w2 & H1 & H2 & F1 & F2 & _).
  - reflexivity.
  - vm_compute; reflexivity.
  - exists w1, w2. repeat split; assumption.
Defined.

Lemma no_transfer_counts (t : list event) :
  forallb no_transfer t = true -> count is_attempt t = 0 /\ count is_download t = 0.
Proof.
  induction t as [|ev t IH]; [now split|].
  cbn [forallb]. intros H. apply andb_true_iff in H as [Hev Ht].
  apply andb_true_iff in Hev as [H1 H2].
  apply negb_true_iff in H1, H2.
  destruct (IH Ht) as [I1 I2]. rewrite !count_cons, H1, H2, I1, I2. now split.
Qed.

Lemma firstn_concat_cons (n : nat) (old data : bytes) (rest : list bytes) :
  (old ++ data) ++ concat (firstn n rest) = old ++ concat (firstn (S n) (data :: rest)).
Proof. cbn [firstn concat]. now rewrite <- app_assoc. Qed.

(** The streaming loop on the file opened at [p]: it writes the chunks one
    after the other until it is through, the clock reads the same tick
    twice, or a write fails; what was written stays. *)
Lemma write_chunks_result
    (p : string) (chunks : list bytes) (written : nat) (last : Z) (old : bytes)
    (env : Env) (w : World) :
  fs w !! p = Some old ->
  exists res w' n,
    write_chunks p chunks written last env w = (res, w')
    /\ n <= length chunks
    /\ fs w' !! p = Some (old ++ concat (firstn n chunks))
    /\ changes_at p (fs w) (fs w')
    /\ (res = Ok tt /\ n = length chunks
        \/ res = Raise ZeroDivisionError /\ 1 <= n
        \/ res = Raise OSError /\ n < length chunks).
Proof.
  revert written last old w.
  induction chunks as [|data rest IH]; intros written last old w Hold.
  - exists (Ok tt), w, 0. split; [reflexivity|]. split; [reflexivity|].
    cbn [firstn concat]. rewrite app_nil_r. split; [exact Hold|].
    split; [apply changes_at_refl|]. left. now split.
  - cbn [write_chunks].
    unfold bind, file_write, time_time, log, emit, raise, ret. cbn [fs trace].
    destruct (fs_fault env (length (trace w))) eqn:Hf.
    { exists (Raise OSError), w, 0. split; [reflexivity|]. split; [cbn; lia|].
      cbn [firstn concat]. rewrite app_nil_r. split; [exact Hold|].
      split; [apply changes_at_refl|]. right. right. split; [reflexivity|cbn; lia]. }
    unfold bytes in *. rewrite Hold. cbn [default].
    assert (H1 : (<[p := old ++ data]> (fs w)) !! p = Some (old ++ data)).
    { apply lookup_put_eq. now apply (writable_lookup _ _ old). }
    destruct (Z.eqb _ 0) eqn:Hz.
    { eexists (Raise ZeroDivisionError), _, 1. split; [reflexivity|]. split; [cbn; lia|].
      cbn [fs firstn concat]. rewrite app_nil_r. split; [exact H1|].
      split; [apply changes_at_put|]. right. left. split; [reflexivity|lia]. }
    match goal with
    | |- context [write_chunks p rest ?n ?l env ?w2] =>
        destruct (IH n l (old ++ data) w2 H1) as (res & w' & k & E & Hk & Hc & Hch & Hres)
    end.
    rewrite E. exists res, w', (S k). split; [reflexivity|]. split; [cbn; lia|].
    rewrite <- firstn_concat_cons. split; [exact Hc|].
    split.
    { eapply changes_at_trans; [apply (changes_at_put p (old ++ data))|exact Hch]. }
    destruct Hres as [[-> ->]|[[-> Hk1]|[-> Hk1]]].
    + left. now split.
    + right. left. split; [reflexivity|lia].
    + right. right. split; [reflexivity|cbn; lia].
Qed.

(** On a volume without faults and with a clock that advances the loop runs
    through. *)
Lemma write_chunks_steady
    (p : string) (chunks : list bytes) (written m : nat) (env : Env) (w : World) :
  (forall n, fs_fault env n = false) ->
  (forall i j, i < j -> (clock env i < clock env j)%Z) ->
  m <= length (trace w) ->
  exists w', write_chunks p chunks written (clock env m) env w = (Ok tt, w').
Proof.
  intros Hfault Hclock. revert written m w.
  induction chunks as [|data rest IH]; intros written m w Hm.
  - now exists w.
  - cbn [write_chunks].
    unfold bind, file_write, time_time, log, emit, raise, ret. cbn [fs trace].
    rewrite Hfault. cbn [fs trace].
    assert (Hlt : (clock env m
                   < clock env (length (trace w ++ [FileWrite p data])))%Z).
    { apply Hclock. rewrite length_app. cbn. lia. }
    destruct (Z.eqb_spec (clock env (length (trace w ++ [FileWrite p data])) - clock env m) 0)
      as [Hz|Hz]; [lia|].
    cbn [fs trace]. apply IH. reflexivity.
Qed.

(** The events of a transfer: the log line, the request, then only file and
    progress events. *)
Lemma download_stream_events
    (image_conf : ImageSpec) (target : string) (env : Env) (w : World) :
  exists t,
    trace (snd (download_stream image_conf target env w))
    = trace w ++ Log INFO (MsgDownloading (url image_conf) target)
        :: HttpGet (url image_conf) :: t
    /\ forallb no_transfer t = true.
Proof.
  unfold download_stream.
  unfold bind at 1, log, emit. unfold bind at 1, requests_get. cbn [fs trace].
  destruct (http_image env _ (url image_conf)) as [|chunks complete].
  - exists []. cbn [snd trace]. now rewrite <- app_assoc.
  - match goal with
    | |- context [?k env ?w0] =>
        match k with
        | bind time_time _ =>
            assert (Hk : emits no_transfer k) by emits_auto;
            destruct (Hk env w0) as (t & Et & Pt)
        end
    end.
    exists t. rewrite Et. cbn [trace]. now rewrite <- !app_assoc.
Qed.

(** What a transfer leaves on the boot volume, by the answer of the
    server: nothing when the request or the [open] fails, otherwise the
    chunks written before the transfer ended. *)
Lemma download_stream_content
    (image_conf : ImageSpec) (target p : string) (env : Env) (w : World) :
  to_posix_path target = Ok p ->
  exists res w1,
    download_stream image_conf target env w = (res, w1)
    /\ changes_at p (fs w) (fs w1)
    /\ match http_image env (count is_download (trace w)) (url image_conf) with
       | HttpError => res = Raise RequestException /\ fs w1 = fs w
       | HttpStream chunks complete =>
           (res = Raise OSError /\ fs w1 = fs w)
           \/ exists n,
                n <= length chunks
                /\ fs w1 !! p = Some (concat (firstn n chunks))
                /\ (res = Ok tt /\ n = length chunks /\ complete = true
                    \/ res = Raise RequestException /\ n = length chunks /\ complete = false
                    \/ res = Raise ZeroDivisionError /\ 1 <= n
                    \/ res = Raise OSError /\ n < length chunks)
       end.
Proof.
  intros Hp.
  assert (Hc : count is_download
                 (trace w ++ [Log INFO (MsgDownloading (url image_conf) target)])
               = count is_download (trace w)) by (now apply count_log).
  destruct (http_image env (count is_download (trace w)) (url image_conf))
    as [|chunks complete] eqn:Ereply;
    unfold download_stream;
    unfold bind at 1, log, emit; unfold bind at 1, requests_get; cbn [fs trace];
    rewrite Hc, Ereply.
  - do 2 eexists. split; [reflexivity|]. split; [apply changes_at_refl|]. now split.
  - unfold bind at 1, time_time. cbn [fs trace].
    unfold bind at 1, lift. rewrite Hp. unfold bind at 1, open_wb. cbn [fs trace fst snd].
    destruct (writable (fs w) p && negb (fs_fault env _)) eqn:Hopen.
    2:{ do 2 eexists. split; [reflexivity|]. split; [apply changes_at_refl|].
        left. now split. }
    apply andb_true_iff in Hopen as [Hw _].
    match goal with
    | |- context [bind (write_chunks p chunks 0 ?l) _ env ?w0] =>
        destruct (write_chunks_result p chunks 0 l [] env w0)
          as (res & w' & n & E & Hn & Hcontent & Hch & Hres);
          [cbn [fs]; now apply lookup_put_eq|]
    end.
    cbn [fs app] in Hch, Hcontent.
    assert (Hch' : changes_at p (fs w) (fs w')).
    { eapply changes_at_trans; [apply (changes_at_put p [])|exact Hch]. }
    destruct Hres as [[-> ->]|[[-> Hn1]|[-> Hn1]]].
    + rewrite (bind_ok _ _ _ _ _ _ E).
      destruct complete.
      * do 2 eexists. split; [reflexivity|]. split; [exact Hch'|].
        right. exists (length chunks). split; [lia|]. split; [exact Hcontent|].
        left. now repeat split.
      * do 2 eexists. split; [reflexivity|]. split; [exact Hch'|].
        right. exists (length chunks). split; [lia|]. split; [exact Hcontent|].
        right. left. now repeat split.
    + rewrite (bind_raise _ _ _ _ _ _ E).
      do 2 eexists. split; [reflexivity|]. split; [exact Hch'|].
      right. exists n. split; [exact Hn|]. split; [exact Hcontent|].
      right. right. left. now split.
    + rewrite (bind_raise _ _ _ _ _ _ E).
      do 2 eexists. split; [reflexivity|]. split; [exact Hch'|].
      right. exists n. split; [exact Hn|]. split; [exact Hcontent|].
      right. right. right. now split.
Qed.

Lemma verify_events_quiet (image_conf : ImageSpec) (target digest : string) :
  forallb no_transfer (verify_events image_conf target digest) = true.
Proof.
  unfold verify_events. now destruct (String.eqb digest (md5sum image_conf)).
Qed.

Lemma verdict_ok_verified (image_conf : ImageSpec) (target digest : string) :
  verdict image_conf target digest = Ok tt ->
  In (Log INFO (MsgMd5Matches target)) (verify_events image_conf target digest).
Proof.
  unfold verdict, verify_events.
  destruct (String.eqb digest (md5sum image_conf)); [|discriminate].
  intros _. right. now left.
Qed.

Lemma verdict_cases (image_conf : ImageSpec) (target digest : string) :
  verdict image_conf target digest = Ok tt
  \/ exists msg, verdict image_conf target digest = Raise (ChecksumError msg).
Proof. unfold verdict. destruct (String.eqb _ _); eauto. Qed.

Lemma download_image_missing
    (image_conf : ImageSpec) (target p : string) (env : Env) (w : World) :
  to_posix_path target = Ok p ->
  exists_at (fs w) p = false ->
  download_image image_conf target env w
  = bind (download_stream image_conf target)
         (fun _ => verify_md5sum image_conf target) env w.
Proof.
  intros Hp He. unfold download_image. unfold bind at 1. unfold lift at 1. rewrite Hp.
  unfold bind at 1. unfold os_path_exists. now rewrite He.
Qed.

(** [download_image] when nothing is at the target path, by the answer of
    the server: its outcome and what it leaves on the boot volume. *)
Lemma download_image_fetch
    (image_conf : ImageSpec) (target p : string) (env : Env) (w : World) :
  to_posix_path target = Ok p ->
  exists_at (fs w) p = false ->
  exists res w2 t,
    download_image image_conf target env w = (res, w2)
    /\ trace w2 = trace w ++ Log INFO (MsgDownloading (url image_conf) target)
                    :: HttpGet (url image_conf) :: t
    /\ forallb no_transfer t = true
    /\ (res = Ok tt -> In (Log INFO (MsgMd5Matches target)) t)
    /\ changes_at p (fs w) (fs w2)
    /\ match http_image env (count is_download (trace w)) (url image_conf) with
       | HttpError => res = Raise RequestException /\ fs w2 = fs w
       | HttpStream chunks complete =>
           (res = Raise OSError /\ fs w2 = fs w)
           \/ exists n,
                n <= length chunks
                /\ fs w2 !! p = Some (concat (firstn n chunks))
                /\ (res = verdict image_conf target (dev_md5sum env (concat chunks))
                    /\ n = length chunks /\ complete = true
                    \/ res = Raise RequestException /\ n = length chunks /\ complete = false
                    \/ res = Raise ZeroDivisionError /\ 1 <= n
                    \/ res = Raise OSError /\ n < length chunks)
       end.
Proof.
  intros Hp He. rewrite (download_image_missing image_conf target p env w Hp He).
  destruct (download_stream_events image_conf target env w) as (t & Et & Pt).
  destruct (download_stream_content image_conf target p env w Hp)
    as (res & w1 & E & Hch & Hcase).
  rewrite E in Et. cbn [snd] in Et.
  assert (Hfail : forall e, res = Raise e ->
            exists res' w2 t',
              bind (download_stream image_conf target)
                   (fun _ => verify_md5sum image_conf target) env w = (res', w2)
              /\ res' = res /\ w2 = w1 /\ t' = t).
  { intros e ->. exists (Raise e), w1, t. now rewrite (bind_raise _ _ _ _ _ _ E). }
  destruct (http_image env _ (url image_conf)) as [|chunks complete].
  - destruct Hcase as [-> F].
    exists (Raise RequestException), w1, t. rewrite (bind_raise _ _ _ _ _ _ E).
    split; [reflexivity|]. split; [exact Et|]. split; [exact Pt|].
    split; [discriminate|]. split; [exact Hch|]. now split.
  - destruct Hcase as [[-> F]|(n & Hn & Hcontent & Hres)].
    { exists (Raise OSError), w1, t. rewrite (bind_raise _ _ _ _ _ _ E).
      split; [reflexivity|]. split; [exact Et|]. split; [exact Pt|].
      split; [discriminate|]. split; [exact Hch|]. left. now split. }
    destruct Hres as [(-> & -> & ->)|[(-> & -> & ->)|[[-> Hn1]|[-> Hn1]]]].
    + rewrite (bind_ok _ _ _ _ _ _ E). rewrite firstn_all in Hcontent.
      rewrite (verify_md5sum_present image_conf target p (concat chunks) env w1 Hp Hcontent).
      do 2 eexists. exists (t ++ verify_events image_conf target
                                   (dev_md5sum env (concat chunks))).
      split; [reflexivity|]. cbn [trace fs].
      split; [rewrite Et, <- app_assoc; reflexivity|].
      split; [now rewrite forallb_app, Pt, verify_events_quiet|].
      split; [intros Hok; apply in_or_app; right; now apply verdict_ok_verified|].
      split; [exact Hch|]. right. exists (length chunks).
      split; [lia|]. rewrite firstn_all. split; [exact Hcontent|]. left. now repeat split.
    + exists (Raise RequestException), w1, t. rewrite (bind_raise _ _ _ _ _ _ E).
      split; [reflexivity|]. split; [exact Et|]. split; [exact Pt|].
      split; [discriminate|]. split; [exact Hch|]. right. exists (length chunks).
      split; [lia|]. split; [exact Hcontent|]. right. left. now repeat split.
    + exists (Raise ZeroDivisionError), w1, t. rewrite (bind_raise _ _ _ _ _ _ E).
      split; [reflexivity|]. split; [exact Et|]. split; [exact Pt|].
      split; [discriminate|]. split; [exact Hch|]. right. exists n.
      split; [exact Hn|]. split; [exact Hcontent|]. right. right. left. now split.
    + exists (Raise OSError), w1, t. rewrite (bind_raise _ _ _ _ _ _ E).
      split; [reflexivity|]. split; [exact Et|]. split; [exact Pt|].
      split; [discriminate|]. split; [exact Hch|]. right. exists n.
      split; [exact Hn|]. split; [exact Hcontent|]. right. right. right. now split.
Qed.

(** Without the file [download_image] transfers it once; its outcome is the
    verdict on the file it wrote, or the error the transfer ended with. *)
Lemma download_image_absent
    (image_conf : ImageSpec) (target p : string) (env : Env) (w : World) :
  to_posix_path target = Ok p ->
  exists_at (fs w) p = false ->
  exists res w2 t,
    download_image image_conf target env w = (res, w2)
    /\ trace w2 = trace w ++ Log INFO (MsgDownloading (url image_conf) target)
                    :: HttpGet (url image_conf) :: t
    /\ forallb no_transfer t = true
    /\ ((exists e, res = Raise e /\ transfer_error e = true)
        \/ (exists content,
              fs w2 !! p = Some content
              /\ res = verdict image_conf target (dev_md5sum env content)))
    /\ (res = Ok tt -> In (Log INFO (MsgMd5Matches target)) t).
Proof.
  intros Hp He.
  destruct (download_image_fetch image_conf target p env w Hp He)
    as (res & w2 & t & E & Et & Pt & Hver & _ & Hcase).
  exists res, w2, t. split; [exact E|]. split; [exact Et|]. split; [exact Pt|].
  split; [|exact Hver].
  destruct (http_image env _ (url image_conf)) as [|chunks complete].
  - destruct Hcase as [-> _]. left. now exists RequestException.
  - destruct Hcase as [[-> _]|(n & Hn & Hcontent & Hres)];
      [left; now exists OSError|].
    destruct Hres as [(-> & -> & _)|[(-> & _)|[[-> _]|[-> _]]]].
    + right. exists (concat chunks). rewrite firstn_all in Hcontent. now split.
    + left. now exists RequestException.
    + left. now exists ZeroDivisionError.
    + left. now exists OSError.
Qed.

(** What is at the target path: a regular file, something else, or
    nothing. *)
Lemma target_cases (v : Volume) (p : string) :
  (exists content, v !! p = Some content)
  \/ (v !! p = None /\ exists_at v p = true)
  \/ exists_at v p = false.
Proof.
  destruct (v !! p) as [content|] eqn:E; [left; eauto|].
  destruct (exists_at v p); [right; left; now split|now right; right].
Qed.

(** A call of [download_image] that reaches a verdict leaves the file at
    the target path, and its outcome is the verdict on that file. *)
Lemma download_image_verdict
    (image_conf : ImageSpec) (target : string) (env : Env) (w w1 : World) (res : result unit) :
  download_image image_conf target env w = (res, w1) ->
  (res = Ok tt \/ exists msg, res = Raise (ChecksumError msg)) ->
  exists p content,
    to_posix_path target = Ok p
    /\ fs w1 !! p = Some content
    /\ res = verdict image_conf target (dev_md5sum env content).
Proof.
  intros H Hres.
  destruct (to_posix_path target) as [p|e] eqn:Hp.
  2:{ unfold download_image, bind, lift in H. rewrite Hp in H. injection H as <- _.
      unfold to_posix_path in Hp.
      destruct (str_in _ _); [discriminate Hp|]. injection Hp as <-.
      destruct Hres as [Hr|[msg Hr]]; discriminate Hr. }
  exists p.
  destruct (target_cases (fs w) p) as [[content Hfs]|[[Hfs He]|He]].
  - rewrite (download_image_present image_conf target p content env w Hp Hfs) in H.
    injection H as <- <-. now exists content.
  - rewrite (download_image_blocked image_conf target p env w Hp He Hfs) in H.
    injection H as <- _. destruct Hres as [Hr|[msg Hr]]; discriminate Hr.
  - destruct (download_image_absent image_conf target p env w Hp He)
      as (res' & w2 & t & E & _ & _ & Hcase & _).
    rewrite E in H. injection H as -> ->.
    destruct Hcase as [(e & -> & He')|(content & Hc & Hv)]; [|now exists content].
    destruct Hres as [Hr|[msg Hr]]; [discriminate Hr|].
    injection Hr as ->. discriminate He'.
Qed.

(** A checksum error means the file is there. *)
Lemma checksum_error_file
    (image_conf : ImageSpec) (target msg : string) (env : Env) (w w1 : World) :
  download_image image_conf target env w = (Raise (ChecksumError msg), w1) ->
  exists p content, to_posix_path target = Ok p /\ fs w1 !! p = Some content.
Proof.
  intros H.
  destruct (download_image_verdict image_conf target env w w1 _ H) as (p & content & Hp & Hc & _);
    [right; now exists msg|].
  now exists p, content.
Qed.

(** [download_image] changes the boot volume at most in the file at the
    target path. *)
Lemma download_image_touches (image_conf : ImageSpec) (target p : string) :
  to_posix_path target = Ok p -> touches p (download_image image_conf target).
Proof.
  intros Hp env w.
  destruct (target_cases (fs w) p) as [[content Hfs]|[[Hfs He]|He]].
  - rewrite (download_image_present image_conf target p content env w Hp Hfs).
    apply changes_at_refl.
  - rewrite (download_image_blocked image_conf target p env w Hp He Hfs).
    apply changes_at_refl.
  - destruct (download_image_fetch image_conf target p env w Hp He)
      as (res & w2 & t & E & _ & _ & _ & Hch & _).
    now rewrite E.
Qed.

(** ** The retry *)

(** An exception that reaches the top-level handler: it is logged and the
    exit status is 1. *)
Lemma uncaught_exception (env : Env) (w w' : World) (e : exn) :
  main env w = (Raise e, w') ->
  is_Exception e = true ->
  script env w = (1%Z, record w' [Log ERROR (MsgUncaught e)]).
Proof.
  intros H He. unfold script. rewrite H. destruct e; try reflexivity. discriminate He.
Qed.

(** What [main_download] does after a first checksum error when the target
    path differs from the running image's: it logs, removes the file and
    calls [download_image] once more; when the removal fails the error
    leaves the handler. *)
Lemma main_download_retry
    (b : BootstrapDescriptor) (r : RunningImage) (target p msg : string)
    (content : bytes) (env : Env) (w0 w1 : World) :
  target <> running_path r ->
  download_image (image b) target env w0 = (Raise (ChecksumError msg), w1) ->
  to_posix_path target = Ok p ->
  fs w1 !! p = Some content ->
  main_download b r target env w0
  = if fs_fault env (length (trace w1 ++ [Log ERROR (MsgException (ChecksumError msg));
                                          Log WARNING (MsgDeletingTarget target)]))
    then (Raise OSError,
          record w1 [Log ERROR (MsgException (ChecksumError msg));
                     Log WARNING (MsgDeletingTarget target)])
    else download_image (image b) target env
           (MkWorld (delete p (fs w1))
                    (trace w1 ++ [Log ERROR (MsgException (ChecksumError msg));
                                  Log WARNING (MsgDeletingTarget target);
                                  FileRemove p])).
Proof.
  intros Hne Hfirst Hp Hc.
  unfold main_download, catch. rewrite Hfirst.
  apply String.eqb_neq in Hne. rewrite Hne. cbn [negb].
  unfold bind at 1, log, emit. unfold bind at 1. unfold bind at 1, lift. rewrite Hp.
  unfold bind at 1, os_remove, record. cbn [fs trace]. rewrite Hc.
  rewrite <- !app_assoc. cbn [app].
  now destruct (fs_fault env _).
Qed.

(** What [main_download] does after a first checksum error when the target
    path is the running image's path: it logs the error and returns. *)
Lemma main_download_no_retry
    (b : BootstrapDescriptor) (r : RunningImage) (target msg : string)
    (env : Env) (w0 w1 : World) :
  target = running_path r ->
  download_image (image b) target env w0 = (Raise (ChecksumError msg), w1) ->
  main_download b r target env w0
  = (Ok tt, MkWorld (fs w1) (trace w1 ++ [Log ERROR (MsgException (ChecksumError msg))])).
Proof.
  intros Heq Hfirst.
  unfold main_download, catch. rewrite Hfirst.
  apply String.eqb_eq in Heq. rewrite Heq. reflexivity.
Qed.

(** How [main] goes on after the download phase. *)
Lemma main_after_download
    (env : Env) (w w0 w2 : World) (b : BootstrapDescriptor) (r : RunningImage)
    (target : string) (res : result unit) :
  main_prepare env w = (Ok (b, r, target), w0) ->
  main_download b r target env w0 = (res, w2) ->
  main env w = match res with
               | Ok _ => (main_boot_config b r target ;; main_persist b) env w2
               | Raise e => (Raise e, w2)
               end.
Proof.
  intros Hprep Hdl. unfold main. unfold bind at 1. rewrite Hprep. cbn [fst snd].
  unfold bind at 1. rewrite Hdl. now destruct res.
Qed.

(** C2, as the script has it.  After a first checksum error the guard of
    the handler compares the target path with the running image's path, as
    strings.  When they are equal the error is only logged: nothing is
    removed, nothing is retried, and the run goes on to the boot
    configuration.  When they differ the file is removed and
    [download_image] is called exactly once more, with exactly one transfer;
    its outcome is the outcome of the phase: if it verifies, the run goes
    on, and a verification line was logged; if it raises, [main] raises at
    that point and the exit status is 1, and for a second checksum error
    the script logs it.  There is no third attempt.  When the removal itself
    fails, its error ends the run with status 1 and nothing is retried. *)
Theorem retry_once
    (env : Env) (w w0 w1 : World) (b : BootstrapDescriptor) (r : RunningImage)
    (target msg : string) :
  main_prepare env w = (Ok (b, r, target), w0) ->
  download_image (image b) target env w0 = (Raise (ChecksumError msg), w1) ->
  let logged := record w1 [Log ERROR (MsgException (ChecksumError msg))] in
  let warned := record w1 [Log ERROR (MsgException (ChecksumError msg));
                           Log WARNING (MsgDeletingTarget target)] in
  (target = running_path r ->
   main_download b r target env w0 = (Ok tt, logged)
   /\ main env w = (main_boot_config b r target ;; main_persist b) env logged)
  /\ (target <> running_path r ->
      (fs_fault env (length (trace warned)) = true ->
       main_download b r target env w0 = (Raise OSError, warned)
       /\ script env w = (1%Z, record warned [Log ERROR (MsgUncaught OSError)]))
      /\ (fs_fault env (length (trace warned)) = false ->
          exists p w1' res w2 t,
            to_posix_path target = Ok p
            /\ fs w1' = delete p (fs w1)
            /\ trace w1' = trace w1 ++ [Log ERROR (MsgException (ChecksumError msg));
                                       Log WARNING (MsgDeletingTarget target);
                                       FileRemove p]
            /\ download_image (image b) target env w1' = (res, w2)
            /\ main_download b r target env w0 = (res, w2)
            /\ trace w2 = trace w1' ++ t
            /\ count is_attempt t = 1
            /\ count is_download t = 1
            /\ (res = Ok tt -> In (Log INFO (MsgMd5Matches target)) t)
            /\ (res = Ok tt ->
                main env w = (main_boot_config b r target ;; main_persist b) env w2)
            /\ (forall e, res = Raise e ->
                main env w = (Raise e, w2) /\ exit_status env w = 1%Z)
            /\ (forall msg2, res = Raise (ChecksumError msg2) ->
                script env w
                = (1%Z, MkWorld (fs w2)
                                (trace w2 ++ [Log ERROR (MsgUncaught (ChecksumError msg2))]))))).
Proof.
  intros Hprep Hfirst logged warned. split.
  { intros Heq.
    pose proof (main_download_no_retry b r target msg env w0 w1 Heq Hfirst) as Hdl.
    split; [exact Hdl|].
    exact (main_after_download env w w0 _ b r target (Ok tt) Hprep Hdl). }
  intros Hne.
  destruct (checksum_error_file _ _ _ _ _ _ Hfirst) as (p & content & Hp & Hc).
  pose proof (main_download_retry b r target p msg content env w0 w1 Hne Hfirst Hp Hc)
    as Hretry.
  change (trace w1 ++ [Log ERROR (MsgException (ChecksumError msg));
                       Log WARNING (MsgDeletingTarget target)])
    with (trace warned) in Hretry.
  split.
  { intros Hfault. rewrite Hfault in Hretry. split; [exact Hretry|].
    apply uncaught_exception; [|reflexivity].
    exact (main_after_download env w w0 _ b r target (Raise OSError) Hprep Hretry). }
  intros Hfault. rewrite Hfault in Hretry.
  set (w1' := MkWorld (delete p (fs w1)) _) in Hretry.
  destruct (download_image_absent (image b) target p env w1' Hp)
    as (res & w2 & t & E & Et & Pt & Hres & Hver).
  { subst w1'. cbn [fs]. now apply (exists_at_remove _ _ content). }
  destruct (no_transfer_counts t Pt) as [Ca Cd].
  rewrite E in Hretry.
  pose proof (main_after_download env w w0 w2 b r target res Hprep Hretry) as Hmain.
  exists p, w1', res, w2,
    (Log INFO (MsgDownloading (url (image b)) target) :: HttpGet (url (image b)) :: t).
  split; [exact Hp|]. split; [reflexivity|]. split; [reflexivity|].
  split; [exact E|]. split; [exact Hretry|]. split; [exact Et|].
  split; [rewrite !count_cons, Ca; reflexivity|].
  split; [rewrite !count_cons, Cd; reflexivity|].
  split; [intros Hok; right; right; now apply Hver|].
  split; [intros ->; exact Hmain|].
  assert (Hexc : forall e, res = Raise e -> is_Exception e = true).
  { intros e ->. apply (download_image_raises (image b) target env w1'). now rewrite E. }
  split.
  { intros e ->. split; [exact Hmain|].
    unfold exit_status. now rewrite (uncaught_exception env w w2 e Hmain (Hexc e eq_refl)). }
  intros msg2 ->. now rewrite (uncaught_exception env w w2 _ Hmain eq_refl).
Qed.

Lemma retry_once_witness :
  main_prepare env_upgrade world_corrupt
  = (Ok (descriptor0, running_old, target0), world_prepared)
  /\ download_image (image descriptor0) target0 env_upgrade world_prepared
     = (Raise (ChecksumError mismatch0), world_attempted)
  /\ target0 <> running_path running_old
  /\ exists res w2 t,
       main_download descriptor0 running_old target0 env_upgrade world_prepared = (res, w2)
       /\ count is_attempt t = 1 /\ count is_download t = 1.
Proof.
  assert (H1 : main_prepare env_upgrade world_corrupt
               = (Ok (descriptor0, running_old, target0), world_prepared))
    by (vm_compute; reflexivity).
  assert (H2 : target0 <> running_path running_old) by (intros H; discriminate H).
  assert (H3 : download_image (image descriptor0) target0 env_upgrade world_prepared
               = (Raise (ChecksumError mismatch0), world_attempted))
    by (vm_compute; reflexivity).
  split; [exact H1|]. split; [exact H3|]. split; [exact H2|].
  destruct (proj2 (proj2 (retry_once env_upgrade world_corrupt world_prepared world_attempted
                            descriptor0 running_old target0 mismatch0 H1 H3) H2) eq_refl)
    as (p & w1' & res & w2 & t & _ & _ & _ & _ & Hm & _ & Ca & Cd & _).
  exists res, w2, t. split; [exact Hm|]. split; [exact Ca|exact Cd].
Defined.

(** ** Persistence *)

(** C5, as the script has it.  Once the configuration lines are accepted: if
    the device rejects the save command the error is logged and the process
    exits with status 1, before any status check or reload; if the save
    succeeds and the status check [show startup-config] is rejected, a
    message containing [No startup configuration found] is logged as a
    warning and any other as an error, and in both cases the run goes on to
    the completion line and the reload command. *)
Theorem persistence_errors (b : BootstrapDescriptor) (env : Env) (w : World) (out0 : string) :
  dev_cli env (count is_command (trace w)) (conf_string (config_lines b)) = Done out0 ->
  (forall msg,
      dev_cli env (S (count is_command (trace w))) "copy running-config startup-config"
      = Failed msg ->
      main_persist b env w
      = (Raise (SystemExit 1),
         MkWorld (fs w)
                 (trace w ++ [Log INFO MsgConfiguring;
                              Command (conf_string (config_lines b));
                              Command "copy running-config startup-config";
                              Log ERROR (MsgCopyFailed msg)])))
  /\ (forall out1 msg,
      dev_cli env (S (count is_command (trace w))) "copy running-config startup-config"
      = Done out1 ->
      dev_cli env (S (S (count is_command (trace w)))) "show startup-config"
      = Failed msg ->
      main_persist b env w
      = (match dev_cli env (S (S (S (count is_command (trace w)))))
                 "terminal dont-ask ; reload" with
         | Done _ => Ok tt
         | Failed m => Raise (cmd_exec_error m)
         end,
         MkWorld (fs w)
                 (trace w ++ [Log INFO MsgConfiguring;
                              Command (conf_string (config_lines b));
                              Command "copy running-config startup-config";
                              Log INFO MsgCopied;
                              Command "show startup-config";
                              (if contains "No startup configuration found" msg
                               then Log WARNING MsgNoStartupConfig
                               else Log ERROR (MsgShowStartupFailed msg));
                              Log INFO MsgCompleted;
                              Command "terminal dont-ask ; reload"]))).
Proof.
  intros Hconf. split.
  - intros msg Hcopy.
    unfold main_persist.
    unfold bind at 1, log, emit. unfold bind at 1, configure, bind, cli, ret.
    cbn [fs trace fst snd].
    rewrite (count_log is_command) by reflexivity. rewrite Hconf. cbn [of_reply].
    unfold catch, bind, cli. cbn [fs trace fst snd].
    rewrite (count_hit is_command) by reflexivity.
    rewrite (count_log is_command) by reflexivity. rewrite Hcopy. cbn [of_reply].
    unfold exit, raise, emit. cbn [fs trace]. now rewrite <- !app_assoc.
  - intros out1 msg Hcopy Hshow.
    unfold main_persist.
    unfold bind at 1, log, emit. unfold bind at 1, configure, bind, cli, ret.
    cbn [fs trace fst snd].
    rewrite (count_log is_command) by reflexivity. rewrite Hconf. cbn [of_reply].
    unfold catch, bind, cli, emit. cbn [fs trace fst snd].
    rewrite (count_hit is_command) by reflexivity.
    rewrite (count_log is_command) by reflexivity. rewrite Hcopy. cbn [of_reply fs trace].
    rewrite (count_log is_command) by reflexivity.
    rewrite (count_hit is_command) by reflexivity.
    rewrite (count_hit is_command) by reflexivity.
    rewrite (count_log is_command) by reflexivity. rewrite Hshow. cbn [of_reply fs trace].
    destruct (contains "No startup configuration found" msg); cbn [fs trace fst snd];
      rewrite ?(count_log is_command) by reflexivity;
      rewrite ?(count_hit is_command) by reflexivity;
      rewrite ?(count_log is_command) by reflexivity;
      rewrite ?(count_hit is_command) by reflexivity;
      rewrite ?(count_hit is_command) by reflexivity;
      rewrite ?(count_log is_command) by reflexivity;
      rewrite <- !app_assoc; cbn [app];
      destruct (dev_cli env _ "terminal dont-ask ; reload"); reflexivity.
Qed.

Lemma persistence_errors_witness :
  dev_cli env_show_rejected (count is_command (trace world_current))
          (conf_string (config_lines descriptor0)) = Done "ok"
  /\ main_persist descriptor0 env_show_rejected world_current
     = (Ok tt,
        MkWorld (fs world_current)
                [Log INFO MsgConfiguring;
                 Command "configure terminal ; hostname sw1 ; end";
                 Command "copy running-config startup-config";
                 Log INFO MsgCopied;
                 Command "show startup-config";
                 Log WARNING MsgNoStartupConfig;
                 Log INFO MsgCompleted;
                 Command "terminal dont-ask ; reload"]).
Proof.
  split; [reflexivity|].
  destruct (persistence_errors descriptor0 env_show_rejected world_current "ok" eq_refl)
    as [_ H].
  exact (H "ok" "No startup configuration found" eq_refl eq_refl).
Defined.

(** * The remaining code *)

(** ** The janitor *)

Lemma nodes_remove_eq (v : Volume) (f : string) (c : bytes) (k : list string) :
  v !! f = Some c -> resolve v f = Some k -> nodes (delete f v) !! k = None.
Proof.
  intros H Hk. destruct (lookup_file v f c H) as (k' & Hk' & Hn).
  rewrite Hk in Hk'. injection Hk' as <-.
  unfold delete, volume_delete, remove_file. rewrite Hk, Hn.
  cbn [nodes]. apply lookup_delete_eq.
Qed.

(** The file at a path is given by the directories and the node the path
    leads to. *)
Lemma lookup_same_node (v v' : Volume) (f : string) (k : list string) :
  (forall k', is_dir_key v' k' = is_dir_key v k') ->
  resolve v f = Some k ->
  nodes v' !! k = nodes v !! k ->
  v' !! f = v !! f /\ exists_at v' f = exists_at v f.
Proof.
  intros Hd Hk Hn.
  unfold lookup, volume_lookup, file_at, exists_at.
  rewrite (resolve_ext v v' f Hd), Hk.
  unfold node_at. destruct k as [|x k]; [now split|]. now rewrite Hn.
Qed.

(** A path that leads to nothing still leads to nothing when nodes are only
    removed. *)
Lemma exists_at_pruned (v v' : Volume) (f : string) :
  (forall k, is_dir_key v' k = is_dir_key v k) ->
  (forall k, nodes v' !! k = nodes v !! k \/ nodes v' !! k = None) ->
  exists_at v f = false -> exists_at v' f = false.
Proof.
  intros Hd Hn. unfold exists_at. rewrite (resolve_ext v v' f Hd).
  destruct (resolve v f) as [k|]; [|reflexivity].
  unfold node_at. destruct k as [|x k]; [trivial|].
  destruct (Hn (x :: k)) as [->| ->]; [trivial|].
  intros _. apply bool_decide_eq_false_2. intros [? ?]; discriminate.
Qed.

(** One round of the loop: the file is skipped, removed, or the failure of
    its removal is logged. *)
Lemma clean_one_result (rp tp f : string) (env : Env) (w : World) :
  exists w',
    clean_one rp tp f env w = (Ok tt, w')
    /\ (exists t, trace w' = trace w ++ t)
    /\ (fs w' = fs w
        \/ (stale rp tp f = true /\ (exists c, fs w !! f = Some c)
            /\ fs w' = delete f (fs w)))
    /\ (stale rp tp f = true ->
        exists_at (fs w') f = false \/ In (Log ERROR (MsgRemoveFailed f)) (trace w')).
Proof.
  unfold clean_one, stale.
  destruct (String.eqb f tp).
  { eexists. split; [reflexivity|]. split; [eexists; reflexivity|].
    split; [now left|discriminate]. }
  destruct (String.eqb f rp).
  { eexists. split; [reflexivity|]. split; [eexists; reflexivity|].
    split; [now left|discriminate]. }
  cbn [negb andb]. unfold catch, bind, log, emit, os_remove. cbn [fs trace].
  destruct (fs w !! f) as [c|] eqn:E; [destruct (fs_fault env _)|].
  - eexists. split; [reflexivity|]. cbn [fs trace]. rewrite <- app_assoc.
    split; [eexists; reflexivity|]. split; [now left|].
    intros _. right. apply in_or_app. right. right. now left.
  - eexists. split; [reflexivity|]. cbn [fs trace]. rewrite <- app_assoc.
    split; [eexists; reflexivity|].
    split; [right; split; [reflexivity|]; split; [now exists c|reflexivity]|].
    intros _. left. now apply (exists_at_remove _ _ c).
  - eexists. split; [reflexivity|]. cbn [fs trace]. rewrite <- app_assoc.
    split; [eexists; reflexivity|]. split; [now left|].
    intros _. right. apply in_or_app. right. right. now left.
Qed.

Lemma for_each_clean (rp tp : string) (l : list string) (env : Env) (w : World) :
  exists w',
    for_each l (clean_one rp tp) env w = (Ok tt, w')
    /\ (exists t, trace w' = trace w ++ t)
    /\ (forall k, nodes (fs w') !! k = nodes (fs w) !! k
                  \/ (nodes (fs w') !! k = None
                      /\ exists f, In f l /\ stale rp tp f = true
                                   /\ resolve (fs w) f = Some k))
    /\ (forall k, is_dir_key (fs w') k = is_dir_key (fs w) k)
    /\ (forall f, In f l -> stale rp tp f = true ->
          exists_at (fs w') f = false \/ In (Log ERROR (MsgRemoveFailed f)) (trace w')).
Proof.
  revert w. induction l as [|f l IH]; intros w.
  - exists w. split; [reflexivity|]. split; [exists []; now rewrite app_nil_r|].
    split; [now left|]. split; [reflexivity|]. intros f [].
  - cbn [for_each].
    destruct (clean_one_result rp tp f env w) as (w1 & E1 & [t1 T1] & F1 & L1).
    rewrite (bind_ok _ _ _ _ _ _ E1).
    destruct (IH w1) as (w' & E & [t T] & N & D & L). exists w'.
    assert (D1 : forall k, is_dir_key (fs w1) k = is_dir_key (fs w) k).
    { intros k. destruct F1 as [->|(_ & _ & ->)]; [reflexivity|apply is_dir_key_remove]. }
    assert (N1 : forall k, nodes (fs w1) !! k = nodes (fs w) !! k
                           \/ (nodes (fs w1) !! k = None
                               /\ stale rp tp f = true /\ resolve (fs w) f = Some k)).
    { intros k. destruct F1 as [->|(Hs & [c Hc] & ->)]; [now left|].
      destruct (decide (resolve (fs w) f = Some k)) as [Hk|Hk].
      - right. split; [now apply (nodes_remove_eq _ _ c)|now split].
      - left. now apply nodes_remove_ne. }
    split; [exact E|]. split; [exists (t1 ++ t); now rewrite T, T1, app_assoc|].
    split; [|split].
    + intros k. destruct (N k) as [Hk|(Hk & f' & Hin & Hs & Hr)].
      * rewrite Hk. destruct (N1 k) as [->|(Hnone & Hs & Hr)]; [now left|].
        right. split; [exact Hnone|]. exists f. split; [now left|now split].
      * right. split; [exact Hk|]. exists f'. split; [now right|]. split; [exact Hs|].
        now rewrite <- (resolve_ext _ _ f' D1).
    + intros k. now rewrite D.
    + intros f' [<-|Hin] Hs; [|now apply L].
      destruct (L1 Hs) as [Hgone|Hlog].
      * left. apply (exists_at_pruned (fs w1)); [exact D| |exact Hgone].
        intros k. destruct (N k) as [Hk|[Hk _]]; [now left|now right].
      * right. rewrite T. apply in_or_app. now left.
Qed.

(** A name the pattern lists is the canonical path of a node. *)
Lemma glob_names_resolve (v : Volume) (f : string) :
  In f (glob_names v) ->
  exists k, f = path_of k /\ resolve v f = Some k /\ is_Some (nodes v !! k).
Proof.
  unfold glob_names. rewrite in_map_iff. intros (k & <- & Hin).
  apply filter_In in Hin as [Hin Hb]. exists k. split; [reflexivity|].
  apply in_map_iff in Hin as ((k' & x) & Hk & Hin). cbn [fst] in Hk. subst k'.
  apply list_elem_of_In, elem_of_map_to_list in Hin.
  split; [|eauto].
  unfold bin_entry in Hb. destruct k as [|d [|name [|]]]; try discriminate Hb.
  apply andb_true_iff in Hb as [_ Hb]. now apply bool_decide_eq_true_1 in Hb.
Qed.

(** The janitor never raises.  It removes nodes only: a node that is gone
    was listed by the pattern under a name that is neither of the two
    protected paths; every such name is gone afterwards unless the failure
    of its removal was logged. *)
Lemma clean_old_images_result (rp tp : string) (env : Env) (w : World) :
  exists w',
    clean_old_images rp tp env w = (Ok tt, w')
    /\ (forall k, nodes (fs w') !! k = nodes (fs w) !! k
                  \/ (nodes (fs w') !! k = None
                      /\ In (path_of k) (glob_names (fs w))
                      /\ stale rp tp (path_of k) = true
                      /\ resolve (fs w) (path_of k) = Some k))
    /\ (forall k, is_dir_key (fs w') k = is_dir_key (fs w) k)
    /\ (forall f, In f (glob_names (fs w)) -> stale rp tp f = true ->
          exists_at (fs w') f = false \/ In (Log ERROR (MsgRemoveFailed f)) (trace w')).
Proof.
  unfold clean_old_images. unfold bind at 1, glob_bin. unfold bind at 1, log, emit.
  destruct (for_each_clean rp tp (glob_names (fs w)) env
              (MkWorld (fs w) (trace w ++ [Log INFO (MsgFoundBinFiles (glob_names (fs w)))])))
    as (w' & E & _ & N & D & L).
  exists w'. split; [exact E|]. cbn [fs] in *. split; [|split; [exact D|exact L]].
  intros k. destruct (N k) as [Hk|(Hk & f & Hin & Hs & Hr)]; [now left|].
  right. split; [exact Hk|].
  destruct (glob_names_resolve _ _ Hin) as (k' & -> & Hr' & _).
  rewrite Hr in Hr'. injection Hr' as ->. now repeat split.
Qed.

(** A listed name that is one of the two protected paths keeps its node. *)
Lemma clean_old_images_protects
    (rp tp f : string) (env : Env) (w w' : World) :
  clean_old_images rp tp env w = (Ok tt, w') ->
  In f (glob_names (fs w)) -> stale rp tp f = false ->
  fs w' !! f = fs w !! f /\ exists_at (fs w') f = exists_at (fs w) f.
Proof.
  intros E Hin Hs.
  destruct (clean_old_images_result rp tp env w) as (w0 & E0 & N & D & _).
  rewrite E in E0. injection E0 as <-.
  destruct (glob_names_resolve _ _ Hin) as (k & -> & Hr & _).
  apply (lookup_same_node _ _ _ k D Hr).
  destruct (N k) as [Hk|(_ & _ & Hs' & _)]; [exact Hk|congruence].
Qed.

(** Without faults a listed regular file that is not protected is removed. *)
Lemma clean_one_removes (rp tp f : string) (c : bytes) (env : Env) (w : World) :
  (forall n, fs_fault env n = false) ->
  stale rp tp f = true ->
  fs w !! f = Some c ->
  clean_one rp tp f env w
  = (Ok tt, MkWorld (delete f (fs w))
                    (trace w ++ [Log INFO (MsgRemoving f); FileRemove f])).
Proof.
  intros Hfault Hs Hc. unfold clean_one, stale in *.
  destruct (String.eqb f tp); [discriminate Hs|].
  destruct (String.eqb f rp); [discriminate Hs|].
  unfold catch, bind, log, emit, os_remove. cbn [fs trace].
  rewrite Hc, Hfault. now rewrite <- app_assoc.
Qed.

Lemma for_each_clean_removes
    (rp tp : string) (l : list string) (env : Env) (w : World) (f : string) (c : bytes) :
  (forall n, fs_fault env n = false) ->
  In f l -> stale rp tp f = true -> fs w !! f = Some c ->
  exists_at (fs (snd (for_each l (clean_one rp tp) env w))) f = false.
Proof.
  intros Hfault. revert w c.
  induction l as [|g l IH]; intros w c Hin Hs Hc; [destruct Hin|].
  cbn [for_each].
  destruct (clean_one_result rp tp g env w) as (w1 & E1 & _ & F1 & _).
  rewrite (bind_ok _ _ _ _ _ _ E1).
  destruct (for_each_clean rp tp l env w1) as (w' & E & _ & N & D & _).
  assert (Hkeep : exists_at (fs w1) f = false -> exists_at (fs w') f = false).
  { apply exists_at_pruned; [exact D|].
    intros k. destruct (N k) as [Hk|[Hk _]]; [now left|now right]. }
  destruct (fs w1 !! f) as [c1|] eqn:Hc1.
  { destruct Hin as [->|Hin]; [|now apply (IH w1 c1 Hin Hs)].
    rewrite (clean_one_removes rp tp f c env w Hfault Hs Hc) in E1.
    injection E1 as <-. cbn [fs] in Hc1.
    apply (exists_at_remove _ _ c) in Hc. apply lookup_not_exists in Hc. congruence. }
  rewrite E. cbn [snd]. apply Hkeep.
  destruct F1 as [F1|(_ & [cg Hg] & F1)]; [rewrite F1 in Hc1; congruence|].
  rewrite F1 in *.
  destruct (decide (resolve (fs w) f = resolve (fs w) g)) as [Heq|Hne].
  - destruct (lookup_file _ _ _ Hg) as (k & Hk & Hn).
    unfold exists_at. rewrite resolve_remove, Heq, Hk.
    unfold node_at in *. destruct k as [|x k]; [discriminate Hn|].
    rewrite (nodes_remove_eq _ _ cg _ Hg Hk).
    apply bool_decide_eq_false_2. intros [? ?]; discriminate.
  - rewrite (changes_at_lookup g f _ _ (changes_at_remove g (fs w)) Hne) in Hc1. congruence.
Qed.

Lemma basename_no_slash (u : string) : has_char "/" (basename u) = false.
Proof.
  unfold basename.
  pose proof (split_no_sep "/" u) as Hall.
  pose proof (split_nonempty "/" u) as Hne.
  induction (split "/" u) as [|t ts IH]; [contradiction|].
  inversion Hall as [|? ? Ht Hts]; subst.
  destruct ts as [|t' ts']; [exact Ht|].
  apply IH; [assumption|discriminate].
Qed.

(** X6: the target path the script builds always translates: the last URL
    segment has no slash, so the result is [/bootflash/] followed by that
    segment, or [/bootflash] alone when the URL ends in a slash. *)
Theorem target_path_posix (u : string) :
  has_char "/" (basename u) = false
  /\ to_posix_path (LOCAL_IMAGE_DIR +:+ basename u)
     = Ok (if truthy (basename u) then "/bootflash/" +:+ basename u else "/bootflash").
Proof.
  pose proof (basename_no_slash u) as Hb. split; [exact Hb|].
  unfold to_posix_path, LOCAL_IMAGE_DIR.
  change ("bootflash:///" +:+ basename u)
    with ("bootflash:" +:+ String "/" (EmptyString +:+ String "/"
            (EmptyString +:+ String "/" (basename u)))).
  rewrite !split_app_sep, (split_single "/" _ Hb).
  cbn. destruct (basename u); reflexivity.
Qed.

(** ** The preparation *)

(** How the preparation goes, by the answers of the device and of the
    descriptor server. *)
Lemma main_prepare_cases (env : Env) (w : World) :
  match dev_show_version env (count is_command (trace w)) with
  | Failed msg =>
      main_prepare env w
      = (Raise (cmd_exec_error msg), record w [Command "show version"])
  | Done sv1 =>
      match http_bootstrap env (proc_board_id sv1) with
      | None =>
          main_prepare env w
          = (Raise (SystemExit 1),
             record w [Command "show version"; Log ERROR MsgBootstrapFailed])
      | Some b =>
          match dev_show_version env (S (count is_command (trace w))) with
          | Failed msg =>
              main_prepare env w
              = (Raise (cmd_exec_error msg),
                 record w [Command "show version"; Log INFO (MsgBootstrap b);
                           Command "show version"])
          | Done sv2 =>
              let r := MkRunning (nxos_ver_str sv2) (nxos_file_name sv2) in
              match to_posix_path (nxos_file_name sv2), to_posix_path (target_of b) with
              | Ok rp, Ok tp =>
                  exists w0,
                    main_prepare env w = (Ok (b, r, target_of b), w0)
                    /\ clean_old_images rp tp env
                         (record w [Command "show version"; Log INFO (MsgBootstrap b);
                                    Command "show version"; Log INFO (MsgBooted r)])
                       = (Ok tt, w0)
              | Raise e, _ | Ok _, Raise e =>
                  main_prepare env w
                  = (Raise e,
                     record w [Command "show version"; Log INFO (MsgBootstrap b);
                               Command "show version"; Log INFO (MsgBooted r)])
              end
          end
      end
  end.
Proof.
  destruct (dev_show_version env (count is_command (trace w))) as [sv1|msg] eqn:E1.
  2:{ unfold main_prepare, record, bind, cli_json_show_version. now rewrite E1. }
  destruct (http_bootstrap env (proc_board_id sv1)) as [b|] eqn:E2.
  2:{ unfold main_prepare, record, bind, catch, bind, cli_json_show_version,
        get_bootstrap_data. rewrite E1. cbn [of_reply fs trace]. rewrite E2.
      unfold log, emit, exit, raise. cbn [fs trace]. now rewrite <- app_assoc. }
  destruct (dev_show_version env (S (count is_command (trace w)))) as [sv2|msg] eqn:E3.
  2:{ unfold main_prepare, record, bind, catch, bind, cli_json_show_version,
        get_bootstrap_data, get_booted_image, bind, cli_json_show_version, log, emit, ret.
      rewrite E1. cbn [of_reply fs trace]. rewrite E2. cbn [fs trace].
      rewrite (count_log is_command) by reflexivity.
      rewrite (count_hit is_command) by reflexivity.
      rewrite E3. cbn [of_reply fs trace]. now rewrite <- !app_assoc. }
  cbv zeta.
  set (r := MkRunning (nxos_ver_str sv2) (nxos_file_name sv2)).
  set (w1 := record w [Command "show version"; Log INFO (MsgBootstrap b);
                       Command "show version"; Log INFO (MsgBooted r)]).
  assert (Hmain : main_prepare env w
            = match to_posix_path (nxos_file_name sv2) with
              | Raise e => (Raise e, w1)
              | Ok rp =>
                  match to_posix_path (target_of b) with
                  | Raise e => (Raise e, w1)
                  | Ok tp =>
                      match clean_old_images rp tp env w1 with
                      | (Ok _, w0) => (Ok (b, r, target_of b), w0)
                      | (Raise e, w0) => (Raise e, w0)
                      end
                  end
              end).
  { unfold main_prepare, bind, catch, bind, cli_json_show_version,
      get_bootstrap_data, get_booted_image, bind, cli_json_show_version, log, emit, ret, lift.
    rewrite E1. cbn [of_reply fs trace]. rewrite E2. cbn [fs trace].
    rewrite (count_log is_command) by reflexivity.
    rewrite (count_hit is_command) by reflexivity.
    rewrite E3. cbn [of_reply fs trace running_path].
    rewrite <- !app_assoc. cbn [app]. fold r. reflexivity. }
  rewrite Hmain.
  destruct (to_posix_path (nxos_file_name sv2)) as [rp|e];
    [|destruct (to_posix_path (target_of b)); reflexivity].
  destruct (to_posix_path (target_of b)) as [tp|e]; [|reflexivity].
  destruct (clean_old_images_result rp tp env w1) as (w0 & E & _).
  rewrite E. exists w0. now split.
Qed.

Lemma conf_not_reload (l : list string) :
  String.eqb (conf_string l) "terminal dont-ask ; reload" = false.
Proof. reflexivity. Qed.

(** The events of the persistence phase, from the answers of the device. *)
Lemma persist_reload (b : BootstrapDescriptor) (env : Env) (w : World) :
  exists t,
    trace (snd (main_persist b env w)) = trace w ++ t
    /\ (count is_reload t <= 1)
    /\ (issued reload_command t = true ->
        issued (conf_string (config_lines b)) t = true
        /\ existsb is_copied t = true
        /\ exists t', t = t' ++ [Command reload_command])
    /\ (forall u w', main_persist b env w = (Ok u, w') -> issued reload_command t = true).
Proof.
  unfold main_persist, reload_command.
  unfold bind, catch, bind, configure, bind, cli, log, emit, ret, exit, raise.
  cbn [fs trace fst snd].
  destruct (dev_cli env _ (conf_string (config_lines b))); cbn [of_reply fs trace fst snd].
  2:{ eexists. rewrite <- !app_assoc. split; [reflexivity|].
      cbn. rewrite !conf_not_reload. cbn.
      split; [lia|]. split; [discriminate|]. intros; discriminate. }
  destruct (dev_cli env _ "copy running-config startup-config");
    cbn [of_reply fs trace fst snd].
  2:{ eexists. rewrite <- !app_assoc. split; [reflexivity|].
      cbn. rewrite !conf_not_reload. cbn.
      split; [lia|]. split; [discriminate|]. intros; discriminate. }
  destruct (dev_cli env _ "show startup-config") as [cfg|msg];
    cbn [of_reply fs trace fst snd];
    [|destruct (contains "No startup configuration found" msg); cbn [fs trace fst snd]];
    (destruct (dev_cli env _ "terminal dont-ask ; reload"); cbn [of_reply fs trace fst snd];
     eexists; rewrite <- !app_assoc; (split; [reflexivity|]); cbn;
     rewrite ?conf_not_reload, ?String.eqb_refl; cbn;
     (split; [lia|]); (split; [|reflexivity]); intros _;
     (split; [reflexivity|]); (split; [reflexivity|]);
     eexists [_; _; _; _; _; _; _]; reflexivity).
Qed.

Lemma prepare_no_reload : emits (fun ev => negb (is_reload ev)) main_prepare.
Proof. unfold main_prepare. emits_auto. Qed.

Lemma download_no_reload (b : BootstrapDescriptor) (r : RunningImage) (target : string) :
  emits (fun ev => negb (is_reload ev)) (main_download b r target).
Proof. unfold main_download, download_image. emits_auto. Qed.

Lemma boot_config_no_reload (b : BootstrapDescriptor) (r : RunningImage) (target : string) :
  emits (fun ev => negb (is_reload ev)) (main_boot_config b r target).
Proof. unfold main_boot_config. emits_auto. Qed.

Lemma no_reload_issued (t : list event) :
  forallb (fun ev => negb (is_reload ev)) t = true ->
  issued reload_command t = false /\ count is_reload t = 0.
Proof.
  intros H. split; [|now apply count_none].
  induction t as [|ev t IH]; [reflexivity|].
  cbn [forallb] in H. apply andb_true_iff in H as [Hev Ht].
  unfold issued in *. cbn [existsb]. rewrite (IH Ht), orb_false_r.
  destruct ev; try reflexivity. apply negb_true_iff in Hev. exact Hev.
Qed.

(** The run up to the persistence phase never sends the reload command. *)
Lemma main_shape (env : Env) (w : World) :
  exists t1 t2,
    trace (snd (main env w)) = trace w ++ t1 ++ t2
    /\ forallb (fun ev => negb (is_reload ev)) t1 = true
    /\ ((t2 = [] /\ exists e, fst (main env w) = Raise e)
        \/ exists b r target w0 w3,
             main_prepare env w = (Ok (b, r, target), w0)
             /\ main env w = main_persist b env w3
             /\ trace (snd (main_persist b env w3)) = trace w3 ++ t2).
Proof.
  unfold main, bind.
  destruct (prepare_no_reload env w) as (t1 & E1 & P1).
  destruct (main_prepare env w) as [[[[b r] target]|e] w1] eqn:Eprep; cbn [fst snd] in *.
  2:{ exists t1, []. rewrite app_nil_r. split; [assumption|]. split; [assumption|].
      left. split; [reflexivity|]. now exists e. }
  destruct (download_no_reload b r target env w1) as (t2 & E2 & P2).
  destruct (main_download b r target env w1) as [[[]|e] w2]; cbn [fst snd] in *.
  2:{ exists (t1 ++ t2), []. rewrite app_nil_r, E2, E1, app_assoc.
      split; [reflexivity|]. split; [now rewrite forallb_app, P1, P2|].
      left. split; [reflexivity|]. now exists e. }
  destruct (boot_config_no_reload b r target env w2) as (t3 & E3 & P3).
  destruct (main_boot_config b r target env w2) as [[[]|e] w3]; cbn [fst snd] in *.
  2:{ exists (t1 ++ t2 ++ t3), []. rewrite app_nil_r, E3, E2, E1, <- !app_assoc.
      split; [reflexivity|]. split; [now rewrite !forallb_app, P1, P2, P3|].
      left. split; [reflexivity|]. now exists e. }
  destruct (persist_reload b env w3) as (t4 & E4 & _).
  exists (t1 ++ t2 ++ t3), t4.
  split; [rewrite E4, E3, E2, E1, <- !app_assoc; reflexivity|].
  split; [now rewrite !forallb_app, P1, P2, P3|].
  right. exists b, r, target, w1, w3. repeat split. exact E4.
Qed.

Lemma script_tail (env : Env) (w : World) :
  exists tail,
    events env w = trace (snd (main env w)) ++ tail
    /\ forallb (fun ev => negb (is_reload ev)) tail = true
    /\ (exit_status env w = 0%Z -> tail = [] /\ exists w', main env w = (Ok tt, w')).
Proof.
  pose proof (exit_zero_main_ok env w) as Hzero.
  unfold events, exit_status, script in *.
  destruct (main env w) as [[[]|e] w']; cbn [fst snd] in *.
  - exists []. rewrite app_nil_r. repeat split. eauto.
  - destruct e; cbn [fst snd trace] in *;
      first [ exists []; rewrite app_nil_r;
              (split; [reflexivity|]); (split; [reflexivity|]);
              intros H; apply Hzero in H as [? [=]]
            | eexists [_];
              (split; [reflexivity|]); (split; [reflexivity|]);
              intros H; apply Hzero in H as [? [=]] ].
Qed.

(** X16: the reload command is sent at most once, and only in a run in
    which the configuration lines were sent and the save was acknowledged; a
    run that ends with status 0 ends with the reload command. *)
Theorem reload_only_after_save (env : Env) (w : World) :
  exists t,
    events env w = trace w ++ t
    /\ count is_reload t <= 1
    /\ (issued reload_command t = true ->
        exists b r target w0,
          main_prepare env w = (Ok (b, r, target), w0)
          /\ issued (conf_string (config_lines b)) t = true
          /\ existsb is_copied t = true)
    /\ (exit_status env w = 0%Z -> exists t', t = t' ++ [Command reload_command]).
Proof.
  destruct (script_tail env w) as (tail & Ev & Ptail & Hzero).
  destruct (main_shape env w) as (t1 & t2 & Em & P1 & Hshape).
  destruct (no_reload_issued t1 P1) as [I1 C1].
  destruct (no_reload_issued tail Ptail) as [Itail Ctail].
  exists (t1 ++ t2 ++ tail).
  split; [rewrite Ev, Em, <- !app_assoc; reflexivity|].
  destruct Hshape as [(-> & e & He)|(b & r & target & w0 & w3 & Eprep & Emain & Et)].
  - cbn [app]. rewrite count_app, C1, Ctail, issued_app, I1, Itail.
    split; [lia|]. split; [discriminate|].
    intros H. apply Hzero in H as [_ [w' H]]. rewrite H in He. discriminate He.
  - destruct (persist_reload b env w3) as (t & Et' & Hc & Hi & Hok).
    rewrite Et in Et'. apply app_inv_head in Et'. subst t.
    rewrite !count_app, C1, Ctail, !issued_app, I1, Itail, orb_false_r.
    split; [lia|]. split.
    + cbn [orb]. intros H. destruct (Hi H) as (Hconf & Hcopied & _).
      exists b, r, target, w0. split; [exact Eprep|].
      rewrite !issued_app, Hconf, !existsb_app, Hcopied.
      now rewrite !orb_true_r.
    + intros H. apply Hzero in H as [-> [w' H]]. rewrite app_nil_r.
      rewrite Emain in H. destruct (Hi (Hok _ _ H)) as (_ & _ & t' & ->).
      exists (t1 ++ t'). now rewrite app_assoc.
Qed.

(** ** What a transfer leaves on the boot volume *)

(** On a volume without faults and with a clock that advances, a transfer
    into a path that can be opened ends as the stream ends. *)
Lemma download_stream_steady
    (image_conf : ImageSpec) (target p : string) (chunks : list bytes) (complete : bool)
    (env : Env) (w : World) :
  to_posix_path target = Ok p ->
  http_image env (count is_download (trace w)) (url image_conf) = HttpStream chunks complete ->
  writable (fs w) p = true ->
  (forall n, fs_fault env n = false) ->
  (forall i j, i < j -> (clock env i < clock env j)%Z) ->
  exists w1,
    download_stream image_conf target env w
    = (if complete then Ok tt else Raise RequestException, w1).
Proof.
  intros Hp Hreply Hw Hfault Hclock.
  assert (Hc : count is_download
                 (trace w ++ [Log INFO (MsgDownloading (url image_conf) target)])
               = count is_download (trace w)) by (now apply count_log).
  unfold download_stream.
  unfold bind at 1, log, emit. unfold bind at 1, requests_get. cbn [fs trace].
  rewrite Hc, Hreply.
  unfold bind at 1, time_time. cbn [fs trace].
  unfold bind at 1, lift. rewrite Hp. unfold bind at 1, open_wb. cbn [fs trace fst snd].
  rewrite Hw, Hfault. cbn [andb negb].
  match goal with
  | |- context [bind (write_chunks p chunks 0 (clock env ?m)) _ env ?w0] =>
      destruct (write_chunks_steady p chunks 0 m env w0 Hfault Hclock) as (w' & E);
        [cbn [trace]; rewrite !length_app; cbn [length]; lia|]
  end.
  rewrite (bind_ok _ _ _ _ _ _ E). exists w'. now destruct complete.
Qed.

(** X9: when nothing is at the target path, a call of [download_image]
    that reaches a verdict has received the whole stream and written it to
    the target file, the verdict is the one on the digest of the chunks put
    together, and the file at every path that leads elsewhere is as it was.  On a volume without faults and
    with a clock that advances, a complete transfer into a path that can be
    opened does reach the verdict. *)
Theorem download_image_writes
    (image_conf : ImageSpec) (target p : string) (chunks : list bytes) (complete : bool)
    (env : Env) (w : World) :
  to_posix_path target = Ok p ->
  exists_at (fs w) p = false ->
  http_image env (count is_download (trace w)) (url image_conf) = HttpStream chunks complete ->
  (forall res w2,
     download_image image_conf target env w = (res, w2) ->
     (res = Ok tt \/ exists msg, res = Raise (ChecksumError msg)) ->
     complete = true
     /\ fs w2 !! p = Some (concat chunks)
     /\ res = verdict image_conf target (dev_md5sum env (concat chunks))
     /\ forall q, ~ same_place (fs w) q p -> fs w2 !! q = fs w !! q)
  /\ (complete = true ->
      writable (fs w) p = true ->
      (forall n, fs_fault env n = false) ->
      (forall i j, i < j -> (clock env i < clock env j)%Z) ->
      exists w2,
        download_image image_conf target env w
        = (verdict image_conf target (dev_md5sum env (concat chunks)), w2)
        /\ fs w2 !! p = Some (concat chunks)).
Proof.
  intros Hp He Hreply.
  destruct (download_image_fetch image_conf target p env w Hp He)
    as (res & w2 & t & E & _ & _ & _ & Hch & Hcase).
  rewrite Hreply in Hcase.
  assert (Hverdict : res = Ok tt \/ (exists msg, res = Raise (ChecksumError msg)) ->
            complete = true /\ fs w2 !! p = Some (concat chunks)
            /\ res = verdict image_conf target (dev_md5sum env (concat chunks))).
  { intros Hres.
    destruct Hcase as [[-> _]|(n & Hn & Hcontent & Hc)];
      [destruct Hres as [Hr|[msg Hr]]; discriminate Hr|].
    destruct Hc as [(Hv & -> & ->)|[(-> & _)|[[-> _]|[-> _]]]];
      try (destruct Hres as [Hr|[msg Hr]]; discriminate Hr).
    rewrite firstn_all in Hcontent. now repeat split. }
  split.
  - intros res' w2' E' Hres. rewrite E in E'. injection E' as <- <-.
    destruct (Hverdict Hres) as (Hc & Hfile & Hv).
    split; [exact Hc|]. split; [exact Hfile|]. split; [exact Hv|].
    intros q Hq. now apply (changes_at_elsewhere p).
  - intros -> Hw Hfault Hclock.
    destruct (download_stream_steady image_conf target p chunks true env w
                Hp Hreply Hw Hfault Hclock) as (w1 & Es).
    assert (Hres : res = Ok tt \/ exists msg, res = Raise (ChecksumError msg)).
    { rewrite (download_image_missing image_conf target p env w Hp He) in E.
      rewrite (bind_ok _ _ _ _ _ _ Es) in E.
      unfold verify_md5sum, bind, cli_json_md5sum in E. rewrite Hp in E.
      destruct (fs w1 !! p) as [content|]; cbn [fst snd] in E.
      - destruct (negb _); injection E as <- _; [right; eauto|now left].
      - injection E as <- _. exfalso.
        destruct Hcase as [[Hr _]|(n & _ & _ & Hc)]; [discriminate Hr|].
        destruct Hc as [(Hv & _)|[(Hr & _)|[[Hr _]|[Hr _]]]]; try discriminate Hr.
        destruct (verdict_cases image_conf target (dev_md5sum env (concat chunks)))
          as [Hok|[msg Hm]]; rewrite Hv in *; congruence. }
    destruct (Hverdict Hres) as (_ & Hfile & ->).
    exists w2. now split.
Qed.

(** X10: when nothing is at the target path and the transfer ends with an
    error, either the target could not be opened and the boot volume is as
    it was, or the chunks written so far stay at the target path: all of
    them when the stream broke off.  Nothing removes that file: a later call
    finds it, transfers nothing and judges it by its digest. *)
Theorem download_image_truncated
    (image_conf : ImageSpec) (target p : string) (chunks : list bytes) (complete : bool)
    (env : Env) (w w2 : World) (e : exn) :
  to_posix_path target = Ok p ->
  exists_at (fs w) p = false ->
  http_image env (count is_download (trace w)) (url image_conf) = HttpStream chunks complete ->
  download_image image_conf target env w = (Raise e, w2) ->
  transfer_error e = true ->
  (e = OSError /\ fs w2 = fs w)
  \/ exists n,
       n <= length chunks
       /\ fs w2 !! p = Some (concat (firstn n chunks))
       /\ (e = RequestException -> n = length chunks /\ complete = false)
       /\ (e = ZeroDivisionError -> 1 <= n)
       /\ forall env' w3,
            fs w3 = fs w2 ->
            download_image image_conf target env' w3
            = (verdict image_conf target (dev_md5sum env' (concat (firstn n chunks))),
               MkWorld (fs w3)
                       (trace w3 ++ Log INFO (MsgAlreadyExists target)
                          :: verify_events image_conf target
                               (dev_md5sum env' (concat (firstn n chunks))))).
Proof.
  intros Hp He Hreply E Herr.
  destruct (download_image_fetch image_conf target p env w Hp He)
    as (res & w2' & t & E' & _ & _ & _ & _ & Hcase).
  rewrite E in E'. injection E' as <- <-. rewrite Hreply in Hcase.
  destruct Hcase as [[[= ->] F]|(n & Hn & Hcontent & Hc)]; [left; now split|].
  right. exists n. split; [exact Hn|]. split; [exact Hcontent|].
  assert (Hagain : forall env' w3,
            fs w3 = fs w2 ->
            download_image image_conf target env' w3
            = (verdict image_conf target (dev_md5sum env' (concat (firstn n chunks))),
               MkWorld (fs w3)
                       (trace w3 ++ Log INFO (MsgAlreadyExists target)
                          :: verify_events image_conf target
                               (dev_md5sum env' (concat (firstn n chunks)))))).
  { intros env' w3 H3. apply (download_image_present image_conf target p); [exact Hp|].
    now rewrite H3. }
  destruct Hc as [(Hv & _)|[([= ->] & -> & ->)|[[[= ->] Hn1]|[[= ->] Hn1]]]].
  - exfalso.
    destruct (verdict_cases image_conf target (dev_md5sum env (concat chunks)))
      as [Hok|[msg Hm]]; rewrite <- Hv in *; [discriminate Hok|].
    injection Hm as ->. discriminate Herr.
  - split; [now split|]. split; [discriminate|exact Hagain].
  - split; [discriminate|]. split; [trivial|exact Hagain].
  - split; [discriminate|]. split; [discriminate|exact Hagain].
Qed.

(** ** What the download phase may change *)

Lemma main_download_touches
    (b : BootstrapDescriptor) (r : RunningImage) (target p : string) :
  to_posix_path target = Ok p -> touches p (main_download b r target).
Proof.
  intros Hp env w.
  pose proof (download_image_touches (image b) target p Hp env w) as H1.
  unfold main_download, catch.
  destruct (download_image (image b) target env w) as [[[]|e] w1]; cbn [snd] in *;
    [exact H1|].
  destruct e; try exact H1.
  destruct (negb (String.eqb target (running_path r))); [|exact H1].
  unfold bind at 1, log, emit. unfold bind at 1. unfold bind at 1, lift. rewrite Hp.
  unfold bind at 1, os_remove. cbn [fs trace].
  destruct (fs w1 !! p) eqn:Hc; [destruct (fs_fault env _)|]; cbn [snd fs];
    try exact H1.
  eapply changes_at_trans; [exact H1|].
  eapply changes_at_trans; [apply changes_at_remove|].
  match goal with
  | |- context [download_image _ _ env ?w2] =>
      exact (download_image_touches (image b) target p Hp env w2)
  end.
Qed.

Lemma keeps_ret {A} (a : A) : keeps (ret a).
Proof. intros env w. reflexivity. Qed.

Lemma keeps_raise {A} (e : exn) : keeps (@raise A e).
Proof. intros env w. reflexivity. Qed.

Lemma keeps_emit (ev : event) : keeps (emit ev).
Proof. intros env w. reflexivity. Qed.

Lemma keeps_cli (command : string) : keeps (cli command).
Proof. intros env w. reflexivity. Qed.

Lemma keeps_show_boot : keeps cli_json_show_boot.
Proof. intros env w. reflexivity. Qed.

Lemma keeps_bind {A B} (m : M A) (k : A -> M B) :
  keeps m -> (forall a, keeps (k a)) -> keeps (bind m k).
Proof.
  intros Hm Hk env w. unfold bind. specialize (Hm env w).
  destruct (m env w) as [[a|e] w1]; cbn [snd] in *; [|exact Hm].
  now rewrite Hk.
Qed.

Lemma keeps_catch {A} (m : M A) (handler : exn -> option (M A)) :
  keeps m -> (forall e h, handler e = Some h -> keeps h) -> keeps (catch m handler).
Proof.
  intros Hm Hh env w. unfold catch. specialize (Hm env w).
  destruct (m env w) as [[a|e] w1]; cbn [snd] in *; [exact Hm|].
  destruct (handler e) as [h|] eqn:Eh; [|exact Hm].
  now rewrite (Hh e h Eh).
Qed.

Ltac keeps_step :=
  lazymatch goal with
  | |- keeps (bind _ _) => apply keeps_bind; [|intros ?]
  | |- keeps (catch _ _) => apply keeps_catch; [|raises_handler]
  | |- keeps (ret _) => apply keeps_ret
  | |- keeps (raise _) => apply keeps_raise
  | |- keeps (exit _) => apply keeps_raise
  | |- keeps (log _ _) => apply keeps_emit
  | |- keeps (emit _) => apply keeps_emit
  | |- keeps (cli _) => apply keeps_cli
  | |- keeps cli_json_show_boot => apply keeps_show_boot
  | |- keeps (configure _) => unfold configure
  | |- keeps (if ?b then _ else _) => destruct b
  end.

Lemma boot_config_keeps (b : BootstrapDescriptor) (r : RunningImage) (target : string) :
  keeps (main_boot_config b r target).
Proof. unfold main_boot_config. repeat keeps_step. Qed.

Lemma persist_keeps (b : BootstrapDescriptor) : keeps (main_persist b).
Proof. unfold main_persist. repeat keeps_step. Qed.

Lemma script_fs (env : Env) (w : World) : fs (snd (script env w)) = fs (snd (main env w)).
Proof.
  unfold script. destruct (main env w) as [[u|e] w']; [reflexivity|].
  now destruct e.
Qed.

Lemma main_prepare_inv
    (env : Env) (w w0 : World) (b : BootstrapDescriptor) (r : RunningImage) (target : string) :
  main_prepare env w = (Ok (b, r, target), w0) ->
  target = target_of b
  /\ exists rp tp w1,
       to_posix_path (running_path r) = Ok rp
       /\ to_posix_path target = Ok tp
       /\ fs w1 = fs w
       /\ clean_old_images rp tp env w1 = (Ok tt, w0).
Proof.
  intros H. pose proof (main_prepare_cases env w) as C.
  destruct (dev_show_version env (count is_command (trace w))) as [sv1|msg];
    [|rewrite C in H; discriminate H].
  destruct (http_bootstrap env (proc_board_id sv1)) as [b'|];
    [|rewrite C in H; discriminate H].
  destruct (dev_show_version env (S (count is_command (trace w)))) as [sv2|msg];
    [|rewrite C in H; discriminate H].
  cbv zeta in C.
  destruct (to_posix_path (nxos_file_name sv2)) as [rp|e] eqn:Hrp.
  2:{ destruct (to_posix_path (target_of b')); rewrite C in H; discriminate H. }
  destruct (to_posix_path (target_of b')) as [tp|e] eqn:Htp;
    [|rewrite C in H; discriminate H].
  destruct C as (w0' & E & F). rewrite E in H. injection H as <- <- <- <-.
  split; [reflexivity|]. exists rp, tp. eexists.
  split; [exact Hrp|]. split; [exact Htp|]. split; [|exact F]. reflexivity.
Qed.

(** After a completed preparation the boot volume at the end of the run
    is the one the download phase leaves. *)
Lemma script_fs_download
    (env : Env) (w w0 : World) (b : BootstrapDescriptor) (r : RunningImage) (target : string) :
  main_prepare env w = (Ok (b, r, target), w0) ->
  fs (snd (script env w)) = fs (snd (main_download b r target env w0)).
Proof.
  intros Hprep.
  rewrite script_fs. unfold main. unfold bind at 1. rewrite Hprep. cbn [fst snd].
  unfold bind at 1.
  destruct (main_download b r target env w0) as [[[]|e] w2]; cbn [snd]; [|reflexivity].
  unfold bind.
  pose proof (boot_config_keeps b r target env w2) as Hb.
  destruct (main_boot_config b r target env w2) as [[[]|e] w3]; cbn [snd] in *.
  - now rewrite persist_keeps.
  - exact Hb.
Qed.

(** X14: the file the device booted from outlives the run when it is
    reported under its canonical path, the name under which the janitor
    lists it, and the target path leads elsewhere. *)
Theorem running_image_survives
    (env : Env) (w w0 : World) (b : BootstrapDescriptor) (r : RunningImage)
    (target rp tp : string) (k : list string) :
  main_prepare env w = (Ok (b, r, target), w0) ->
  to_posix_path (running_path r) = Ok rp ->
  to_posix_path target = Ok tp ->
  resolve (fs w) rp = Some k ->
  path_of k = rp ->
  resolve (fs w) tp <> Some k ->
  nodes (fs (snd (script env w))) !! k = nodes (fs w) !! k
  /\ fs (snd (script env w)) !! rp = fs w !! rp.
Proof.
  intros Hprep Hrp Htp Hk Hcanon Hne.
  destruct (main_prepare_inv env w w0 b r target Hprep)
    as (_ & rp' & tp' & w1 & Hrp' & Htp' & F1 & Hclean).
  rewrite Hrp in Hrp'. injection Hrp' as <-.
  rewrite Htp in Htp'. injection Htp' as <-.
  destruct (clean_old_images_result rp tp env w1) as (w0' & E & N & D & _).
  rewrite Hclean in E. injection E as <-. rewrite F1 in N, D.
  assert (N0 : nodes (fs w0) !! k = nodes (fs w) !! k).
  { destruct (N k) as [H|(_ & _ & Hs & _)]; [exact H|].
    rewrite Hcanon in Hs. unfold stale in Hs. rewrite String.eqb_refl in Hs.
    now rewrite andb_false_r in Hs. }
  destruct (main_download_touches b r target tp Htp env w0) as [N2 D2].
  rewrite (script_fs_download env w w0 b r target Hprep).
  assert (N' : nodes (fs (snd (main_download b r target env w0))) !! k = nodes (fs w) !! k).
  { rewrite N2; [exact N0|]. now rewrite (resolve_ext _ _ tp D). }
  split; [exact N'|].
  apply (lookup_same_node _ _ _ k); [|exact Hk|exact N'].
  intros k'. now rewrite D2.
Qed.

(** The condition on the spelling is needed: reported with a [.] segment,
    the running image is listed by the janitor under another name than its
    translated path, and removed. *)
Lemma running_image_lost_under_other_spelling :
  to_posix_path "bootflash:/./nxos.10.4.3.bin" = Ok "/bootflash/./nxos.10.4.3.bin"
  /\ fs world_old !! "/bootflash/./nxos.10.4.3.bin" = Some ["r"%byte]
  /\ removed "/bootflash/nxos.10.4.3.bin" (events env_dotted world_old) = true
  /\ fs (snd (script env_dotted world_old)) !! "/bootflash/./nxos.10.4.3.bin" = None
  /\ exit_status env_dotted world_old = 0%Z.
Proof. repeat split; vm_compute; reflexivity. Qed.

(** ** Runs that stop early *)

(** X3: when the descriptor cannot be fetched the script logs the failure and
    exits with status 1; nothing else has happened. *)
Theorem bootstrap_failure_exits (env : Env) (w : World) (sv : ShowVersion) :
  dev_show_version env (count is_command (trace w)) = Done sv ->
  http_bootstrap env (proc_board_id sv) = None ->
  script env w
  = (1%Z, MkWorld (fs w) (trace w ++ [Command "show version"; Log ERROR MsgBootstrapFailed])).
Proof.
  intros Hsv Hb. pose proof (main_prepare_cases env w) as C.
  rewrite Hsv, Hb in C. unfold script, main, bind. now rewrite C.
Qed.

(** X4: a running image on an unrecognised volume stops the run before the
    janitor: the path error reaches the top-level handler, the exit status
    is 1 and no file was touched. *)
Theorem unknown_running_volume_aborts
    (env : Env) (w : World) (sv1 sv2 : ShowVersion) (b : BootstrapDescriptor) :
  dev_show_version env (count is_command (trace w)) = Done sv1 ->
  http_bootstrap env (proc_board_id sv1) = Some b ->
  dev_show_version env (S (count is_command (trace w))) = Done sv2 ->
  ~ In (hd EmptyString (split "/" (nxos_file_name sv2))) volume_labels ->
  script env w
  = (1%Z,
     MkWorld (fs w)
             (trace w ++ [Command "show version"; Log INFO (MsgBootstrap b);
                          Command "show version";
                          Log INFO (MsgBooted (MkRunning (nxos_ver_str sv2)
                                                         (nxos_file_name sv2)));
                          Log ERROR (MsgUncaught
                            (ValueError ("Unknown path type: "
                                         +:+ nxos_file_name sv2)))])).
Proof.
  intros H1 Hb H2 Hvol. pose proof (main_prepare_cases env w) as C.
  rewrite H1, Hb, H2 in C. cbv zeta in C.
  assert (Hp : to_posix_path (nxos_file_name sv2)
               = Raise (ValueError ("Unknown path type: " +:+ nxos_file_name sv2))).
  { unfold to_posix_path. destruct (str_in _ volume_labels) eqn:E; [|reflexivity].
    apply str_in_In in E. contradiction. }
  rewrite Hp in C.
  unfold script, main, bind. rewrite C. unfold record. cbn [fs trace].
  now rewrite <- app_assoc.
Qed.

(** X5: whatever stops the preparation, the boot volume is as it was and the
    exit status is 1. *)
Theorem prepare_failure_keeps_files (env : Env) (w w1 : World) (e : exn) :
  main_prepare env w = (Raise e, w1) ->
  fs w1 = fs w
  /\ fs (snd (script env w)) = fs w
  /\ exit_status env w = 1%Z.
Proof.
  intros H. pose proof (main_prepare_cases env w) as C.
  assert (Hscript : forall e' t, main_prepare env w = (Raise e', record w t) ->
                    exit_ok e' = true ->
                    fs w1 = fs w /\ fs (snd (script env w)) = fs w
                    /\ exit_status env w = 1%Z).
  { intros e' t E Hq. rewrite E in H. injection H as <- <-.
    split; [reflexivity|]. rewrite script_fs.
    unfold exit_status, script, main, bind. rewrite E. cbn [fst snd].
    split; [reflexivity|].
    destruct e'; try reflexivity. cbn [exit_ok] in Hq. now apply Z.eqb_eq in Hq as ->. }
  destruct (dev_show_version env (count is_command (trace w))) as [sv1|msg];
    [|now apply (Hscript _ _ C)].
  destruct (http_bootstrap env (proc_board_id sv1)) as [b'|];
    [|now apply (Hscript _ _ C)].
  destruct (dev_show_version env (S (count is_command (trace w)))) as [sv2|msg];
    [|now apply (Hscript _ _ C)].
  cbv zeta in C.
  assert (Hv : forall path e', to_posix_path path = Raise e' -> exit_ok e' = true).
  { intros path e'. unfold to_posix_path. destruct (str_in _ _); [discriminate|].
    now intros [= <-]. }
  destruct (to_posix_path (nxos_file_name sv2)) as [rp|e1] eqn:Hrp.
  2:{ destruct (to_posix_path (target_of b')); apply (Hscript _ _ C), (Hv _ _ Hrp). }
  destruct (to_posix_path (target_of b')) as [tp|e2] eqn:Htp;
    [|apply (Hscript _ _ C), (Hv _ _ Htp)].
  destruct C as (w0' & E & _). rewrite E in H. discriminate H.
Qed.

(** X12: a transport error of the first attempt is not retried: the failure is
    logged and the process exits with status 1. *)
Theorem transport_error_exits
    (env : Env) (w w0 w1 : World) (b : BootstrapDescriptor) (r : RunningImage)
    (target : string) :
  main_prepare env w = (Ok (b, r, target), w0) ->
  download_image (image b) target env w0 = (Raise RequestException, w1) ->
  main_download b r target env w0
  = (Raise (SystemExit 1), MkWorld (fs w1) (trace w1 ++ [Log ERROR MsgDownloadFailed]))
  /\ script env w = (1%Z, MkWorld (fs w1) (trace w1 ++ [Log ERROR MsgDownloadFailed])).
Proof.
  intros Hprep Hdl.
  assert (Hm : main_download b r target env w0
               = (Raise (SystemExit 1),
                  MkWorld (fs w1) (trace w1 ++ [Log ERROR MsgDownloadFailed]))).
  { unfold main_download, catch. rewrite Hdl. reflexivity. }
  split; [exact Hm|].
  unfold script, main. unfold bind at 1. rewrite Hprep. cbn [fst snd].
  unfold bind at 1. now rewrite Hm.
Qed.

(** ** Properties of the remaining code, stated for users of the script *)

(** X1: the janitor never raises, whatever the removals do.  It only
    removes nodes: a node that is gone was listed by the pattern
    [/bootflash/*.bin] under a name that is neither of the two paths it was
    called with.  Every such name is gone afterwards unless the failure of
    its removal was logged, and on a volume without faults every such
    regular file is gone.  A listed name that is one of the two paths, and
    every path that leads to no listed entry, keeps its file. *)
Theorem clean_old_images_spec (rp tp : string) (env : Env) (w : World) :
  exists w',
    clean_old_images rp tp env w = (Ok tt, w')
    /\ (forall k, nodes (fs w') !! k = nodes (fs w) !! k
                  \/ (nodes (fs w') !! k = None
                      /\ In (path_of k) (glob_names (fs w))
                      /\ stale rp tp (path_of k) = true))
    /\ (forall f, In f (glob_names (fs w)) -> stale rp tp f = true ->
          exists_at (fs w') f = false \/ In (Log ERROR (MsgRemoveFailed f)) (trace w'))
    /\ ((forall n, fs_fault env n = false) ->
        forall f c, In f (glob_names (fs w)) -> stale rp tp f = true ->
                    fs w !! f = Some c -> exists_at (fs w') f = false)
    /\ (forall f, In f (glob_names (fs w)) -> stale rp tp f = false ->
          fs w' !! f = fs w !! f /\ exists_at (fs w') f = true)
    /\ (forall q, (forall f, In f (glob_names (fs w)) -> ~ same_place (fs w) q f) ->
                  fs w' !! q = fs w !! q).
Proof.
  destruct (clean_old_images_result rp tp env w) as (w' & E & N & D & L).
  exists w'. split; [exact E|].
  split; [intros k; destruct (N k) as [H|(H1 & H2 & H3 & _)]; [now left|now right]|].
  split; [exact L|]. split; [|split].
  - intros Hfault f c Hin Hs Hc.
    pose proof (for_each_clean_removes rp tp (glob_names (fs w)) env
                  (MkWorld (fs w) (trace w ++ [Log INFO (MsgFoundBinFiles (glob_names (fs w)))]))
                  f c Hfault Hin Hs Hc) as H.
    unfold clean_old_images, bind, glob_bin, log, emit in E. cbn [fs trace] in E.
    now rewrite E in H.
  - intros f Hin Hs.
    destruct (clean_old_images_protects rp tp f env w w' E Hin Hs) as [Hl He].
    split; [exact Hl|]. rewrite He.
    destruct (glob_names_resolve _ _ Hin) as (k & _ & Hr & Hsome).
    unfold exists_at. rewrite Hr. unfold node_at. destruct k; now apply bool_decide_eq_true_2.
  - intros q Hq.
    destruct (resolve (fs w) q) as [k|] eqn:Hk.
    + apply (lookup_same_node _ _ _ k D Hk).
      destruct (N k) as [H|(_ & Hin & _ & Hr)]; [exact H|].
      exfalso. apply (Hq _ Hin). exists k. now split.
    + unfold lookup, volume_lookup, file_at. now rewrite (resolve_ext _ _ q D), Hk.
Qed.

(** X2: a completed preparation: the target path comes from the
    descriptor's URL, both paths translate, and the boot volume is the one
    the janitor leaves: only nodes listed by the pattern under a name other
    than the two translated paths are gone, each such name is gone or the
    failure of its removal was logged, and a listed name that is one of the
    two paths keeps its file. *)
(** The branch that handles a failed removal is taken: on a volume where
    file operations fail the janitor logs the failure, leaves the file and
    the preparation completes. *)
Lemma failed_removal_is_logged :
  glob_names (fs world_cluttered) = ["/bootflash/old.bin"; "/bootflash/nxos.10.4.3.bin"]
  /\ fst (main_prepare env_readonly world_cluttered)
     = Ok (descriptor0, running_old, target0)
  /\ In (Log ERROR (MsgRemoveFailed "/bootflash/old.bin"))
        (trace (snd (main_prepare env_readonly world_cluttered)))
  /\ fs (snd (main_prepare env_readonly world_cluttered)) !! "/bootflash/old.bin"
     = Some ["o"%byte]
  /\ exists_at (fs (snd (main_prepare env_upgrade world_cluttered))) "/bootflash/old.bin"
     = false.
Proof.
  split; [vm_compute; reflexivity|]. split; [vm_compute; reflexivity|].
  split; [vm_compute; in_list|]. split; vm_compute; reflexivity.
Qed.

Theorem main_prepare_ok
    (env : Env) (w w0 : World) (b : BootstrapDescriptor) (r : RunningImage) (target : string) :
  main_prepare env w = (Ok (b, r, target), w0) ->
  target = target_of b
  /\ exists rp tp,
       to_posix_path (running_path r) = Ok rp
       /\ to_posix_path target = Ok tp
       /\ (forall k, nodes (fs w0) !! k = nodes (fs w) !! k
                     \/ (nodes (fs w0) !! k = None
                         /\ In (path_of k) (glob_names (fs w))
                         /\ stale rp tp (path_of k) = true))
       /\ (forall f, In f (glob_names (fs w)) -> stale rp tp f = true ->
             exists_at (fs w0) f = false
             \/ In (Log ERROR (MsgRemoveFailed f)) (trace w0))
       /\ (forall f, In f (glob_names (fs w)) -> stale rp tp f = false ->
             fs w0 !! f = fs w !! f).
Proof.
  intros H.
  destruct (main_prepare_inv env w w0 b r target H)
    as (Ht & rp & tp & w1 & Hrp & Htp & F1 & Hclean).
  split; [exact Ht|]. exists rp, tp.
  split; [exact Hrp|]. split; [exact Htp|].
  destruct (clean_old_images_result rp tp env w1) as (w0' & E & N & D & L).
  rewrite Hclean in E. injection E as <-. rewrite F1 in N, L.
  split; [intros k; destruct (N k) as [H1|(H1 & H2 & H3 & _)]; [now left|now right]|].
  split; [exact L|].
  intros f Hin Hs. rewrite <- F1 in Hin |- *.
  exact (proj1 (clean_old_images_protects rp tp f env w1 w0 Hclean Hin Hs)).
Qed.

Lemma main_prepare_ok_witness :
  main_prepare env_upgrade world_corrupt
  = (Ok (descriptor0, running_old, target0), world_prepared)
  /\ target0 = target_of descriptor0.
Proof.
  assert (H : main_prepare env_upgrade world_corrupt
              = (Ok (descriptor0, running_old, target0), world_prepared))
    by (vm_compute; reflexivity).
  split; [exact H|].
  exact (proj1 (main_prepare_ok env_upgrade world_corrupt world_prepared
                  descriptor0 running_old target0 H)).
Defined.

Lemma bootstrap_failure_exits_witness :
  dev_show_version env_no_descriptor (count is_command (trace world_old)) = Done version_old
  /\ http_bootstrap env_no_descriptor (proc_board_id version_old) = None
  /\ script env_no_descriptor world_old
     = (1%Z, MkWorld (fs world_old)
                     (trace world_old ++ [Command "show version";
                                          Log ERROR MsgBootstrapFailed])).
Proof.
  split; [reflexivity|]. split; [reflexivity|].
  apply (bootstrap_failure_exits env_no_descriptor world_old version_old); reflexivity.
Defined.

Lemma unknown_running_volume_aborts_witness :
  dev_show_version env_unknown_volume (count is_command (trace world_old))
  = Done version_unknown_volume
  /\ http_bootstrap env_unknown_volume (proc_board_id version_unknown_volume)
     = Some descriptor0
  /\ dev_show_version env_unknown_volume (S (count is_command (trace world_old)))
     = Done version_unknown_volume
  /\ ~ In (hd EmptyString (split "/" (nxos_file_name version_unknown_volume))) volume_labels
  /\ exit_status env_unknown_volume world_old = 1%Z.
Proof.
  assert (Hv : ~ In (hd EmptyString (split "/" (nxos_file_name version_unknown_volume)))
                  volume_labels).
  { simpl. intros H. repeat (destruct H as [H|H]; [discriminate H|]). exact H. }
  split; [reflexivity|]. split; [reflexivity|]. split; [reflexivity|]. split; [exact Hv|].
  unfold exit_status.
  now rewrite (unknown_running_volume_aborts env_unknown_volume world_old
                 version_unknown_volume version_unknown_volume descriptor0
                 eq_refl eq_refl eq_refl Hv).
Defined.

Lemma prepare_failure_keeps_files_witness :
  main_prepare env_no_descriptor world_old = (Raise (SystemExit 1), world_no_descriptor)
  /\ fs world_no_descriptor = fs world_old
  /\ fs (snd (script env_no_descriptor world_old)) = fs world_old
  /\ exit_status env_no_descriptor world_old = 1%Z.
Proof.
  assert (H : main_prepare env_no_descriptor world_old
              = (Raise (SystemExit 1), world_no_descriptor))
    by (vm_compute; reflexivity).
  split; [exact H|].
  exact (prepare_failure_keeps_files env_no_descriptor world_old world_no_descriptor
           (SystemExit 1) H).
Defined.

Lemma to_posix_path_not_idempotent_witness :
  to_posix_path "bootflash:/dir/file.bin" = Ok "/bootflash/dir/file.bin"
  /\ to_posix_path "/bootflash/dir/file.bin"
     = Raise (ValueError ("Unknown path type: " +:+ "/bootflash/dir/file.bin")).
Proof.
  split; [reflexivity|].
  apply (to_posix_path_not_idempotent "bootflash:/dir/file.bin"). reflexivity.
Defined.

Lemma to_posix_path_same_file_witness :
  to_posix_path "bootflash:///nxos.bin" = Ok "/bootflash/nxos.bin"
  /\ (to_posix_path "bootflash:/nxos.bin" = Ok "/bootflash/nxos.bin"
      <-> hd EmptyString (split "/" "bootflash:/nxos.bin")
          = hd EmptyString (split "/" "bootflash:///nxos.bin")
          /\ List.filter truthy (tl (split "/" "bootflash:/nxos.bin"))
             = List.filter truthy (tl (split "/" "bootflash:///nxos.bin"))).
Proof.
  split; [reflexivity|].
  apply (to_posix_path_same_file "bootflash:///nxos.bin" "bootflash:/nxos.bin").
  reflexivity.
Defined.

Lemma download_image_writes_witness :
  to_posix_path target0 = Ok "/bootflash/nxos.bin"
  /\ exists_at (fs world_old) "/bootflash/nxos.bin" = false
  /\ http_image env_upgrade (count is_download (trace world_old)) (url (image descriptor0))
     = HttpStream [["g"%byte; "a"%byte]; ["b"%byte]] true
  /\ exists w2,
       download_image (image descriptor0) target0 env_upgrade world_old
       = (verdict (image descriptor0) target0
                  (dev_md5sum env_upgrade (concat [["g"%byte; "a"%byte]; ["b"%byte]])), w2)
       /\ fs w2 !! "/bootflash/nxos.bin" = Some (concat [["g"%byte; "a"%byte]; ["b"%byte]]).
Proof.
  assert (He : exists_at (fs world_old) "/bootflash/nxos.bin" = false)
    by (vm_compute; reflexivity).
  split; [reflexivity|]. split; [exact He|]. split; [reflexivity|].
  apply (proj2 (download_image_writes (image descriptor0) target0 "/bootflash/nxos.bin"
                  [["g"%byte; "a"%byte]; ["b"%byte]] true env_upgrade world_old
                  eq_refl He eq_refl)).
  - reflexivity.
  - vm_compute; reflexivity.
  - intros n. reflexivity.
  - intros i j Hij. cbn. lia.
Defined.

Lemma download_image_truncated_witness :
  to_posix_path target0 = Ok "/bootflash/nxos.bin"
  /\ exists_at (fs world_old) "/bootflash/nxos.bin" = false
  /\ http_image env_truncated (count is_download (trace world_old)) (url (image descriptor0))
     = HttpStream [["g"%byte; "a"%byte]] false
  /\ download_image (image descriptor0) target0 env_truncated world_old
     = (Raise RequestException, world_truncated)
  /\ transfer_error RequestException = true
  /\ ((RequestException = OSError /\ fs world_truncated = fs world_old)
      \/ exists n,
           n <= 1
           /\ fs world_truncated !! "/bootflash/nxos.bin"
              = Some (concat (firstn n [["g"%byte; "a"%byte]]))).
Proof.
  assert (He : exists_at (fs world_old) "/bootflash/nxos.bin" = false)
    by (vm_compute; reflexivity).
  assert (Hdl : download_image (image descriptor0) target0 env_truncated world_old
                = (Raise RequestException, world_truncated))
    by (vm_compute; reflexivity).
  split; [reflexivity|]. split; [exact He|]. split; [reflexivity|]. split; [exact Hdl|].
  split; [reflexivity|].
  destruct (download_image_truncated (image descriptor0) target0 "/bootflash/nxos.bin"
              [["g"%byte; "a"%byte]] false env_truncated world_old world_truncated
              RequestException eq_refl He eq_refl Hdl eq_refl)
    as [H|(n & Hn & Hc & _)]; [now left|].
  right. exists n. now split.
Defined.

(** The division by the elapsed time does fail: with a clock that reads the
    same tick twice the transfer stops after the first chunk, which stays
    at the target path, and the run ends with status 1. *)
Lemma stalled_clock_aborts :
  fst (download_image (image descriptor0) target0 env_stalled world_old)
  = Raise ZeroDivisionError
  /\ fs (snd (download_image (image descriptor0) target0 env_stalled world_old))
       !! "/bootflash/nxos.bin"
     = Some ["g"%byte; "a"%byte]
  /\ exit_status env_stalled world_old = 1%Z.
Proof. repeat split; vm_compute; reflexivity. Qed.

(** X11: with nothing at the target path, a request the server refuses
    raises the transport error before any file is opened: the boot volume is
    as it was. *)
Theorem download_refused_keeps_files
    (image_conf : ImageSpec) (target p : string) (env : Env) (w : World) :
  to_posix_path target = Ok p ->
  exists_at (fs w) p = false ->
  http_image env (count is_download (trace w)) (url image_conf) = HttpError ->
  exists w2,
    download_image image_conf target env w = (Raise RequestException, w2)
    /\ fs w2 = fs w
    /\ trace w2 = trace w ++ [Log INFO (MsgDownloading (url image_conf) target);
                              HttpGet (url image_conf)].
Proof.
  intros Hp He Hreply.
  assert (Hc : count is_download
                 (trace w ++ [Log INFO (MsgDownloading (url image_conf) target)])
               = count is_download (trace w)) by (now apply count_log).
  exists (MkWorld (fs w) (trace w ++ [Log INFO (MsgDownloading (url image_conf) target);
                                      HttpGet (url image_conf)])).
  split; [|split; reflexivity].
  rewrite (download_image_missing image_conf target p env w Hp He).
  unfold bind at 1, download_stream.
  unfold bind at 1, log, emit. unfold bind at 1, requests_get. cbn [fs trace].
  rewrite Hc, Hreply. now rewrite <- app_assoc.
Qed.

Lemma download_refused_keeps_files_witness :
  to_posix_path target0 = Ok "/bootflash/nxos.bin"
  /\ exists_at (fs world_old) "/bootflash/nxos.bin" = false
  /\ http_image env_refused (count is_download (trace world_old)) (url (image descriptor0))
     = HttpError
  /\ exists w2,
       download_image (image descriptor0) target0 env_refused world_old
       = (Raise RequestException, w2)
       /\ fs w2 = fs world_old.
Proof.
  assert (He : exists_at (fs world_old) "/bootflash/nxos.bin" = false)
    by (vm_compute; reflexivity).
  split; [reflexivity|]. split; [exact He|]. split; [reflexivity|].
  destruct (download_refused_keeps_files (image descriptor0) target0 "/bootflash/nxos.bin"
              env_refused world_old eq_refl He eq_refl) as (w2 & E & F & _).
  exists w2. split; [exact E|exact F].
Defined.

Lemma transport_error_exits_witness :
  main_prepare env_refused world_old
  = (Ok (descriptor0, running_old, target0), world_refused_prepared)
  /\ download_image (image descriptor0) target0 env_refused world_refused_prepared
     = (Raise RequestException, world_refused)
  /\ script env_refused world_old
     = (1%Z, MkWorld (fs world_refused)
                     (trace world_refused ++ [Log ERROR MsgDownloadFailed])).
Proof.
  assert (H1 : main_prepare env_refused world_old
               = (Ok (descriptor0, running_old, target0), world_refused_prepared))
    by (vm_compute; reflexivity).
  assert (H2 : download_image (image descriptor0) target0 env_refused world_refused_prepared
               = (Raise RequestException, world_refused))
    by (vm_compute; reflexivity).
  split; [exact H1|]. split; [exact H2|].
  exact (proj2 (transport_error_exits env_refused world_old world_refused_prepared
                  world_refused descriptor0 running_old target0 H1 H2)).
Defined.

(** X13: the download phase, retry included, changes the boot volume at
    most in the file the target path leads to: every other node, and so the
    file at every path that does not lead to the same place, is as it was;
    with a target
    path that does not translate it raises the path error at once and
    changes nothing. *)
Theorem main_download_frame
    (b : BootstrapDescriptor) (r : RunningImage) (target : string) (env : Env) (w : World) :
  (forall p, to_posix_path target = Ok p ->
     (forall k, resolve (fs w) p <> Some k ->
                nodes (fs (snd (main_download b r target env w))) !! k = nodes (fs w) !! k)
     /\ (forall q, ~ same_place (fs w) q p ->
                   fs (snd (main_download b r target env w)) !! q = fs w !! q))
  /\ (forall e, to_posix_path target = Raise e ->
       main_download b r target env w = (Raise e, w)).
Proof.
  split.
  - intros p Hp. pose proof (main_download_touches b r target p Hp env w) as H.
    split; [exact (proj1 H)|]. intros q Hq. now apply (changes_at_elsewhere p).
  - intros e He.
    assert (Hdl : download_image (image b) target env w = (Raise e, w)).
    { unfold download_image, bind, lift. now rewrite He. }
    unfold main_download, catch. rewrite Hdl.
    unfold to_posix_path in He. destruct (str_in _ _); [discriminate He|].
    now injection He as <-.
Qed.

Lemma running_image_survives_witness :
  main_prepare env_upgrade world_corrupt
  = (Ok (descriptor0, running_old, target0), world_prepared)
  /\ to_posix_path (running_path running_old) = Ok "/bootflash/nxos.10.4.3.bin"
  /\ to_posix_path target0 = Ok "/bootflash/nxos.bin"
  /\ resolve (fs world_corrupt) "/bootflash/nxos.10.4.3.bin"
     = Some ["bootflash"; "nxos.10.4.3.bin"]
  /\ path_of ["bootflash"; "nxos.10.4.3.bin"] = "/bootflash/nxos.10.4.3.bin"
  /\ resolve (fs world_corrupt) "/bootflash/nxos.bin" <> Some ["bootflash"; "nxos.10.4.3.bin"]
  /\ fs (snd (script env_upgrade world_corrupt)) !! "/bootflash/nxos.10.4.3.bin"
     = fs world_corrupt !! "/bootflash/nxos.10.4.3.bin".
Proof.
  assert (H1 : main_prepare env_upgrade world_corrupt
               = (Ok (descriptor0, running_old, target0), world_prepared))
    by (vm_compute; reflexivity).
  assert (H2 : resolve (fs world_corrupt) "/bootflash/nxos.10.4.3.bin"
               = Some ["bootflash"; "nxos.10.4.3.bin"]) by (vm_compute; reflexivity).
  assert (H3 : resolve (fs world_corrupt) "/bootflash/nxos.bin"
               <> Some ["bootflash"; "nxos.10.4.3.bin"])
    by (vm_compute; intros H; discriminate H).
  split; [exact H1|]. split; [reflexivity|]. split; [reflexivity|]. split; [exact H2|].
  split; [reflexivity|]. split; [exact H3|].
  exact (proj2 (running_image_survives env_upgrade world_corrupt world_prepared descriptor0
                  running_old target0 "/bootflash/nxos.10.4.3.bin" "/bootflash/nxos.bin"
                  ["bootflash"; "nxos.10.4.3.bin"] H1 eq_refl eq_refl H2 eq_refl H3)).
Defined.

(** X15: the exit status of the process is 0 or 1, and it is 0 exactly when
    [main] returns normally. *)
Theorem exit_status_spec (env : Env) (w : World) :
  (exit_status env w = 0%Z \/ exit_status env w = 1%Z)
  /\ (exit_status env w = 0%Z <-> exists w', main env w = (Ok tt, w')).
Proof.
  unfold exit_status, script.
  pose proof (main_exit_ok env w) as Hq.
  destruct (main env w) as [[[]|e] w']; cbn [fst] in *.
  - split; [now left|]. split; [eauto|reflexivity].
  - specialize (Hq e eq_refl).
    destruct e; cbn [fst]; try (split; [now right|split; [discriminate|intros [? [=]]]]).
    cbn [exit_ok] in Hq. apply Z.eqb_eq in Hq as ->.
    split; [now right|split; [discriminate|intros [? [=]]]].
Qed.

(** X20: when the target path string is the running image's path, a
    checksum error of the first attempt is only logged: the download phase
    returns normally, the rejected file stays where it is, and the run goes
    on to the boot configuration. *)
Theorem checksum_error_logged_only
    (env : Env) (w w0 w1 : World) (b : BootstrapDescriptor) (r : RunningImage)
    (target msg : string) :
  main_prepare env w = (Ok (b, r, target), w0) ->
  target = running_path r ->
  download_image (image b) target env w0 = (Raise (ChecksumError msg), w1) ->
  exists w2 p content,
    main_download b r target env w0 = (Ok tt, w2)
    /\ fs w2 = fs w1
    /\ trace w2 = trace w1 ++ [Log ERROR (MsgException (ChecksumError msg))]
    /\ to_posix_path target = Ok p
    /\ fs w2 !! p = Some content
    /\ main env w = (main_boot_config b r target ;; main_persist b) env w2.
Proof.
  intros Hprep Heq Hfirst.
  destruct (checksum_error_file _ _ _ _ _ _ Hfirst) as (p & content & Hp & Hc).
  assert (Hdl : main_download b r target env w0
                = (Ok tt, MkWorld (fs w1)
                                  (trace w1 ++ [Log ERROR (MsgException (ChecksumError msg))]))).
  { unfold main_download, catch. rewrite Hfirst.
    apply String.eqb_eq in Heq. now rewrite Heq. }
  exists (MkWorld (fs w1) (trace w1 ++ [Log ERROR (MsgException (ChecksumError msg))])),
         p, content.
  split; [exact Hdl|]. split; [reflexivity|]. split; [reflexivity|].
  split; [exact Hp|]. split; [exact Hc|].
  unfold main. unfold bind at 1. rewrite Hprep. cbn [fst snd].
  unfold bind at 1. now rewrite Hdl.
Qed.

Lemma checksum_error_logged_only_witness :
  main_prepare env_same_path world_stale
  = (Ok (descriptor0, running_same, target0), world_same_prepared)
  /\ target0 = running_path running_same
  /\ download_image (image descriptor0) target0 env_same_path world_same_prepared
     = (Raise (ChecksumError mismatch0), world_same_attempted)
  /\ exists w2,
       main_download descriptor0 running_same target0 env_same_path world_same_prepared
       = (Ok tt, w2)
       /\ fs w2 = fs world_same_attempted.
Proof.
  assert (H1 : main_prepare env_same_path world_stale
               = (Ok (descriptor0, running_same, target0), world_same_prepared))
    by (vm_compute; reflexivity).
  assert (H3 : download_image (image descriptor0) target0 env_same_path world_same_prepared
               = (Raise (ChecksumError mismatch0), world_same_attempted))
    by (vm_compute; reflexivity).
  split; [exact H1|]. split; [reflexivity|]. split; [exact H3|].
  destruct (checksum_error_logged_only env_same_path world_stale world_same_prepared
              world_same_attempted descriptor0 running_same target0 mismatch0
              H1 eq_refl H3) as (w2 & _ & _ & E & F & _).
  exists w2. split; [exact E|exact F].
Defined.

(** X21: whatever a call of [download_image] did, once it has reached the
    verification the file is at the target path and the outcome was the
    verdict on its digest; a second call finds the file, transfers nothing,
    changes no file and has the same outcome. *)
Theorem download_image_second_call
    (image_conf : ImageSpec) (target : string) (env : Env) (w w1 : World) (res : result unit) :
  download_image image_conf target env w = (res, w1) ->
  (res = Ok tt \/ exists msg, res = Raise (ChecksumError msg)) ->
  exists p content,
    to_posix_path target = Ok p
    /\ fs w1 !! p = Some content
    /\ res = verdict image_conf target (dev_md5sum env content)
    /\ download_image image_conf target env w1
       = (res, MkWorld (fs w1)
                       (trace w1 ++ Log INFO (MsgAlreadyExists target)
                          :: verify_events image_conf target (dev_md5sum env content))).
Proof.
  intros H Hres.
  destruct (download_image_verdict image_conf target env w w1 res H Hres)
    as (p & content & Hp & Hc & Hv).
  exists p, content. split; [exact Hp|]. split; [exact Hc|]. split; [exact Hv|].
  rewrite Hv at 1.
  exact (download_image_present image_conf target p content env w1 Hp Hc).
Qed.

Lemma download_image_second_call_witness :
  download_image (image descriptor0) target0 env_upgrade world_old = (Ok tt, world_fetched)
  /\ (Ok tt = Ok tt \/ exists msg, Ok tt = Raise (ChecksumError msg))
  /\ exists w2,
       download_image (image descriptor0) target0 env_upgrade world_fetched = (Ok tt, w2)
       /\ fs w2 = fs world_fetched.
Proof.
  assert (H : download_image (image descriptor0) target0 env_upgrade world_old
              = (Ok tt, world_fetched)) by (vm_compute; reflexivity).
  split; [exact H|]. split; [now left|].
  destruct (download_image_second_call (image descriptor0) target0 env_upgrade
              world_old world_fetched (Ok tt) H (or_introl eq_refl))
    as (p & content & _ & _ & _ & E).
  eexists. split; [exact E|reflexivity].
Defined.
